(** * fabrica / pkg/codegen: the generator's registry, introspector and pipeline

    A shallow embedding of [pkg/codegen/generator.go].  Go strings are byte
    strings ([string]); the tag map of a resource is a [gmap]; the generation
    pipeline is a small state-and-error monad over a trace of the effects it
    performs (template executions, formatting, file-system calls). *)

From Stdlib Require Import String Ascii List Bool Arith Lia.
From stdpp Require Import base option list gmap strings.
Import ListNotations.

Local Open Scope string_scope.
Local Open Scope list_scope.

(** ** The parts of Go's [strings] package that the generator calls *)

Module strings.

(** [strings.Split(s, sep)] for a one-byte separator: the pieces between the
    occurrences of [sep]; a string without [sep] (the empty string too) gives
    one piece. *)
Fixpoint Split (s : string) (sep : ascii) : list string :=
  match s with
  | EmptyString => [EmptyString]
  | String c s' =>
      if Ascii.eqb c sep then EmptyString :: Split s' sep
      else match Split s' sep with
           | p :: ps => String c p :: ps
           | [] => [String c EmptyString]
           end
  end.

(** [strings.Contains(s, substr)]. *)
Fixpoint Contains (s substr : string) : bool :=
  if String.prefix substr s then true
  else match s with
       | EmptyString => false
       | String _ s' => Contains s' substr
       end.

Definition lower_byte (c : ascii) : ascii :=
  let n := nat_of_ascii c in
  if ((65 <=? n) && (n <=? 90))%nat then ascii_of_nat (n + 32) else c.

(** [strings.ToLower] on an ASCII string: the letters 'A'..'Z' are mapped to
    'a'..'z' and every other byte is kept.  (On a string with bytes outside
    ASCII Go goes through the Unicode tables; those are not modelled, and
    the statements that depend on case folding say [isASCII].) *)
Fixpoint ToLower (s : string) : string :=
  match s with
  | EmptyString => EmptyString
  | String c s' => String (lower_byte c) (ToLower s')
  end.



End strings.

(** ** Type descriptors: the part of [reflect] that registration reads *)

Module reflect.

Inductive Kind : Set :=
| Invalid | Bool | Int | Int8 | Int16 | Int32 | Int64
| Uint | Uint8 | Uint16 | Uint32 | Uint64 | Uintptr
| Float32 | Float64 | Complex64 | Complex128
| Array | Chan | Func | Interface | Map | Ptr | Slice | String | Struct
| UnsafePointer.

(** The kinds whose types have neither an element type nor fields. *)
Inductive BasicKind : Set :=
| BBool | BInt | BInt8 | BInt16 | BInt32 | BInt64
| BUint | BUint8 | BUint16 | BUint32 | BUint64 | BUintptr
| BFloat32 | BFloat64 | BComplex64 | BComplex128
| BFunc | BInterface | BString | BUnsafePointer.

Definition kind_of_basic (b : BasicKind) : Kind :=
  match b with
  | BBool => Bool | BInt => Int | BInt8 => Int8 | BInt16 => Int16
  | BInt32 => Int32 | BInt64 => Int64
  | BUint => Uint | BUint8 => Uint8 | BUint16 => Uint16
  | BUint32 => Uint32 | BUint64 => Uint64 | BUintptr => Uintptr
  | BFloat32 => Float32 | BFloat64 => Float64
  | BComplex64 => Complex64 | BComplex128 => Complex128
  | BFunc => Func | BInterface => Interface | BString => String
  | BUnsafePointer => UnsafePointer
  end.

(** What every type carries: [Name()] (empty for an unnamed type),
    [PkgPath()] (empty for predeclared and unnamed types) and [String()]. *)
Record Header : Set := mkHeader {
  hName : string;
  hPkgPath : string;
  hString : string
}.

(** A struct tag, already cut into its pairs of a key and a value. *)
Definition StructTag : Set := list (string * string).

Inductive Type_ : Set :=
| Basic (h : Header) (k : BasicKind)
| PtrTo (h : Header) (elem : Type_)
| SliceOf (h : Header) (elem : Type_)
| ArrayOf (h : Header) (len : nat) (elem : Type_)
| ChanOf (h : Header) (elem : Type_)
| MapOf (h : Header) (key elem : Type_)
| StructOf (h : Header) (fields : list StructField)
with StructField : Set :=
| mkStructField (fName fPkgPath : string) (fType : Type_) (fTag : StructTag).

Definition header (t : Type_) : Header :=
  match t with
  | Basic h _ | PtrTo h _ | SliceOf h _ | ArrayOf h _ _ | ChanOf h _
  | MapOf h _ _ | StructOf h _ => h
  end.

Definition Name (t : Type_) : string := hName (header t).
Definition PkgPath (t : Type_) : string := hPkgPath (header t).
Definition String_ (t : Type_) : string := hString (header t).

Definition kind (t : Type_) : Kind :=
  match t with
  | Basic _ k => kind_of_basic k
  | PtrTo _ _ => Ptr
  | SliceOf _ _ => Slice
  | ArrayOf _ _ _ => Array
  | ChanOf _ _ => Chan
  | MapOf _ _ _ => Map
  | StructOf _ _ => Struct
  end.

(** [Elem()]; it panics ([None]) on a type without an element. *)
Definition Elem (t : Type_) : option Type_ :=
  match t with
  | PtrTo _ e | SliceOf _ e | ArrayOf _ _ e | ChanOf _ e | MapOf _ _ e => Some e
  | Basic _ _ | StructOf _ _ => None
  end.

(** The fields [Field(0)], ..., [Field(NumField()-1)]; [NumField] panics
    ([None]) on a type that is not a struct. *)
Definition Fields (t : Type_) : option (list StructField) :=
  match t with
  | StructOf _ fs => Some fs
  | _ => None
  end.

Definition Field_Name (f : StructField) : string :=
  match f with mkStructField n _ _ _ => n end.
Definition Field_PkgPath (f : StructField) : string :=
  match f with mkStructField _ p _ _ => p end.
Definition Field_Type (f : StructField) : Type_ :=
  match f with mkStructField _ _ t _ => t end.
Definition Field_Tag (f : StructField) : StructTag :=
  match f with mkStructField _ _ _ t => t end.

(** [StructField.IsExported]: the package path of a field is set for the
    unexported ones only. *)
Definition IsExported (f : StructField) : bool :=
  String.eqb (Field_PkgPath f) EmptyString.

(** [StructTag.Get]: the value of the first pair with this key, the empty
    string when there is none. *)
Fixpoint Get (tag : StructTag) (key : string) : string :=
  match tag with
  | [] => EmptyString
  | (k, v) :: rest => if String.eqb k key then v else Get rest key
  end.

Definition Kind_eqb (a b : Kind) : bool :=
  match a, b with
  | Invalid, Invalid | Bool, Bool | Int, Int | Int8, Int8 | Int16, Int16
  | Int32, Int32 | Int64, Int64 | Uint, Uint | Uint8, Uint8
  | Uint16, Uint16 | Uint32, Uint32 | Uint64, Uint64 | Uintptr, Uintptr
  | Float32, Float32 | Float64, Float64 | Complex64, Complex64
  | Complex128, Complex128 | Array, Array | Chan, Chan | Func, Func
  | Interface, Interface | Map, Map | Ptr, Ptr | Slice, Slice
  | String, String | Struct, Struct | UnsafePointer, UnsafePointer => true
  | _, _ => false
  end.

End reflect.

(** ** The data model *)

Module SpecField.
Record t : Set := mk {
  Name : string;
  JSONName : string;
  Type_ : string;
  Required : bool;
  ExampleValue : string
}.
End SpecField.

(** The double quote, as a one-byte string. *)
Definition dq : string := String (ascii_of_nat 34) EmptyString.

(** generateExampleValue: an example value from the kind of the field's type
    and, for strings, from the field's name. *)
Definition generateExampleValue (t : reflect.Type_) (fieldName : string) : string :=
  match reflect.kind t with
  | reflect.String =>
      let lowerName := strings.ToLower fieldName in
      if strings.Contains lowerName "name" then "example-name"
      else if strings.Contains lowerName "description" then "Example description"
      else if strings.Contains lowerName "email" then "user@example.com"
      else if strings.Contains lowerName "url" || strings.Contains lowerName "uri"
      then "https://example.com"
      else if strings.Contains lowerName "ip" || strings.Contains lowerName "address"
      then "192.168.1.1"
      else if strings.Contains lowerName "location" then "DataCenter A"
      else "example-value"
  | reflect.Int | reflect.Int8 | reflect.Int16 | reflect.Int32 | reflect.Int64 => "42"
  | reflect.Uint | reflect.Uint8 | reflect.Uint16 | reflect.Uint32 | reflect.Uint64 => "42"
  | reflect.Float32 | reflect.Float64 => "3.14"
  | reflect.Bool => "true"
  | reflect.Slice =>
      match reflect.Elem t with
      | Some elemType =>
          if reflect.Kind_eqb (reflect.kind elemType) reflect.String
          then "[" +:+ dq +:+ "item1" +:+ dq +:+ "," +:+ dq +:+ "item2" +:+ dq +:+ "]"
          else "[]"
      | None => "[]"
      end
  | reflect.Map => "{" +:+ dq +:+ "key" +:+ dq +:+ ":" +:+ dq +:+ "value" +:+ dq +:+ "}"
  | _ => "{}"
  end.

(** The [SpecField] that the inner loop of [extractFields] appends for one
    exported field of the sub-record. *)
Definition specFieldOf (structField : reflect.StructField) : SpecField.t :=
  let jsonTag := reflect.Get (reflect.Field_Tag structField) "json" in
  let jsonName :=
    if negb (String.eqb jsonTag EmptyString) then
      let parts := strings.Split jsonTag "," in
      let p0 := List.hd EmptyString parts in
      if negb (String.eqb p0 EmptyString) && negb (String.eqb p0 "-")
      then p0 else reflect.Field_Name structField
    else reflect.Field_Name structField in
  let validateTag := reflect.Get (reflect.Field_Tag structField) "validate" in
  let required := strings.Contains validateTag "required" in
  let exampleValue :=
    generateExampleValue (reflect.Field_Type structField)
                         (reflect.Field_Name structField) in
  {| SpecField.Name := reflect.Field_Name structField;
     SpecField.JSONName := jsonName;
     SpecField.Type_ := reflect.String_ (reflect.Field_Type structField);
     SpecField.Required := required;
     SpecField.ExampleValue := exampleValue |}.

(** The inner loop of [extractFields], over the fields of the sub-record. *)
Definition extractFields_inner (subFields : list reflect.StructField)
  : list SpecField.t :=
  fold_left
    (fun fields structField =>
       if negb (reflect.IsExported structField) then fields
       else fields ++ [specFieldOf structField])
    subFields [].

(** The outer loop: it stops at the first field named [targetField]; [None]
    is the panic of [NumField] on a sub-record that is not a struct. *)
Fixpoint extractFields_outer (outerFields : list reflect.StructField)
    (targetField : string) : option (list SpecField.t) :=
  match outerFields with
  | [] => Some []
  | field :: rest =>
      if String.eqb (reflect.Field_Name field) targetField then
        let structType :=
          match reflect.kind (reflect.Field_Type field),
                reflect.Elem (reflect.Field_Type field) with
          | reflect.Ptr, Some e => e
          | _, _ => reflect.Field_Type field
          end in
        match reflect.Fields structType with
        | Some subFields => Some (extractFields_inner subFields)
        | None => None
        end
      else extractFields_outer rest targetField
  end.

(** extractFields: [None] when [NumField] panics, on a resource type or a
    targeted field that is not a struct. *)
Definition extractFields (resourceType : reflect.Type_) (targetField : string)
  : option (list SpecField.t) :=
  match reflect.Fields resourceType with
  | Some outerFields => extractFields_outer outerFields targetField
  | None => None
  end.

Module SchemaVersion.
Record t : Set := mk {
  Version : string;
  IsDefault : bool;
  Stability : string;
  Deprecated : bool;
  SpecType : string;
  StatusType : string;
  TypeName : string;
  Package : string;
  Transforms : list string
}.
End SchemaVersion.

Module ResourceMetadata.
(** [Tags] is [None] for Go's nil map. *)
Record t : Type := mk {
  Name : string;
  PluralName : string;
  Package : string;
  PackageAlias : string;
  TypeName : string;
  SpecType : string;
  StatusType : string;
  URLPath : string;
  StorageName : string;
  Tags : option (gmap string string);
  SpecFields : list SpecField.t;
  StatusFields : list SpecField.t;
  Versions : list SchemaVersion.t;
  DefaultVersion : string;
  APIGroupVersion : string
}.

Definition with_Tags (r : t) (tags : option (gmap string string)) : t :=
  mk (Name r) (PluralName r) (Package r) (PackageAlias r) (TypeName r)
     (SpecType r) (StatusType r) (URLPath r) (StorageName r) tags
     (SpecFields r) (StatusFields r) (Versions r) (DefaultVersion r)
     (APIGroupVersion r).

Definition with_Versions (r : t) (vs : list SchemaVersion.t) : t :=
  mk (Name r) (PluralName r) (Package r) (PackageAlias r) (TypeName r)
     (SpecType r) (StatusType r) (URLPath r) (StorageName r) (Tags r)
     (SpecFields r) (StatusFields r) vs (DefaultVersion r)
     (APIGroupVersion r).

Definition with_DefaultVersion (r : t) (v : string) : t :=
  mk (Name r) (PluralName r) (Package r) (PackageAlias r) (TypeName r)
     (SpecType r) (StatusType r) (URLPath r) (StorageName r) (Tags r)
     (SpecFields r) (StatusFields r) (Versions r) v (APIGroupVersion r).

Definition with_APIGroupVersion (r : t) (v : string) : t :=
  mk (Name r) (PluralName r) (Package r) (PackageAlias r) (TypeName r)
     (SpecType r) (StatusType r) (URLPath r) (StorageName r) (Tags r)
     (SpecFields r) (StatusFields r) (Versions r) (DefaultVersion r) v.
End ResourceMetadata.

Module GeneratorConfig.
Record t : Set := mk {
  ValidationEnabled : bool;
  ValidationMode : string;
  ConditionalEnabled : bool;
  ETagAlgorithm : string;
  VersioningEnabled : bool;
  VersionStrategy : string;
  EventsEnabled : bool;
  EventBusType : string;
  StorageType : string;
  DBDriver : string
}.
End GeneratorConfig.

Module Generator.
(** [Templates] maps the logical name of a parsed template to the asset it
    was parsed from. *)
Record t : Type := mk {
  OutputDir : string;
  PackageName : string;
  ModulePath : string;
  Resources : list ResourceMetadata.t;
  Templates : gmap string string;
  StorageType : string;
  DBDriver : string;
  Verbose : bool;
  Config : GeneratorConfig.t;
  Version : string
}.

Definition with_Resources (g : t) (rs : list ResourceMetadata.t) : t :=
  mk (OutputDir g) (PackageName g) (ModulePath g) rs (Templates g)
     (StorageType g) (DBDriver g) (Verbose g) (Config g) (Version g).

Definition with_Templates (g : t) (ts : gmap string string) : t :=
  mk (OutputDir g) (PackageName g) (ModulePath g) (Resources g) ts
     (StorageType g) (DBDriver g) (Verbose g) (Config g) (Version g).

Definition with_StorageType (g : t) (s : string) : t :=
  mk (OutputDir g) (PackageName g) (ModulePath g) (Resources g) (Templates g)
     s (DBDriver g) (Verbose g) (Config g) (Version g).

Definition with_DBDriver (g : t) (s : string) : t :=
  mk (OutputDir g) (PackageName g) (ModulePath g) (Resources g) (Templates g)
     (StorageType g) s (Verbose g) (Config g) (Version g).
End Generator.

(** Go's [error] result: [None] is nil, [Some msg] an error with that
    message. *)
Definition error : Set := option string.

(** NewGenerator *)
Definition NewGenerator (outputDir packageName modulePath : string) : Generator.t :=
  {| Generator.OutputDir := outputDir;
     Generator.PackageName := packageName;
     Generator.ModulePath := modulePath;
     Generator.Resources := [];
     Generator.Templates := ∅;
     Generator.StorageType := "file";
     Generator.DBDriver := "sqlite";
     Generator.Verbose := false;
     Generator.Config :=
       {| GeneratorConfig.ValidationEnabled := true;
          GeneratorConfig.ValidationMode := "strict";
          GeneratorConfig.ConditionalEnabled := true;
          GeneratorConfig.ETagAlgorithm := "sha256";
          GeneratorConfig.VersioningEnabled := true;
          GeneratorConfig.VersionStrategy := "header";
          GeneratorConfig.EventsEnabled := false;
          GeneratorConfig.EventBusType := "memory";
          GeneratorConfig.StorageType := "file";
          GeneratorConfig.DBDriver := "sqlite" |};
     Generator.Version := EmptyString |}.

Definition SetStorageType (g : Generator.t) (storageType : string) : Generator.t :=
  Generator.with_StorageType g storageType.

Definition SetDBDriver (g : Generator.t) (driver : string) : Generator.t :=
  Generator.with_DBDriver g driver.

(** RegisterResource.  The result is [None] when the reflection calls panic
    (a descriptor that is not a struct, or a Spec or Status field that is
    not one); otherwise the method returns nil and the registry has one
    more entry. *)
Definition RegisterResource (g : Generator.t) (resourceType : reflect.Type_)
  : option Generator.t :=
  let t :=
    match reflect.kind resourceType, reflect.Elem resourceType with
    | reflect.Ptr, Some e => e
    | _, _ => resourceType
    end in
  let name := reflect.Name t in
  let pluralName := strings.ToLower name +:+ "s" in
  let specTypeName := name +:+ "Spec" in
  let storageName := name in
  let pkgPath := reflect.PkgPath t in
  let parts := strings.Split pkgPath "/" in
  let '(packageImport, typePrefix) :=
    if (0 <? length parts)%nat
    then (pkgPath, List.last parts EmptyString)
    else (pkgPath, "resources") in
  match extractFields t "Spec", extractFields t "Status" with
  | Some specFields, Some statusFields =>
      let defaultVersion :=
        {| SchemaVersion.Version := "v1";
           SchemaVersion.IsDefault := true;
           SchemaVersion.Stability := "stable";
           SchemaVersion.Deprecated := false;
           SchemaVersion.SpecType := typePrefix +:+ "." +:+ specTypeName;
           SchemaVersion.StatusType := typePrefix +:+ "." +:+ name +:+ "Status";
           SchemaVersion.TypeName := "*" +:+ typePrefix +:+ "." +:+ name;
           SchemaVersion.Package := packageImport;
           SchemaVersion.Transforms := [] |} in
      let metadata :=
        {| ResourceMetadata.Name := name;
           ResourceMetadata.PluralName := pluralName;
           ResourceMetadata.Package := packageImport;
           ResourceMetadata.PackageAlias := typePrefix;
           ResourceMetadata.TypeName := "*" +:+ typePrefix +:+ "." +:+ name;
           ResourceMetadata.SpecType := typePrefix +:+ "." +:+ specTypeName;
           ResourceMetadata.StatusType := typePrefix +:+ "." +:+ name +:+ "Status";
           ResourceMetadata.URLPath := "/" +:+ pluralName;
           ResourceMetadata.StorageName := storageName;
           ResourceMetadata.Tags := Some ∅;
           ResourceMetadata.SpecFields := specFields;
           ResourceMetadata.StatusFields := statusFields;
           ResourceMetadata.Versions := [defaultVersion];
           ResourceMetadata.DefaultVersion := "v1";
           ResourceMetadata.APIGroupVersion := "v1" |} in
      Some (Generator.with_Resources g (Generator.Resources g ++ [metadata]))
  | _, _ => None
  end.

(** The test of the loops that look a resource up by its logical name. *)
Definition named (resourceName : string) (r : ResourceMetadata.t) : Prop :=
  ResourceMetadata.Name r = resourceName.

#[global] Instance named_dec resourceName r : Decision (named resourceName r).
Proof. unfold named. apply _. Defined.

(** SetResourceTag: the first resource with this name gets the tag (its map
    is made when it is nil); nothing happens when there is none. *)
Definition SetResourceTag (g : Generator.t) (resourceName key value : string)
  : Generator.t :=
  match list_find (named resourceName) (Generator.Resources g) with
  | Some (i, r) =>
      let tags :=
        match ResourceMetadata.Tags r with
        | None => ∅
        | Some m => m
        end in
      Generator.with_Resources g
        (<[i := ResourceMetadata.with_Tags r (Some (<[key := value]> tags))]>
           (Generator.Resources g))
  | None => g
  end.

(** AddResourceVersion: the error it returns, and the generator afterwards. *)
Definition AddResourceVersion (g : Generator.t) (resourceName : string)
    (version : SchemaVersion.t) : error * Generator.t :=
  match list_find (named resourceName) (Generator.Resources g) with
  | Some (i, resource) =>
      if existsb
           (fun existingVersion =>
              String.eqb (SchemaVersion.Version existingVersion)
                         (SchemaVersion.Version version))
           (ResourceMetadata.Versions resource)
      then (Some ("version " +:+ SchemaVersion.Version version +:+
                  " already exists for resource " +:+ resourceName), g)
      else
        let r1 :=
          ResourceMetadata.with_Versions resource
            (ResourceMetadata.Versions resource ++ [version]) in
        let r2 :=
          if SchemaVersion.IsDefault version
          then ResourceMetadata.with_DefaultVersion r1 (SchemaVersion.Version version)
          else r1 in
        (None, Generator.with_Resources g (<[i := r2]> (Generator.Resources g)))
  | None => (Some ("resource " +:+ resourceName +:+ " not found"), g)
  end.

(** SetAPIGroupVersion *)
Definition SetAPIGroupVersion (g : Generator.t) (apiGroupVersion : string)
  : Generator.t :=
  Generator.with_Resources g
    (map (fun r => ResourceMetadata.with_APIGroupVersion r apiGroupVersion)
         (Generator.Resources g)).

(** GetResourceByName: the index the returned pointer refers to, with the
    record there. *)
Definition GetResourceByName (g : Generator.t) (name : string)
  : option (nat * ResourceMetadata.t) :=
  list_find (named name) (Generator.Resources g).

(** ** The generation pipeline *)

(** More of [strings] and [filepath], for the names the pipeline builds. *)
Module names.

(** [strings.ReplaceAll(s, old, new)] for one-byte [old] and [new]. *)
Fixpoint ReplaceAll (s : string) (old new : ascii) : string :=
  match s with
  | EmptyString => EmptyString
  | String c s' =>
      String (if Ascii.eqb c old then new else c) (ReplaceAll s' old new)
  end.

(** A path is kept as the list of the elements handed to [filepath.Join];
    the cleaning that [Join] does on the joined string is not modelled. *)
Definition Path : Set := list string.

Definition Join (dir : Path) (elems : list string) : Path := dir ++ elems.

(** The text of a path, its elements put together with slashes. *)
Fixpoint text (p : Path) : string :=
  match p with
  | [] => EmptyString
  | [e] => e
  | e :: rest => e +:+ "/" +:+ text rest
  end.

(** [filepath.Ext]: the suffix of the last slash-separated element from
    its last dot on, empty when it has no dot. *)
Definition Ext (p : Path) : string :=
  let base := List.last (strings.Split (text p) "/") EmptyString in
  match strings.Split base "." with
  | [] | [_] => EmptyString
  | parts => "." +:+ List.last parts EmptyString
  end.

End names.

(** The data handed to a template.  The time stamp [GeneratedAt] that each
    of them also carries is read from the clock and left out. *)
Inductive TemplateData : Type :=
| ResourceData (resource : ResourceMetadata.t) (PerResourceVersioning : bool)
               (ModulePath Version Template : string)
| GlobalData (PackageName ModulePath : string)
             (Resources : list ResourceMetadata.t)
             (ProjectName StorageType DBDriver : string)
             (Config : GeneratorConfig.t) (Version Template : string)
| MiddlewareData (ValidationMode : string) (ValidationEnabled : bool)
                 (ETagAlgorithm VersionStrategy EventBusType : string)
                 (EventsEnabled : bool) (Version Template : string)
| VersionData (Version Template : string).

(** templateData *)
Definition templateData (g : Generator.t) (resource : ResourceMetadata.t)
    (templateName : string) : TemplateData :=
  let perResVersioning :=
    match ResourceMetadata.Tags resource with
    | Some tags =>
        match tags !! "versioning" with
        | Some v => String.eqb v "enabled" || String.eqb v "true" || String.eqb v "1"
        | None => false
        end
    | None => false
    end in
  ResourceData resource perResVersioning (Generator.ModulePath g)
               (Generator.Version g) templateName.

(** extractProjectName *)
Definition extractProjectName (g : Generator.t) : string :=
  let parts := strings.Split (Generator.ModulePath g) "/" in
  if (0 <? length parts)%nat then
    let projectName := List.last parts EmptyString in
    names.ReplaceAll (names.ReplaceAll projectName "-" "_") "." "_"
  else "app".

(** globalTemplateData *)
Definition globalTemplateData (g : Generator.t) (templateName : string)
  : TemplateData :=
  GlobalData (Generator.PackageName g) (Generator.ModulePath g)
             (Generator.Resources g) (extractProjectName g)
             (Generator.StorageType g) (Generator.DBDriver g)
             (Generator.Config g) (Generator.Version g) templateName.

(** middlewareData *)
Definition middlewareData (g : Generator.t) (templateName : string)
  : TemplateData :=
  let c := Generator.Config g in
  MiddlewareData (GeneratorConfig.ValidationMode c)
                 (GeneratorConfig.ValidationEnabled c)
                 (GeneratorConfig.ETagAlgorithm c)
                 (GeneratorConfig.VersionStrategy c)
                 (GeneratorConfig.EventBusType c)
                 (GeneratorConfig.EventsEnabled c)
                 (Generator.Version g) templateName.

(** What a run does to the outside: every call that can fail is logged, in
    the order of the calls, whether it failed or not.  The lines printed to
    standard output are not recorded. *)
Inductive Event : Type :=
| EvMkdirAll (path : names.Path)
| EvExecute (template : string) (data : TemplateData)
| EvFormat (template : string) (data : TemplateData)
| EvStat (path : names.Path)
| EvWriteFile (path : names.Path).

(** The outside world, which the source does not fix: whether the embedded
    templates load, how each call fares given what happened before it, and
    which paths exist. *)
Record World : Type := mkWorld {
  loadError : error;
  callError : list Event -> Event -> error;
  notExist : list Event -> names.Path -> bool
}.

Inductive Outcome (A : Type) : Type :=
| Ok (a : A)
| Err (msg : string)
| Panic.
Arguments Ok {A} a.
Arguments Err {A} msg.
Arguments Panic {A}.

(** A computation of the pipeline: given the world and the events so far,
    an outcome and the events afterwards. *)
Definition Gen (A : Type) : Type :=
  World -> list Event -> Outcome A * list Event.

Definition ret {A} (a : A) : Gen A := fun _ h => (Ok a, h).

Definition bind {A B} (c : Gen A) (k : A -> Gen B) : Gen B :=
  fun w h =>
    match c w h with
    | (Ok a, h') => k a w h'
    | (Err msg, h') => (Err msg, h')
    | (Panic, h') => (Panic, h')
    end.

Definition fail {A} (msg : string) : Gen A := fun _ h => (Err msg, h).

Definition panic {A} : Gen A := fun _ h => (Panic, h).

Notation "x <- c ;; k" := (bind c (fun x => k))
  (at level 100, c at next level, right associativity).
Notation "c ;;; k" := (bind c (fun _ => k))
  (at level 100, right associativity).

(** One call to the outside; a failure is wrapped the way
    [fmt.Errorf(prefix + ": %w", err)] does. *)
Definition call (ev : Event) (prefix : string) : Gen unit :=
  fun w h =>
    match callError w h ev with
    | None => (Ok tt, h ++ [ev])
    | Some cause => (Err (prefix +:+ ": " +:+ cause), h ++ [ev])
    end.

(** [g.Templates[name].Execute(&buf, data)]: on a name that is not in the map
    the receiver is nil and the call panics. *)
Definition Execute (g : Generator.t) (name : string) (data : TemplateData)
    (prefix : string) : Gen unit :=
  match Generator.Templates g !! name with
  | Some _ => call (EvExecute name data) prefix
  | None => panic
  end.

(** [os.Stat] followed by [os.IsNotExist]. *)
Definition statNotExist (path : names.Path) : Gen bool :=
  fun w h => (Ok (notExist w h path), h ++ [EvStat path]).

(** [for _, x := range xs { body }], leaving at the first error. *)
Fixpoint forEach {A} (xs : list A) (body : A -> Gen unit) : Gen unit :=
  match xs with
  | [] => ret tt
  | x :: rest => body x ;;; forEach rest body
  end.

(** An error of [c] wrapped once more. *)
Definition wrapping {A} (c : Gen A) (prefix : string) : Gen A :=
  fun w h =>
    match c w h with
    | (Err cause, h') => (Err (prefix +:+ ": " +:+ cause), h')
    | r => r
    end.

(** The fixed catalogue of [LoadTemplates]. *)
Definition templateFiles : gmap string string :=
  list_to_map
    [ ("handlers", "server/handlers.go.tmpl");
      ("routes", "server/routes.go.tmpl");
      ("models", "server/models.go.tmpl");
      ("openapi", "server/openapi.go.tmpl");
      ("flatModels", "server/flat_models.go.tmpl");
      ("flatHandlers", "server/flat_handlers.go.tmpl");
      ("client", "client/client.go.tmpl");
      ("clientModels", "client/models.go.tmpl");
      ("clientCmd", "client/cmd.go.tmpl");
      ("storage", "storage/file.go.tmpl");
      ("storageEnt", "storage/ent.go.tmpl");
      ("entAdapter", "storage/adapter.go.tmpl");
      ("generate", "storage/generate.go.tmpl");
      ("entSchemaResource", "ent/schema/resource.go.tmpl");
      ("entSchemaLabel", "ent/schema/label.go.tmpl");
      ("entSchemaAnnotation", "ent/schema/annotation.go.tmpl");
      ("middlewareValidation", "middleware/validation.go.tmpl");
      ("middlewareConditional", "middleware/conditional.go.tmpl");
      ("middlewareVersioning", "middleware/versioning.go.tmpl");
      ("eventBus", "middleware/event-bus.go.tmpl");
      ("reconciler", "reconciliation/reconciler.go.tmpl");
      ("reconcilerStub", "reconciliation/stub.go.tmpl");
      ("reconcilerRegistration", "reconciliation/registration.go.tmpl");
      ("eventHandlers", "reconciliation/event-handlers.go.tmpl") ].

(** LoadTemplates: the embedded assets are not part of the source at hand, so
    whether reading and parsing them succeeds is the world's [loadError]; on
    success the map holds the whole catalogue. *)
Definition LoadTemplates (g : Generator.t) : Gen Generator.t :=
  fun w h =>
    match loadError w with
    | None => (Ok (Generator.with_Templates g templateFiles), h)
    | Some msg => (Err msg, h)
    end.

Section Stages.

Variable g : Generator.t.

Let outputDir : names.Path := [Generator.OutputDir g].

(** GenerateStorage *)
Definition GenerateStorage : Gen unit :=
  let '(templateName, templatePath) :=
    if String.eqb (Generator.StorageType g) "ent"
    then ("storageEnt", "storage/ent.go.tmpl")
    else ("storage", "storage/file.go.tmpl") in
  let data := globalTemplateData g templatePath in
  Execute g templateName data "failed to execute storage template" ;;;
  call (EvFormat templateName data) "failed to format generated storage code" ;;;
  let storageDir := names.Join ["internal"] ["storage"] in
  call (EvMkdirAll storageDir) "failed to create storage directory" ;;;
  let filename := names.Join storageDir ["storage_generated.go"] in
  call (EvWriteFile filename) "failed to write storage file".

(** GenerateClientModels *)
Definition GenerateClientModels : Gen unit :=
  let data := globalTemplateData g "client/models.go.tmpl" in
  Execute g "clientModels" data "failed to execute client models template" ;;;
  call (EvFormat "clientModels" data)
       "failed to format generated client models code" ;;;
  let filename := names.Join outputDir ["models_generated.go"] in
  call (EvWriteFile filename) "failed to write client models file".

(** GenerateReconcilers *)
Definition GenerateReconcilers : Gen unit :=
  forEach (Generator.Resources g) (fun resource =>
    let name := ResourceMetadata.Name resource in
    let data := templateData g resource "reconciliation/reconciler.go.tmpl" in
    Execute g "reconciler" data
            ("failed to execute reconciler template for " +:+ name) ;;;
    call (EvFormat "reconciler" data)
         ("failed to format generated reconciler code for " +:+ name) ;;;
    let filename :=
      names.Join outputDir [strings.ToLower name +:+ "_reconciler_generated.go"] in
    call (EvWriteFile filename)
         ("failed to write reconciler file for " +:+ name) ;;;
    let stubFilename :=
      names.Join outputDir [strings.ToLower name +:+ "_reconciler.go"] in
    missing <- statNotExist stubFilename ;;
    if (missing : bool) then
      let stubData := templateData g resource "reconciliation/stub.go.tmpl" in
      Execute g "reconcilerStub" stubData
              ("failed to execute reconciler stub template for " +:+ name) ;;;
      call (EvFormat "reconcilerStub" stubData)
           ("failed to format generated reconciler stub code for " +:+ name) ;;;
      call (EvWriteFile stubFilename)
           ("failed to write reconciler stub file for " +:+ name)
    else ret tt).

(** GenerateReconcilerRegistration *)
Definition GenerateReconcilerRegistration : Gen unit :=
  let data := globalTemplateData g "reconciliation/registration.go.tmpl" in
  Execute g "reconcilerRegistration" data
          "failed to execute reconciler registration template" ;;;
  call (EvFormat "reconcilerRegistration" data)
       "failed to format generated reconciler registration code" ;;;
  let filename := names.Join outputDir ["registration_generated.go"] in
  call (EvWriteFile filename) "failed to write reconciler registration file".

(** GenerateEventHandlers *)
Definition GenerateEventHandlers : Gen unit :=
  let data := globalTemplateData g "reconciliation/event-handlers.go.tmpl" in
  Execute g "eventHandlers" data
          "failed to execute event handlers template" ;;;
  call (EvFormat "eventHandlers" data)
       "failed to format generated event handlers code" ;;;
  let filename := names.Join outputDir ["event_handlers_generated.go"] in
  call (EvWriteFile filename) "failed to write event handlers file".

(** GenerateFlatHandlers *)
Definition GenerateFlatHandlers : Gen unit :=
  forEach (Generator.Resources g) (fun resource =>
    let name := ResourceMetadata.Name resource in
    let data := templateData g resource "server/flat_handlers.go.tmpl" in
    Execute g "flatHandlers" data
            ("failed to execute flat handlers template for " +:+ name) ;;;
    call (EvFormat "flatHandlers" data)
         ("failed to format generated code for " +:+ name) ;;;
    let filename :=
      names.Join outputDir
                 [strings.ToLower name +:+ "_flat_handlers_generated.go"] in
    call (EvWriteFile filename)
         ("failed to write flat handlers file for " +:+ name)).

(** GenerateHandlers: the loop over the resources, and then, as its last
    statement, the call of [GenerateFlatHandlers]. *)
Definition GenerateHandlers : Gen unit :=
  forEach (Generator.Resources g) (fun resource =>
    let name := ResourceMetadata.Name resource in
    let data := templateData g resource "server/handlers.go.tmpl" in
    Execute g "handlers" data
            ("failed to execute handlers template for " +:+ name) ;;;
    call (EvFormat "handlers" data)
         ("failed to format generated code for " +:+ name) ;;;
    let filename :=
      names.Join outputDir [strings.ToLower name +:+ "_handlers_generated.go"] in
    call (EvWriteFile filename)
         ("failed to write handlers file for " +:+ name)) ;;;
  GenerateFlatHandlers.

(** generateMiddlewareFile *)
Definition generateMiddlewareFile (templateName filename : string)
    (outputDir' : names.Path) (data : TemplateData) : Gen unit :=
  Execute g templateName data
          ("failed to execute " +:+ templateName +:+ " template") ;;;
  call (EvFormat templateName data)
       ("failed to format generated " +:+ templateName +:+ " code") ;;;
  let fullPath := names.Join outputDir' [filename] in
  call (EvWriteFile fullPath) ("failed to write " +:+ templateName +:+ " file").

(** GenerateMiddleware *)
Definition GenerateMiddleware : Gen unit :=
  let middlewareDir := names.Join ["internal"] ["middleware"] in
  call (EvMkdirAll middlewareDir) "failed to create middleware directory" ;;;
  (if GeneratorConfig.ValidationEnabled (Generator.Config g) then
     generateMiddlewareFile "middlewareValidation"
       "validation_middleware_generated.go" middlewareDir
       (middlewareData g "middleware/validation.go.tmpl")
   else ret tt) ;;;
  (if GeneratorConfig.ConditionalEnabled (Generator.Config g) then
     generateMiddlewareFile "middlewareConditional"
       "conditional_middleware_generated.go" middlewareDir
       (middlewareData g "middleware/conditional.go.tmpl")
   else ret tt) ;;;
  (if GeneratorConfig.VersioningEnabled (Generator.Config g) then
     generateMiddlewareFile "middlewareVersioning"
       "versioning_middleware_generated.go" middlewareDir
       (middlewareData g "middleware/versioning.go.tmpl")
   else ret tt) ;;;
  (if GeneratorConfig.EventsEnabled (Generator.Config g) then
     generateMiddlewareFile "eventBus" "event_bus_generated.go" middlewareDir
       (middlewareData g "middleware/event-bus.go.tmpl")
   else ret tt).

(** GenerateClient *)
Definition GenerateClient : Gen unit :=
  call (EvMkdirAll outputDir) "failed to create output directory" ;;;
  let data := globalTemplateData g "client/client.go.tmpl" in
  Execute g "client" data "failed to execute client template" ;;;
  call (EvFormat "client" data) "failed to format generated client code" ;;;
  let filename := names.Join outputDir ["client_generated.go"] in
  call (EvWriteFile filename) "failed to write client file".

(** GenerateModels: the standard models, then the flat ones. *)
Definition GenerateModels : Gen unit :=
  let data := globalTemplateData g "server/models.go.tmpl" in
  Execute g "models" data "failed to execute models template" ;;;
  call (EvFormat "models" data) "failed to format generated models code" ;;;
  let filename := names.Join outputDir ["models_generated.go"] in
  call (EvWriteFile filename) "failed to write models file" ;;;
  let flatData := globalTemplateData g "server/flat_models.go.tmpl" in
  Execute g "flatModels" flatData "failed to execute flat models template" ;;;
  call (EvFormat "flatModels" flatData)
       "failed to format generated flat models code" ;;;
  let flatFilename := names.Join outputDir ["flat_models_generated.go"] in
  call (EvWriteFile flatFilename) "failed to write flat models file".

(** GenerateRoutes *)
Definition GenerateRoutes : Gen unit :=
  let data := globalTemplateData g "server/routes.go.tmpl" in
  Execute g "routes" data "failed to execute routes template" ;;;
  call (EvFormat "routes" data) "failed to format generated routes code" ;;;
  let filename := names.Join outputDir ["routes_generated.go"] in
  call (EvWriteFile filename) "failed to write routes file".

(** GenerateOpenAPI *)
Definition GenerateOpenAPI : Gen unit :=
  let data := globalTemplateData g "server/openapi.go.tmpl" in
  Execute g "openapi" data "failed to execute openapi template" ;;;
  call (EvFormat "openapi" data) "failed to format generated openapi code" ;;;
  let filename := names.Join outputDir ["openapi_generated.go"] in
  call (EvWriteFile filename) "failed to write openapi file".

(** executeTemplate, with [None] for nil data. *)
Definition executeTemplate (templateName : string) (outputPath : names.Path)
    (data : option TemplateData) : Gen unit :=
  match Generator.Templates g !! templateName with
  | None => fail ("template " +:+ templateName +:+ " not found")
  | Some _ =>
      let data' :=
        match data with
        | Some d => d
        | None => VersionData (Generator.Version g) templateName
        end in
      call (EvExecute templateName data')
           ("failed to execute template " +:+ templateName) ;;;
      (if String.eqb (names.Ext outputPath) ".go" then
         call (EvFormat templateName data')
              ("failed to format generated code for " +:+ names.text outputPath)
       else ret tt) ;;;
      call (EvWriteFile outputPath)
           ("failed to write file " +:+ names.text outputPath)
  end.

(** GenerateEntSchemas *)
Definition GenerateEntSchemas : Gen unit :=
  if negb (String.eqb (Generator.StorageType g) "ent") then ret tt
  else
    let schemaDir := names.Join ["internal"] ["storage"; "ent"; "schema"] in
    call (EvMkdirAll schemaDir) "failed to create ent schema directory" ;;;
    executeTemplate "entSchemaResource"
                    (names.Join schemaDir ["resource.go"]) None ;;;
    executeTemplate "entSchemaLabel" (names.Join schemaDir ["label.go"]) None ;;;
    executeTemplate "entSchemaAnnotation"
                    (names.Join schemaDir ["annotation.go"]) None.

(** GenerateEntAdapter *)
Definition GenerateEntAdapter : Gen unit :=
  if negb (String.eqb (Generator.StorageType g) "ent") then ret tt
  else
    let data := globalTemplateData g "storage/adapter.go.tmpl" in
    Execute g "entAdapter" data "failed to execute ent adapter template" ;;;
    call (EvFormat "entAdapter" data)
         "failed to format generated ent adapter code" ;;;
    let adapterPath := names.Join ["internal"] ["storage"; "ent_adapter.go"] in
    call (EvWriteFile adapterPath) "failed to write ent adapter file" ;;;
    wrapping
      (executeTemplate "generate"
         (names.Join ["internal"] ["storage"; "generate.go"]) None)
      "failed to generate generate.go".

End Stages.

(** GenerateAll *)
Definition GenerateAll (g0 : Generator.t) : Gen unit :=
  g <- LoadTemplates g0 ;;
  let packageName := Generator.PackageName g in
  if String.eqb packageName "main" then
    (if String.eqb (Generator.StorageType g) "ent" then
       GenerateEntSchemas g ;;; GenerateEntAdapter g
     else ret tt) ;;;
    GenerateModels g ;;;
    GenerateHandlers g ;;;
    GenerateFlatHandlers g ;;;
    GenerateMiddleware g ;;;
    GenerateRoutes g ;;;
    GenerateStorage g ;;;
    GenerateOpenAPI g
  else if String.eqb packageName "client" then
    GenerateClient g ;;;
    GenerateClientModels g
  else if String.eqb packageName "reconcile" then
    GenerateReconcilers g ;;;
    GenerateReconcilerRegistration g ;;;
    GenerateEventHandlers g
  else fail ("unsupported package type: " +:+ packageName).

(** ** What the statements below talk about *)

(** The fields of the sub-record that [extractFields] walks: those of the
    first field named [targetField], behind one pointer if it is one; no
    fields when there is no such field; [None] where [NumField] panics. *)
Fixpoint subRecord_of (outerFields : list reflect.StructField)
    (targetField : string) : option (list reflect.StructField) :=
  match outerFields with
  | [] => Some []
  | field :: rest =>
      if String.eqb (reflect.Field_Name field) targetField then
        match reflect.Field_Type field with
        | reflect.PtrTo _ e => reflect.Fields e
        | ty => reflect.Fields ty
        end
      else subRecord_of rest targetField
  end.

Definition subRecord (resourceType : reflect.Type_) (targetField : string)
  : option (list reflect.StructField) :=
  match reflect.Fields resourceType with
  | Some outerFields => subRecord_of outerFields targetField
  | None => None
  end.

(** A field is hidden when the first comma-separated segment of its json
    tag is a dash. *)
Definition hidden (f : reflect.StructField) : bool :=
  String.eqb
    (List.hd EmptyString
       (strings.Split (reflect.Get (reflect.Field_Tag f) "json") ","))
    "-".

(** The reading of the field lists under which hidden fields are left out. *)
Definition hidden_fields_omitted (resourceType : reflect.Type_)
    (targetField : string) : Prop :=
  forall sub fields,
    subRecord resourceType targetField = Some sub ->
    extractFields resourceType targetField = Some fields ->
    (forall f, In f sub -> hidden f = true ->
               ~ In (reflect.Field_Name f) (map SpecField.Name fields)) /\
    length fields =
      length (List.filter (fun f => reflect.IsExported f && negb (hidden f)) sub).

(** The generators that the public operations build from a new one. *)
Inductive reachable : Generator.t -> Prop :=
| reach_new outputDir packageName modulePath :
    reachable (NewGenerator outputDir packageName modulePath)
| reach_register g resourceType g' :
    reachable g -> RegisterResource g resourceType = Some g' -> reachable g'
| reach_tag g resourceName key value :
    reachable g -> reachable (SetResourceTag g resourceName key value)
| reach_version g resourceName version :
    reachable g -> reachable (snd (AddResourceVersion g resourceName version))
| reach_group g apiGroupVersion :
    reachable g -> reachable (SetAPIGroupVersion g apiGroupVersion)
| reach_storage g storageType :
    reachable g -> reachable (SetStorageType g storageType)
| reach_driver g driver :
    reachable g -> reachable (SetDBDriver g driver).

Definition labels (r : ResourceMetadata.t) : list string :=
  map SchemaVersion.Version (ResourceMetadata.Versions r).

(** How many versions of a resource carry the default flag. *)
Definition defaultCount (r : ResourceMetadata.t) : nat :=
  length (List.filter SchemaVersion.IsDefault (ResourceMetadata.Versions r)).

Definition at_most_one_default : Prop :=
  forall g, reachable g ->
  forall r, In r (Generator.Resources g) -> defaultCount r <= 1.


(** [kw] occurs in [s] when letter case is ignored. *)
Definition eq_fold (a b : ascii) : bool :=
  Ascii.eqb (strings.lower_byte a) (strings.lower_byte b).

Fixpoint prefix_fold (kw s : string) : bool :=
  match kw, s with
  | EmptyString, _ => true
  | String a kw', String b s' => eq_fold a b && prefix_fold kw' s'
  | String _ _, EmptyString => false
  end.

Fixpoint contains_fold (s kw : string) : bool :=
  prefix_fold kw s ||
  match s with
  | EmptyString => false
  | String _ s' => contains_fold s' kw
  end.


(** The data of the executions of the template [name] in a trace, in order. *)
Fixpoint executed (name : string) (tr : list Event) : list TemplateData :=
  match tr with
  | [] => []
  | EvExecute n d :: rest =>
      if String.eqb n name then d :: executed name rest else executed name rest
  | _ :: rest => executed name rest
  end.

(** The data the flat-handlers template is run on, one per resource. *)
Definition flatHandlersData (g : Generator.t) : list TemplateData :=
  map (fun resource => templateData g resource "server/flat_handlers.go.tmpl")
      (Generator.Resources g).

(** A world in which the templates load, every call succeeds and no file is
    there yet. *)
Definition quiet : World :=
  mkWorld None (fun _ _ => None) (fun _ _ => true).

(** A world whose embedded templates do not load. *)
Definition broken : World :=
  mkWorld (Some "failed to parse template") (fun _ _ => None) (fun _ _ => true).

(** *** Sample descriptors *)

Module sample.

Definition predeclared (name : string) (k : reflect.BasicKind) : reflect.Type_ :=
  reflect.Basic (reflect.mkHeader name EmptyString name) k.

Definition string_ : reflect.Type_ := predeclared "string" reflect.BString.
Definition int_ : reflect.Type_ := predeclared "int" reflect.BInt.

Definition pkg : string := "github.com/alexlovelltroy/fabrica/pkg/codegen".

Definition named_struct (name : string) (fields : list reflect.StructField)
  : reflect.Type_ :=
  reflect.StructOf (reflect.mkHeader name pkg ("codegen." +:+ name)) fields.

(** The resource of the package's own test. *)
Definition TestResourceSpec : reflect.Type_ :=
  named_struct "TestResourceSpec"
    [ reflect.mkStructField "DesiredState" EmptyString string_
        [("json", "desiredState")] ].

Definition TestResourceStatus : reflect.Type_ :=
  named_struct "TestResourceStatus"
    [ reflect.mkStructField "ObservedState" EmptyString string_
        [("json", "observedState")];
      reflect.mkStructField "ErrorCount" EmptyString int_
        [("json", "errorCount")] ].

Definition TestResource : reflect.Type_ :=
  named_struct "TestResource"
    [ reflect.mkStructField "Spec" EmptyString TestResourceSpec [];
      reflect.mkStructField "Status" EmptyString TestResourceStatus [] ].

Definition pointer_to (t : reflect.Type_) : reflect.Type_ :=
  reflect.PtrTo
    (reflect.mkHeader EmptyString EmptyString ("*" +:+ reflect.String_ t)) t.

(** A resource whose spec has a field with the json tag "-". *)
Definition Secret : reflect.StructField :=
  reflect.mkStructField "Secret" EmptyString string_ [("json", "-")].

Definition VaultSpec : reflect.Type_ :=
  named_struct "VaultSpec"
    [ reflect.mkStructField "Owner" EmptyString string_ [("json", "owner")];
      Secret ].

Definition Vault : reflect.Type_ :=
  named_struct "Vault"
    [ reflect.mkStructField "Spec" EmptyString VaultSpec [("json", "spec")] ].

(** An unnamed struct type, as in
    [RegisterResource(struct{ Spec struct{ Owner string } }{})]: its name and
    its package path are empty. *)
Definition unnamed_struct (text : string) (fields : list reflect.StructField)
  : reflect.Type_ :=
  reflect.StructOf (reflect.mkHeader EmptyString EmptyString text) fields.

Definition Anonymous : reflect.Type_ :=
  unnamed_struct "struct { Spec struct { Owner string } }"
    [ reflect.mkStructField "Spec" EmptyString
        (unnamed_struct "struct { Owner string }"
           [ reflect.mkStructField "Owner" EmptyString string_ [] ])
        [] ].

Definition v2 (isDefault : bool) : SchemaVersion.t :=
  {| SchemaVersion.Version := "v2";
     SchemaVersion.IsDefault := isDefault;
     SchemaVersion.Stability := "beta";
     SchemaVersion.Deprecated := false;
     SchemaVersion.SpecType := "codegen.TestResourceSpec";
     SchemaVersion.StatusType := "codegen.TestResourceStatus";
     SchemaVersion.TypeName := "*codegen.TestResource";
     SchemaVersion.Package := pkg;
     SchemaVersion.Transforms := [] |}.

Definition v1 : SchemaVersion.t :=
  {| SchemaVersion.Version := "v1";
     SchemaVersion.IsDefault := false;
     SchemaVersion.Stability := EmptyString;
     SchemaVersion.Deprecated := false;
     SchemaVersion.SpecType := EmptyString;
     SchemaVersion.StatusType := EmptyString;
     SchemaVersion.TypeName := EmptyString;
     SchemaVersion.Package := EmptyString;
     SchemaVersion.Transforms := [] |}.

(** A generator with the test's resource registered. *)
Definition registered (packageName : string) : Generator.t :=
  match RegisterResource (NewGenerator "./out" packageName "github.com/test/app")
                         (pointer_to TestResource) with
  | Some g => g
  | None => NewGenerator "./out" packageName "github.com/test/app"
  end.

End sample.

(** The type that [RegisterResource] reads: the pointee of a pointer. *)
Definition registeredType (resourceType : reflect.Type_) : reflect.Type_ :=
  match resourceType with
  | reflect.PtrTo _ e => e
  | t => t
  end.

(** What the version bookkeeping of a record consists of. *)
Definition same_core (r r' : ResourceMetadata.t) : Prop :=
  ResourceMetadata.Name r = ResourceMetadata.Name r' /\
  ResourceMetadata.Versions r = ResourceMetadata.Versions r' /\
  ResourceMetadata.DefaultVersion r = ResourceMetadata.DefaultVersion r'.

(** The default version of a record is one of its versions, and flagged. *)
Definition default_listed (r : ResourceMetadata.t) : Prop :=
  exists v,
    In v (ResourceMetadata.Versions r) /\
    SchemaVersion.Version v = ResourceMetadata.DefaultVersion r /\
    SchemaVersion.IsDefault v = true.

(** The invariant of the versions of one record: labels pairwise different,
    the default version listed and flagged, hence at least one flag. *)
Definition versions_ok (r : ResourceMetadata.t) : Prop :=
  List.NoDup (labels r) /\
  default_listed r /\
  1 <= defaultCount r.

(** The invariant of the registry under the public operations.  Names may
    repeat (nothing in [RegisterResource] prevents it); the operations by
    name reach the first record of a name only, so a later one keeps the
    labels it was registered with. *)
Definition registry_ok (rs : list ResourceMetadata.t) : Prop :=
  forall r, In r rs ->
    List.NoDup (labels r) /\
    In "v1" (labels r) /\
    default_listed r /\
    (forall j r0,
       list_find (named (ResourceMetadata.Name r)) rs = Some (j, r0) ->
       incl (labels r) (labels r0)).

(** *** Sample generators *)

Module scenario.

(** The test's resource registered, then v2 added as the new default. *)
Definition upgraded : Generator.t :=
  snd (AddResourceVersion (sample.registered "main") "TestResource"
                          (sample.v2 true)).

Definition blank : ResourceMetadata.t :=
  ResourceMetadata.mk EmptyString EmptyString EmptyString EmptyString
    EmptyString EmptyString EmptyString EmptyString EmptyString None [] []
    [] EmptyString EmptyString.

Definition first_resource (g : Generator.t) : ResourceMetadata.t :=
  List.nth 0 (Generator.Resources g) blank.

End scenario.

(** A computation that, whenever it succeeds, has run the template [name] on
    exactly the data [ds], in this order. *)
Definition adds {A} (name : string) (c : Gen A) (ds : list TemplateData) : Prop :=
  forall w h a h',
    c w h = (Ok a, h') -> executed name h' = executed name h ++ ds.

(** A generator whose package selector is none of the three known ones. *)
Definition worker : Generator.t := sample.registered "worker".

(** ** Further parts of the package *)

(** More of [strings]. *)
Module text.

(** [strings.Join(elems, sep)]. *)
Fixpoint Join (elems : list string) (sep : string) : string :=
  match elems with
  | [] => EmptyString
  | [e] => e
  | e :: rest => e +:+ sep +:+ Join rest sep
  end.

(** Whether the byte occurs in the string. *)
Fixpoint has_byte (c : ascii) (s : string) : bool :=
  match s with
  | EmptyString => false
  | String b s' => Ascii.eqb b c || has_byte c s'
  end.

End text.

(** formatJSONValue *)
Definition formatJSONValue (goType value : string) : string :=
  if strings.Contains goType "int" || strings.Contains goType "float"
     || strings.Contains goType "bool"
  then value
  else if strings.Contains goType "[]"
  then "[" +:+ dq +:+ value +:+ dq +:+ "]"
  else if strings.Contains goType "map["
  then "{" +:+ dq +:+ value +:+ dq +:+ ": " +:+ dq +:+ "value" +:+ dq +:+ "}"
  else dq +:+ value +:+ dq.

(** The helper functions handed to the templates (those modelled). *)
Module templateFuncs.

(** "split", for a one-byte separator. *)
Definition split (sep : ascii) (s : string) : list string := strings.Split s sep.

(** "last" *)
Definition last (s : list string) : string :=
  if (length s =? 0)%nat then EmptyString else List.last s EmptyString.

(** One entry of the object that "specToJSON" builds. *)
Definition jsonEntry (f : SpecField.t) : string :=
  dq +:+ SpecField.JSONName f +:+ dq +:+ ": " +:+
  formatJSONValue (SpecField.Type_ f) (SpecField.ExampleValue f).

(** "specToJSON" *)
Definition specToJSON (fields : list SpecField.t) : string :=
  if (length fields =? 0)%nat
  then "{" +:+ dq +:+ "name" +:+ dq +:+ ": " +:+ dq +:+ "example" +:+ dq +:+ "}"
  else "{" +:+ text.Join (map jsonEntry fields) ", " +:+ "}".

End templateFuncs.

(** GenerateClientCmd: the global data with the package name overwritten. *)
Definition GenerateClientCmd (g : Generator.t) : Gen unit :=
  let data :=
    match globalTemplateData g "client/cmd.go.tmpl" with
    | GlobalData _ modulePath resources projectName storageType dbDriver
                 config version template =>
        GlobalData "main" modulePath resources projectName storageType dbDriver
                   config version template
    | d => d
    end in
  Execute g "clientCmd" data "failed to execute client-cmd template" ;;;
  call (EvFormat "clientCmd" data) "failed to format generated client-cmd code" ;;;
  let cliDir := names.Join ["cmd"] ["client"] in
  call (EvMkdirAll cliDir) "failed to create CLI directory" ;;;
  let filename := names.Join cliDir ["main.go"] in
  call (EvWriteFile filename) "failed to write client-cmd file".

(** *** Vocabulary of the further properties *)

(** A struct, or a pointer to one: what [extractFields] can walk. *)
Definition structural (ty : reflect.Type_) : bool :=
  match ty with
  | reflect.StructOf _ _ => true
  | reflect.PtrTo _ (reflect.StructOf _ _) => true
  | _ => false
  end.

(** The first field with this name, if any, is structural. *)
Definition target_ok (outer : list reflect.StructField) (target : string) : bool :=
  match List.find (fun f => String.eqb (reflect.Field_Name f) target) outer with
  | None => true
  | Some f => structural (reflect.Field_Type f)
  end.

(** The descriptors on which registration does not panic. *)
Definition registrable (resourceType : reflect.Type_) : bool :=
  match registeredType resourceType with
  | reflect.StructOf _ outer => target_ok outer "Spec" && target_ok outer "Status"
  | _ => false
  end.

(** The fields of a record that registration derives from the name and the
    package path, and that no operation changes afterwards. *)
Definition derived_ok (r : ResourceMetadata.t) : Prop :=
  let name := ResourceMetadata.Name r in
  let alias := ResourceMetadata.PackageAlias r in
  ResourceMetadata.PluralName r = strings.ToLower name +:+ "s" /\
  ResourceMetadata.URLPath r = "/" +:+ strings.ToLower name +:+ "s" /\
  ResourceMetadata.StorageName r = name /\
  ResourceMetadata.PackageAlias r =
    List.last (strings.Split (ResourceMetadata.Package r) "/") EmptyString /\
  ResourceMetadata.TypeName r = "*" +:+ alias +:+ "." +:+ name /\
  ResourceMetadata.SpecType r = alias +:+ "." +:+ name +:+ "Spec" /\
  ResourceMetadata.StatusType r = alias +:+ "." +:+ name +:+ "Status" /\
  ResourceMetadata.Tags r <> None /\
  List.hd_error (labels r) = Some "v1".

(** The last record of the registry. *)
Definition newest (g : Generator.t) : ResourceMetadata.t :=
  List.last (Generator.Resources g) scenario.blank.

(** The tags of a record, the nil map read as the empty one. *)
Definition tagsOf (r : ResourceMetadata.t) : gmap string string :=
  match ResourceMetadata.Tags r with
  | Some m => m
  | None => ∅
  end.

(** The flag [PerResourceVersioning] of the data of a resource. *)
Definition perResourceVersioning (d : TemplateData) : bool :=
  match d with
  | ResourceData _ b _ _ _ => b
  | _ => false
  end.

(** *** What a run leaves behind *)

(** The files written, the templates executed and the directories made in a
    trace, each in the order of the calls. *)
Definition writeOf (ev : Event) : list names.Path :=
  match ev with EvWriteFile p => [p] | _ => [] end.

Definition runOf (ev : Event) : list string :=
  match ev with EvExecute n _ => [n] | _ => [] end.

Definition dirOf (ev : Event) : list names.Path :=
  match ev with EvMkdirAll p => [p] | _ => [] end.

Definition written (tr : list Event) : list names.Path := flat_map writeOf tr.
Definition ran (tr : list Event) : list string := flat_map runOf tr.
Definition made (tr : list Event) : list names.Path := flat_map dirOf tr.

(** A computation that, whenever it succeeds in a world of [Q], has added
    exactly [bs] to the projection [proj] of the trace. *)
Definition yields {A B} (Q : World -> Prop) (proj : Event -> list B)
    (c : Gen A) (bs : list B) : Prop :=
  forall w h a h',
    Q w -> c w h = (Ok a, h') -> flat_map proj h' = flat_map proj h ++ bs.

Definition anyWorld : World -> Prop := fun _ => True.

(** A file of the output directory, and the one file per resource with a
    given ending. *)
Definition outFile (g : Generator.t) (file : string) : names.Path :=
  [Generator.OutputDir g; file].

Definition perResource (g : Generator.t) (ending : string) : list names.Path :=
  map (fun r => outFile g (strings.ToLower (ResourceMetadata.Name r) +:+ ending))
      (Generator.Resources g).

Definition usesEnt (g : Generator.t) : bool :=
  String.eqb (Generator.StorageType g) "ent".

(** The files, templates and directories of the server pipeline. *)
Definition middlewareFiles (c : GeneratorConfig.t) : list names.Path :=
  (if GeneratorConfig.ValidationEnabled c
   then [["internal"; "middleware"; "validation_middleware_generated.go"]]
   else []) ++
  (if GeneratorConfig.ConditionalEnabled c
   then [["internal"; "middleware"; "conditional_middleware_generated.go"]]
   else []) ++
  (if GeneratorConfig.VersioningEnabled c
   then [["internal"; "middleware"; "versioning_middleware_generated.go"]]
   else []) ++
  (if GeneratorConfig.EventsEnabled c
   then [["internal"; "middleware"; "event_bus_generated.go"]]
   else []).

Definition middlewareTemplates (c : GeneratorConfig.t) : list string :=
  (if GeneratorConfig.ValidationEnabled c then ["middlewareValidation"] else []) ++
  (if GeneratorConfig.ConditionalEnabled c then ["middlewareConditional"] else []) ++
  (if GeneratorConfig.VersioningEnabled c then ["middlewareVersioning"] else []) ++
  (if GeneratorConfig.EventsEnabled c then ["eventBus"] else []).

Definition serverFiles (g : Generator.t) : list names.Path :=
  (if usesEnt g
   then [ ["internal"; "storage"; "ent"; "schema"; "resource.go"];
          ["internal"; "storage"; "ent"; "schema"; "label.go"];
          ["internal"; "storage"; "ent"; "schema"; "annotation.go"];
          ["internal"; "storage"; "ent_adapter.go"];
          ["internal"; "storage"; "generate.go"] ]
   else []) ++
  [outFile g "models_generated.go"; outFile g "flat_models_generated.go"] ++
  perResource g "_handlers_generated.go" ++
  perResource g "_flat_handlers_generated.go" ++
  perResource g "_flat_handlers_generated.go" ++
  middlewareFiles (Generator.Config g) ++
  [ outFile g "routes_generated.go";
    ["internal"; "storage"; "storage_generated.go"];
    outFile g "openapi_generated.go" ].

Definition serverTemplates (g : Generator.t) : list string :=
  (if usesEnt g
   then ["entSchemaResource"; "entSchemaLabel"; "entSchemaAnnotation";
         "entAdapter"; "generate"]
   else []) ++
  ["models"; "flatModels"] ++
  map (fun _ => "handlers") (Generator.Resources g) ++
  map (fun _ => "flatHandlers") (Generator.Resources g) ++
  map (fun _ => "flatHandlers") (Generator.Resources g) ++
  middlewareTemplates (Generator.Config g) ++
  ["routes"; if usesEnt g then "storageEnt" else "storage"; "openapi"].

Definition serverDirs (g : Generator.t) : list names.Path :=
  (if usesEnt g then [["internal"; "storage"; "ent"; "schema"]] else []) ++
  [["internal"; "middleware"]; ["internal"; "storage"]].

(** A world in which every write fails. *)
Definition diskFull : World :=
  mkWorld None
    (fun _ ev =>
       match ev with
       | EvWriteFile _ => Some "no space left on device"
       | _ => None
       end)
    (fun _ _ => true).

(** The generator of the sample after [LoadTemplates]. *)
Definition loadedClient : Generator.t :=
  Generator.with_Templates (sample.registered "client") templateFiles.

(** *** Failures *)

(** The call [ev], made after the events [h], went well. *)
Definition succeeded (w : World) (h : list Event) (ev : Event) : Prop :=
  match ev with
  | EvStat _ => True
  | _ => callError w h ev = None
  end.

Fixpoint all_succeeded (w : World) (h evs : list Event) : Prop :=
  match evs with
  | [] => True
  | ev :: rest => succeeded w h ev /\ all_succeeded w (h ++ [ev]) rest
  end.

(** The events [evs] after [h] end with a call that failed, all the calls
    before it went well, and [msg] is the cause of the failure behind some
    prefix. *)
Definition failed_last (w : World) (h evs : list Event) (msg : string) : Prop :=
  exists pre ev cause prefix,
    evs = pre ++ [ev] /\
    all_succeeded w h pre /\
    callError w (h ++ pre) ev = Some cause /\
    msg = prefix +:+ ": " +:+ cause.

(** A computation that does not panic, that returns an error only for a call
    that failed, and that makes no call after one that failed. *)
Definition orderly {A} (c : Gen A) : Prop :=
  forall w h r h',
    c w h = (r, h') ->
    exists evs,
      h' = h ++ evs /\
      match r with
      | Ok _ => all_succeeded w h evs
      | Err msg => failed_last w h evs msg
      | Panic => False
      end.

(** *** The stub of a reconciler *)

Definition stubFile (g : Generator.t) (r : ResourceMetadata.t) : names.Path :=
  outFile g (strings.ToLower (ResourceMetadata.Name r) +:+ "_reconciler.go").

(** In the events [evs] after [h], every execution of the stub template is
    on the stub data of some resource and comes right after the [os.Stat] of
    the stub file of that resource, which did not find the file. *)
Definition guarded (g : Generator.t) (w : World) (h evs : list Event) : Prop :=
  forall pre d post,
    evs = pre ++ EvExecute "reconcilerStub" d :: post ->
    exists pre' r,
      d = templateData g r "reconciliation/stub.go.tmpl" /\
      pre = pre' ++ [EvStat (stubFile g r)] /\
      notExist w (h ++ pre') (stubFile g r) = true.

Definition stub_guarded {A} (g : Generator.t) (c : Gen A) : Prop :=
  forall w h r h',
    c w h = (r, h') -> exists evs, h' = h ++ evs /\ guarded g w h evs.

(** A world in which the stub of the test's resource is there already. *)
Definition stubbed : World :=
  mkWorld None (fun _ _ => None)
    (fun _ p =>
       negb (String.eqb (names.text p) "./out/testresource_reconciler.go")).

(** The configuration that [NewGenerator] sets. *)
Definition defaultConfig : GeneratorConfig.t :=
  Generator.Config (NewGenerator EmptyString EmptyString EmptyString).

(** The storage type and the configuration inside global template data. *)
Definition dataStorage (d : TemplateData) : option (string * GeneratorConfig.t) :=
  match d with
  | GlobalData _ _ _ _ storageType _ config _ _ => Some (storageType, config)
  | _ => None
  end.

(** *** Reconcilers in a directory *)

(** The generated file of a reconciler, which is written on every run, and
    the text of the path of its stub. *)
Definition companionFile (g : Generator.t) (r : ResourceMetadata.t)
  : names.Path :=
  outFile g (strings.ToLower (ResourceMetadata.Name r)
             +:+ "_reconciler_generated.go").

Definition stubText (g : Generator.t) (r : ResourceMetadata.t) : string :=
  names.text (stubFile g r).

(** Whether a file of path [t] is found in a directory that held the files
    of [present] at first and to which the files [added] were written
    since.  Paths are compared as text. *)
Definition found (present : string -> bool) (added : list string) (t : string)
  : bool :=
  present t || existsb (String.eqb t) added.

(** Each [os.Stat] of the trace [tr] had the answer of such a directory:
    the path was missing exactly when it was not there at first and none of
    the writes before the call was to it.  Nothing is asked of the calls
    that the trace does not contain. *)
Definition answered (present : string -> bool) (w : World) (tr : list Event)
  : Prop :=
  forall pre path post,
    tr = pre ++ EvStat path :: post ->
    notExist w pre path =
      negb (found present (map names.text (written pre)) (names.text path)).

(** The resources in turn, each with whether its stub is due: it is when the
    stub was not there at first and no resource before it has the same stub
    path. *)
Fixpoint stubsDue (g : Generator.t) (present : string -> bool)
    (earlier rs : list ResourceMetadata.t)
  : list (ResourceMetadata.t * bool) :=
  match rs with
  | [] => []
  | r :: rest =>
      (r, negb (found present (map (stubText g) earlier) (stubText g r)))
      :: stubsDue g present (earlier ++ [r]) rest
  end.

Definition reconcilerFiles (g : Generator.t)
    (plan : list (ResourceMetadata.t * bool)) : list names.Path :=
  flat_map (fun rd : ResourceMetadata.t * bool =>
              companionFile g (fst rd) ::
                      (if snd rd then [stubFile g (fst rd)] else []))
           plan.

Definition reconcilerTemplates (plan : list (ResourceMetadata.t * bool))
  : list string :=
  flat_map (fun rd : ResourceMetadata.t * bool =>
              "reconciler" ::
                      (if snd rd then ["reconcilerStub"] else []))
           plan.

(** A world that is such a directory, in which no call fails. *)
Definition directory (present : string -> bool) : World :=
  mkWorld None (fun _ _ => None)
    (fun h p =>
       negb (found present (map names.text (written h)) (names.text p))).

(** The resource of the test registered a second time. *)
Definition registeredTwice : Generator.t :=
  match RegisterResource (sample.registered "reconcile")
                         (sample.pointer_to sample.TestResource) with
  | Some g => g
  | None => sample.registered "reconcile"
  end.

(** * Properties *)

(** ** Strings *)

Lemma Split_not_nil s sep : strings.Split s sep <> [].
Proof.
  destruct s as [|c s]; simpl; [discriminate|].
  destruct (Ascii.eqb c sep); [discriminate|].
  destruct (strings.Split s sep); discriminate.
Qed.

Lemma Split_length_pos s sep : (0 <? length (strings.Split s sep))%nat = true.
Proof.
  pose proof (Split_not_nil s sep) as H.
  destruct (strings.Split s sep); [congruence | reflexivity].
Qed.




(** ** The type introspector *)

Lemma extractFields_inner_from acc sub :
  fold_left
    (fun fields structField =>
       if negb (reflect.IsExported structField) then fields
       else fields ++ [specFieldOf structField])
    sub acc
  = acc ++ map specFieldOf (List.filter reflect.IsExported sub).
Proof.
  revert acc. induction sub as [|f sub IH]; intros acc; simpl.
  - now rewrite app_nil_r.
  - rewrite IH. destruct (reflect.IsExported f); simpl; [|reflexivity].
    now rewrite <- app_assoc.
Qed.

Lemma extractFields_inner_filter sub :
  extractFields_inner sub = map specFieldOf (List.filter reflect.IsExported sub).
Proof. unfold extractFields_inner. now rewrite extractFields_inner_from. Qed.

Lemma extractFields_subRecord resourceType targetField :
  extractFields resourceType targetField =
  option_map extractFields_inner (subRecord resourceType targetField).
Proof.
  unfold extractFields, subRecord.
  destruct (reflect.Fields resourceType) as [outer|]; [|reflexivity].
  induction outer as [|field rest IH]; simpl; [reflexivity|].
  destruct (String.eqb (reflect.Field_Name field) targetField); [|exact IH].
  destruct (reflect.Field_Type field) as [h k|h e|h e|h n e|h e|h k e|h fs];
    try reflexivity.
  destruct k; reflexivity.
Qed.

Lemma hidden_JSONName f :
  hidden f = true -> SpecField.JSONName (specFieldOf f) = reflect.Field_Name f.
Proof.
  unfold hidden, specFieldOf. cbn [SpecField.JSONName]. intros H.
  destruct (negb (String.eqb (reflect.Get (reflect.Field_Tag f) "json") EmptyString));
    [|reflexivity].
  rewrite H. rewrite andb_false_r. reflexivity.
Qed.

(** C1, as amended: for every resource type and either target, [extractFields]
    returns one entry for each exported field of the sub-record, in the
    declared order, whatever the json tag; so the length of [SpecFields]
    (and of [StatusFields]) is the number of exported fields, and an exported
    field whose json tag starts with the segment "-" is listed, with its
    source name as the serialization name. *)
Theorem extractFields_keeps_hidden_fields resourceType targetField sub :
  subRecord resourceType targetField = Some sub ->
  extractFields resourceType targetField
    = Some (map specFieldOf (List.filter reflect.IsExported sub)) /\
  (forall fields,
     extractFields resourceType targetField = Some fields ->
     length fields = length (List.filter reflect.IsExported sub) /\
     forall f, In f sub -> reflect.IsExported f = true -> hidden f = true ->
       In (specFieldOf f) fields /\
       SpecField.Name (specFieldOf f) = reflect.Field_Name f /\
       SpecField.JSONName (specFieldOf f) = reflect.Field_Name f).
Proof.
  intros Hsub.
  assert (Hx : extractFields resourceType targetField
               = Some (map specFieldOf (List.filter reflect.IsExported sub))).
  { rewrite extractFields_subRecord, Hsub. simpl.
    now rewrite extractFields_inner_filter. }
  split; [exact Hx|].
  intros fields Hf. rewrite Hx in Hf. injection Hf as <-.
  split; [apply length_map|].
  intros f Hin Hexp Hhid. split; [|split].
  - apply in_map, filter_In. split; assumption.
  - reflexivity.
  - apply hidden_JSONName, Hhid.
Qed.

Lemma extractFields_keeps_hidden_fields_witness :
  extractFields sample.Vault "Spec"
    = Some (map specFieldOf
              (List.filter reflect.IsExported
                 [ reflect.mkStructField "Owner" EmptyString sample.string_
                     [("json", "owner")];
                   sample.Secret ])) /\
  (forall fields,
     extractFields sample.Vault "Spec" = Some fields ->
     length fields =
       length (List.filter reflect.IsExported
                 [ reflect.mkStructField "Owner" EmptyString sample.string_
                     [("json", "owner")];
                   sample.Secret ]) /\
     forall f,
       In f [ reflect.mkStructField "Owner" EmptyString sample.string_
                [("json", "owner")];
              sample.Secret ] ->
       reflect.IsExported f = true -> hidden f = true ->
       In (specFieldOf f) fields /\
       SpecField.Name (specFieldOf f) = reflect.Field_Name f /\
       SpecField.JSONName (specFieldOf f) = reflect.Field_Name f).
Proof.
  apply (extractFields_keeps_hidden_fields sample.Vault "Spec").
  reflexivity.
Defined.

(** C1, as the specification words it, fails: the spec of [sample.Vault] has
    the exported field [Secret] with the json tag "-", and [extractFields]
    lists it. *)
Lemma hidden_fields_not_omitted : ~ hidden_fields_omitted sample.Vault "Spec".
Proof.
  intros H.
  destruct (H _ _ eq_refl eq_refl) as [Homit _].
  apply (Homit sample.Secret).
  - right. left. reflexivity.
  - reflexivity.
  - right. left. reflexivity.
Qed.

(** ** Example values *)

Lemma eq_fold_true a b :
  eq_fold a b = true <-> strings.lower_byte a = strings.lower_byte b.
Proof. unfold eq_fold. apply Ascii.eqb_eq. Qed.

(** [prefix_fold] and [contains_fold] say what their names say: a piece of
    the string equals the keyword once both are put in lower case. *)
Lemma prefix_fold_iff kw : forall s,
  prefix_fold kw s = true <->
  exists mid post, s = mid +:+ post /\ strings.ToLower mid = strings.ToLower kw.
Proof.
  induction kw as [|a kw IH]; intros s.
  - split; [intros _; exists EmptyString, s; split; reflexivity | reflexivity].
  - destruct s as [|b s]; simpl.
    + split; [discriminate|]. intros (mid & post & Hs & Hl).
      destruct mid; simpl in *; discriminate.
    + rewrite andb_true_iff, eq_fold_true, IH. split.
      * intros [Hab (mid & post & -> & Hl)].
        exists (String b mid), post. simpl. split; [reflexivity|].
        now rewrite Hl, Hab.
      * intros (mid & post & Hs & Hl).
        destruct mid as [|c mid]; simpl in *; [discriminate|].
        injection Hs as -> ->. injection Hl as Hc Hl.
        split; [now symmetry | exists mid, post; split; [reflexivity | assumption]].
Qed.

Lemma contains_fold_iff kw : forall s,
  contains_fold s kw = true <->
  exists pre mid post,
    s = pre +:+ mid +:+ post /\ strings.ToLower mid = strings.ToLower kw.
Proof.
  induction s as [|b s IH].
  - simpl. rewrite orb_false_r, prefix_fold_iff. split.
    + intros (mid & post & Hs & Hl). exists EmptyString, mid, post. now split.
    + intros (pre & mid & post & Hs & Hl).
      destruct pre; simpl in Hs; [|discriminate].
      exists mid, post. now split.
  - cbn [contains_fold]. rewrite orb_true_iff, prefix_fold_iff, IH. split.
    + intros [(mid & post & Hs & Hl) | (pre & mid & post & Hs & Hl)].
      * exists EmptyString, mid, post. now split.
      * exists (String b pre), mid, post. simpl. now rewrite Hs.
    + intros (pre & mid & post & Hs & Hl).
      destruct pre as [|c pre]; simpl in Hs.
      * left. exists mid, post. now split.
      * right. injection Hs as -> ->. exists pre, mid, post. now split.
Qed.



(** ** The registry *)

(** C10: a new generator has validation on in mode strict, conditional
    requests on with ETag algorithm sha256, versioning on with strategy
    header, events off with bus type memory, storage type file and driver
    sqlite in its configuration, and storage type file and driver sqlite
    on the generator itself. *)
Theorem NewGenerator_defaults outputDir packageName modulePath :
  let g := NewGenerator outputDir packageName modulePath in
  let c := Generator.Config g in
  GeneratorConfig.ValidationEnabled c = true /\
  GeneratorConfig.ValidationMode c = "strict" /\
  GeneratorConfig.ConditionalEnabled c = true /\
  GeneratorConfig.ETagAlgorithm c = "sha256" /\
  GeneratorConfig.VersioningEnabled c = true /\
  GeneratorConfig.VersionStrategy c = "header" /\
  GeneratorConfig.EventsEnabled c = false /\
  GeneratorConfig.EventBusType c = "memory" /\
  GeneratorConfig.StorageType c = "file" /\
  GeneratorConfig.DBDriver c = "sqlite" /\
  Generator.StorageType g = "file" /\
  Generator.DBDriver g = "sqlite".
Proof. cbv zeta. repeat split. Qed.

Lemma RegisterResource_deref resourceType :
  match reflect.kind resourceType, reflect.Elem resourceType with
  | reflect.Ptr, Some e => e
  | _, _ => resourceType
  end = registeredType resourceType.
Proof.
  destruct resourceType as [h k| | | | | |]; try reflexivity.
  destruct k; reflexivity.
Qed.

(** What a registration adds: one record at the end, with the first version. *)
Lemma RegisterResource_Some g resourceType g' :
  RegisterResource g resourceType = Some g' ->
  exists m,
    g' = Generator.with_Resources g (Generator.Resources g ++ [m]) /\
    ResourceMetadata.Name m = reflect.Name (registeredType resourceType) /\
    ResourceMetadata.PackageAlias m =
      List.last (strings.Split (reflect.PkgPath (registeredType resourceType)) "/")
                EmptyString /\
    ResourceMetadata.DefaultVersion m = "v1" /\
    labels m = ["v1"] /\
    Forall (fun v => SchemaVersion.IsDefault v = true) (ResourceMetadata.Versions m) /\
    extractFields (registeredType resourceType) "Spec"
      = Some (ResourceMetadata.SpecFields m) /\
    extractFields (registeredType resourceType) "Status"
      = Some (ResourceMetadata.StatusFields m).
Proof.
  unfold RegisterResource. rewrite RegisterResource_deref.
  rewrite Split_length_pos.
  destruct (extractFields _ "Spec") as [specFields|]; [|discriminate].
  destruct (extractFields _ "Status") as [statusFields|]; [|discriminate].
  intros H. injection H as <-. eexists. split; [reflexivity|].
  repeat split. repeat constructor.
Qed.

(** The package's own test: one spec field and two status fields, under the
    names the test looks for. *)
Example TestRegisterResource_ExtractsStatusFields :
  option_map
    (fun g =>
       map (fun r => (map SpecField.Name (ResourceMetadata.SpecFields r),
                      map SpecField.Name (ResourceMetadata.StatusFields r)))
           (Generator.Resources g))
    (RegisterResource (NewGenerator "./out" "main" "github.com/test/app")
                      (sample.pointer_to sample.TestResource))
  = Some [(["DesiredState"], ["ObservedState"; "ErrorCount"])].
Proof. reflexivity. Qed.

(** C6, at an input where the code departs from it: the type
    [sample.Anonymous] has the empty package path, and the alias that
    registration derives for it is the empty string, not "resources". *)
Theorem RegisterResource_empty_package_path :
  reflect.PkgPath sample.Anonymous = EmptyString /\
  option_map
    (fun g => map ResourceMetadata.PackageAlias (Generator.Resources g))
    (RegisterResource (NewGenerator "./out" "main" "github.com/test/app")
                      sample.Anonymous)
  = Some [EmptyString].
Proof. split; reflexivity. Qed.

(** *** Looking a record up and writing it back *)

Section Find.

Context {A : Type} (P : A -> Prop) `{!forall x, Decision (P x)}.

Lemma list_find_insert_same (l : list A) i x y :
  list_find P l = Some (i, x) -> P y ->
  list_find P (<[i := y]> l) = Some (i, y).
Proof.
  revert i. induction l as [|a l IH]; intros i Hf Hy; [discriminate|].
  csimpl in Hf. destruct (decide (P a)) as [Ha|Ha].
  - injection Hf as <- <-. csimpl. now rewrite decide_True.
  - destruct (list_find P l) as [[j z]|] eqn:Hl; [|discriminate].
    injection Hf as <- <-. csimpl. rewrite decide_False by assumption.
    now rewrite (IH j eq_refl Hy).
Qed.

Lemma list_find_insert_other (l : list A) i x y :
  l !! i = Some x -> ~ P x -> ~ P y ->
  list_find P (<[i := y]> l) = list_find P l.
Proof.
  revert i. induction l as [|a l IH]; intros [|i] Hi Hx Hy; try discriminate.
  - injection Hi as ->. csimpl. now rewrite !decide_False.
  - csimpl. destruct (decide (P a)); [reflexivity|].
    csimpl in Hi. now rewrite (IH i Hi Hx Hy).
Qed.

Lemma list_find_In (l : list A) i x :
  list_find P l = Some (i, x) -> In x l /\ P x /\ l !! i = Some x.
Proof.
  intros Hf. apply list_find_Some in Hf as (Hi & Hx & _).
  repeat split; try assumption.
  apply list_elem_of_In. eapply list_elem_of_lookup_2, Hi.
Qed.

Lemma list_find_of_In (l : list A) x :
  In x l -> P x -> exists i y, list_find P l = Some (i, y).
Proof.
  intros Hin Hx. apply list_elem_of_In in Hin.
  destruct (list_find_elem_of P l x Hin Hx) as [[i y] Hf]. eauto.
Qed.

Lemma list_find_absent (l : list A) :
  (forall x, In x l -> ~ P x) -> list_find P l = None.
Proof.
  intros Hno. apply list_find_None, Forall_forall.
  intros x Hx. apply Hno, list_elem_of_In, Hx.
Qed.

End Find.

Lemma In_insert {A} (l : list A) i y x :
  In x (<[i := y]> l) -> x = y \/ In x l.
Proof.
  revert i. induction l as [|a l IH]; intros [|i] H; simpl in *; try tauto.
  - destruct H as [H|H]; [left; now symmetry | right; right; exact H].
  - destruct H as [H|H]; [right; left; exact H | destruct (IH _ H); tauto].
Qed.

(** C9: setting the same tag a second time changes nothing more, and on a
    name that no registered resource has [SetResourceTag] changes nothing at
    all. *)
Theorem SetResourceTag_idempotent g resourceName key value :
  SetResourceTag (SetResourceTag g resourceName key value) resourceName key value
    = SetResourceTag g resourceName key value /\
  ((forall r, In r (Generator.Resources g) ->
              ResourceMetadata.Name r <> resourceName) ->
   SetResourceTag g resourceName key value = g).
Proof.
  unfold SetResourceTag.
  destruct (list_find (named resourceName) (Generator.Resources g))
    as [[i r]|] eqn:Hf.
  - pose proof (list_find_In _ _ _ _ Hf) as (Hin & Hname & Hi).
    split.
    + cbn [Generator.Resources Generator.with_Resources].
      erewrite list_find_insert_same; [|exact Hf|exact Hname].
      cbn [ResourceMetadata.Tags ResourceMetadata.with_Tags].
      rewrite list_insert_insert_eq.
      unfold Generator.with_Resources, ResourceMetadata.with_Tags; cbn.
      now rewrite insert_insert_eq.
    + intros Habsent. exfalso. exact (Habsent r Hin Hname).
  - rewrite Hf. split; reflexivity.
Qed.

Lemma SetResourceTag_idempotent_witness :
  SetResourceTag
    (SetResourceTag (sample.registered "main") "Location" "versioning" "enabled")
    "Location" "versioning" "enabled"
    = SetResourceTag (sample.registered "main") "Location" "versioning" "enabled" /\
  SetResourceTag (sample.registered "main") "Location" "versioning" "enabled"
    = sample.registered "main".
Proof.
  destruct (SetResourceTag_idempotent (sample.registered "main") "Location"
              "versioning" "enabled") as [Htwice Habsent].
  split; [exact Htwice|].
  apply Habsent. intros r Hin. vm_compute in Hin.
  destruct Hin as [<-|[]]. vm_compute. discriminate.
Defined.

(** *** The invariant of the registry *)

Lemma same_core_refl r : same_core r r.
Proof. repeat split. Qed.

Lemma same_core_insert rs : forall i r r',
  rs !! i = Some r -> same_core r r' ->
  Forall2 same_core rs (<[i := r']> rs).
Proof.
  induction rs as [|a rs IH]; intros [|i] r r' Hi Hc; try discriminate.
  - injection Hi as ->. constructor; [exact Hc|].
    clear. induction rs; constructor; auto using same_core_refl.
  - constructor; [apply same_core_refl | eapply IH; eassumption].
Qed.

Lemma same_core_map (f : ResourceMetadata.t -> ResourceMetadata.t) rs :
  (forall r, same_core r (f r)) -> Forall2 same_core rs (map f rs).
Proof. intros Hf. induction rs; constructor; auto. Qed.

Lemma same_core_In rs rs' r' :
  Forall2 same_core rs rs' -> In r' rs' ->
  exists r, In r rs /\ same_core r r'.
Proof.
  induction 1 as [|a b rs rs' Hab _ IH]; intros Hin; [contradiction|].
  destruct Hin as [<-|Hin].
  - exists a. split; [now left | exact Hab].
  - destruct (IH Hin) as (r & Hr & Hc). exists r. split; [now right | exact Hc].
Qed.

Lemma same_core_find n rs rs' :
  Forall2 same_core rs rs' ->
  forall j r0', list_find (named n) rs' = Some (j, r0') ->
  exists r0, list_find (named n) rs = Some (j, r0) /\ same_core r0 r0'.
Proof.
  induction 1 as [|a b rs rs' Hab _ IH]; intros j r0' Hf; [discriminate|].
  csimpl in Hf. csimpl.
  assert (Hn : named n a <-> named n b).
  { unfold named. destruct Hab as (-> & _). tauto. }
  destruct (decide (named n b)) as [Hb|Hb].
  - injection Hf as <- <-. rewrite decide_True by tauto. eauto.
  - rewrite decide_False by tauto.
    destruct (list_find (named n) rs') as [[k z]|]; [|discriminate].
    injection Hf as <- <-.
    destruct (IH k z eq_refl) as (r0 & -> & Hc). eauto.
Qed.

Lemma labels_same_core r r' : same_core r r' -> labels r = labels r'.
Proof. intros (_ & Hv & _). unfold labels. now rewrite Hv. Qed.

Lemma registry_ok_same_core rs rs' :
  registry_ok rs -> Forall2 same_core rs rs' -> registry_ok rs'.
Proof.
  intros Hok Hc r' Hin'.
  destruct (same_core_In _ _ _ Hc Hin') as (r & Hin & Hrr').
  destruct (Hok r Hin) as (Hnd & Hv1 & Hdef & Hincl).
  rewrite <- (labels_same_core _ _ Hrr').
  repeat split; try assumption.
  - destruct Hdef as (v & Hv & Hl & Hd). destruct Hrr' as (_ & Hvs & Hdv).
    exists v. rewrite <- Hvs, <- Hdv. auto.
  - intros j r0' Hf. destruct Hrr' as (Hname & _). rewrite <- Hname in Hf.
    destruct (same_core_find _ _ _ Hc _ _ Hf) as (r0 & Hf0 & Hc0).
    rewrite <- (labels_same_core _ _ Hc0). eapply Hincl, Hf0.
Qed.

Lemma registry_ok_register rs m :
  registry_ok rs ->
  labels m = ["v1"] -> default_listed m ->
  registry_ok (rs ++ [m]).
Proof.
  intros Hok Hl Hd r Hin. apply in_app_or in Hin as [Hin|[<-|[]]].
  - destruct (Hok r Hin) as (Hnd & Hv1 & Hdef & Hincl).
    repeat split; try assumption.
    intros j r0 Hf.
    destruct (list_find_of_In (named (ResourceMetadata.Name r)) rs r Hin eq_refl)
      as (i & y & Hfy).
    rewrite (list_find_app_l _ _ _ _ _ Hfy) in Hf. injection Hf as <- <-.
    eapply Hincl, Hfy.
  - rewrite Hl. repeat split; try assumption.
    + repeat constructor. simpl. tauto.
    + now left.
    + intros j r0 Hf. apply list_find_app_Some in Hf as [Hf|(_ & _ & Hf)].
      * apply list_find_In in Hf as (Hin0 & _).
        destruct (Hok r0 Hin0) as (_ & Hv1 & _).
        intros x [<-|[]]. exact Hv1.
      * csimpl in Hf. destruct (decide (named (ResourceMetadata.Name m) m));
          [|discriminate].
        injection Hf as _ <-. rewrite Hl. apply incl_refl.
Qed.

Lemma version_exists_iff r version :
  existsb
    (fun existingVersion =>
       String.eqb (SchemaVersion.Version existingVersion)
                  (SchemaVersion.Version version))
    (ResourceMetadata.Versions r) = true
  <-> In (SchemaVersion.Version version) (labels r).
Proof.
  unfold labels. rewrite existsb_exists, in_map_iff. split.
  - intros (v & Hin & Heq). apply String.eqb_eq in Heq. eauto.
  - intros (v & Heq & Hin). exists v. split; [exact Hin|].
    now apply String.eqb_eq.
Qed.

(** The record that a successful [AddResourceVersion] writes back. *)
Lemma added_version_record r0 version :
  let r1 :=
    ResourceMetadata.with_Versions r0 (ResourceMetadata.Versions r0 ++ [version]) in
  let r2 :=
    if SchemaVersion.IsDefault version
    then ResourceMetadata.with_DefaultVersion r1 (SchemaVersion.Version version)
    else r1 in
  ResourceMetadata.Name r2 = ResourceMetadata.Name r0 /\
  ResourceMetadata.Versions r2 = ResourceMetadata.Versions r0 ++ [version] /\
  ResourceMetadata.DefaultVersion r2 =
    (if SchemaVersion.IsDefault version then SchemaVersion.Version version
     else ResourceMetadata.DefaultVersion r0).
Proof. cbv zeta. destruct (SchemaVersion.IsDefault version); repeat split. Qed.

Lemma registry_ok_add rs n i r0 r2 version :
  registry_ok rs ->
  list_find (named n) rs = Some (i, r0) ->
  ~ In (SchemaVersion.Version version) (labels r0) ->
  ResourceMetadata.Name r2 = ResourceMetadata.Name r0 ->
  ResourceMetadata.Versions r2 = ResourceMetadata.Versions r0 ++ [version] ->
  ResourceMetadata.DefaultVersion r2 =
    (if SchemaVersion.IsDefault version then SchemaVersion.Version version
     else ResourceMetadata.DefaultVersion r0) ->
  registry_ok (<[i := r2]> rs).
Proof.
  intros Hok Hf Hfresh Hname Hvs Hdv.
  pose proof (list_find_In _ _ _ _ Hf) as (Hin0 & Hn0 & Hi). unfold named in Hn0.
  destruct (Hok r0 Hin0) as (Hnd0 & Hv10 & Hdef0 & _).
  assert (Hl2 : labels r2 = labels r0 ++ [SchemaVersion.Version version]).
  { unfold labels. now rewrite Hvs, map_app. }
  assert (Hf2 : list_find (named n) (<[i := r2]> rs) = Some (i, r2)).
  { eapply list_find_insert_same; [exact Hf|]. unfold named. congruence. }
  intros r Hin. apply In_insert in Hin as [->|Hin].
  - rewrite Hl2. repeat split.
    + apply List.NoDup_app; [exact Hnd0 | repeat constructor; simpl; tauto |].
      intros a Ha [<-|[]]. exact (Hfresh Ha).
    + apply in_or_app. now left.
    + destruct (SchemaVersion.IsDefault version) eqn:Hd.
      * exists version. rewrite Hvs, Hdv. repeat split; [|assumption].
        apply in_or_app. right. now left.
      * destruct Hdef0 as (v & Hv & Hlab & Hflag). exists v.
        rewrite Hvs, Hdv. repeat split; try assumption.
        apply in_or_app. now left.
    + intros j r0' Hfj. rewrite Hname, Hn0, Hf2 in Hfj.
      injection Hfj as _ <-. rewrite Hl2. apply incl_refl.
  - destruct (Hok r Hin) as (Hnd & Hv1 & Hdef & Hincl).
    repeat split; try assumption.
    intros j r0' Hfj.
    destruct (String.eqb_spec (ResourceMetadata.Name r) n) as [Heq|Hne].
    + rewrite Heq, Hf2 in Hfj. injection Hfj as _ <-.
      rewrite Hl2. apply incl_appl. eapply Hincl. rewrite Heq. exact Hf.
    + rewrite (list_find_insert_other _ _ _ r0 r2) in Hfj;
        [eapply Hincl, Hfj | exact Hi | |]; unfold named; congruence.
Qed.

Lemma reachable_registry_ok g : reachable g -> registry_ok (Generator.Resources g).
Proof.
  induction 1 as [o p m | g t g' _ IH Hreg | g n k v _ IH | g n v _ IH
                 | g v _ IH | g s _ IH | g d _ IH].
  - intros r [].
  - apply RegisterResource_Some in Hreg
      as (m & -> & _ & _ & Hdv & Hl & Hflags & _).
    cbn [Generator.Resources Generator.with_Resources].
    apply registry_ok_register; [exact IH | exact Hl |].
    unfold labels in Hl.
    destruct (ResourceMetadata.Versions m) as [|v0 vs] eqn:Hvs; [discriminate|].
    injection Hl as Hv0 _. exists v0. rewrite Hvs, Hdv. repeat split.
    + now left.
    + exact Hv0.
    + now inversion Hflags.
  - unfold SetResourceTag.
    destruct (list_find _ _) as [[i r]|] eqn:Hf; [|exact IH].
    cbn [Generator.Resources Generator.with_Resources].
    apply list_find_In in Hf as (_ & _ & Hi).
    eapply registry_ok_same_core; [exact IH|].
    eapply same_core_insert; [exact Hi | repeat split].
  - unfold AddResourceVersion.
    destruct (list_find _ _) as [[i r0]|] eqn:Hf; [|exact IH].
    destruct (existsb _ _) eqn:Hex; [exact IH|].
    cbn [snd Generator.Resources Generator.with_Resources].
    destruct (added_version_record r0 v) as (Hn & Hvs & Hdv).
    eapply registry_ok_add; try eassumption.
    rewrite <- version_exists_iff, Hex. discriminate.
  - unfold SetAPIGroupVersion.
    cbn [Generator.Resources Generator.with_Resources].
    eapply registry_ok_same_core; [exact IH|].
    apply same_core_map. intros r. repeat split.
  - exact IH.
  - exact IH.
Qed.

Lemma registered_reachable packageName : reachable (sample.registered packageName).
Proof.
  unfold sample.registered.
  destruct (RegisterResource _ _) as [g|] eqn:Hreg; [|apply reach_new].
  eapply reach_register; [apply reach_new | exact Hreg].
Qed.

Lemma upgraded_reachable : reachable scenario.upgraded.
Proof. apply reach_version, registered_reachable. Qed.

(** C4: on a generator built by the public operations, adding a version
    whose label one of the versions of a resource of that name already has
    returns the already-exists error and leaves the generator as it was, and
    adding a version to a name that no resource has returns the not-found
    error and leaves the generator as it was. *)
Theorem AddResourceVersion_errors g resourceName version :
  reachable g ->
  ((exists r, In r (Generator.Resources g) /\
              ResourceMetadata.Name r = resourceName /\
              In (SchemaVersion.Version version) (labels r)) ->
   AddResourceVersion g resourceName version =
     (Some ("version " +:+ SchemaVersion.Version version +:+
            " already exists for resource " +:+ resourceName), g)) /\
  ((forall r, In r (Generator.Resources g) ->
              ResourceMetadata.Name r <> resourceName) ->
   AddResourceVersion g resourceName version =
     (Some ("resource " +:+ resourceName +:+ " not found"), g)).
Proof.
  intros Hreach. pose proof (reachable_registry_ok g Hreach) as Hok.
  unfold AddResourceVersion. split.
  - intros (r & Hin & Hname & Hlab).
    destruct (list_find_of_In (named resourceName) _ r Hin Hname)
      as (i & r0 & Hf).
    rewrite Hf.
    destruct (Hok r Hin) as (_ & _ & _ & Hincl).
    rewrite Hname in Hincl. apply (Hincl _ _ Hf) in Hlab.
    apply version_exists_iff in Hlab. now rewrite Hlab.
  - intros Habsent. now rewrite (list_find_absent (named resourceName) _ Habsent).
Qed.

Lemma AddResourceVersion_errors_witness :
  AddResourceVersion (sample.registered "main") "TestResource" sample.v1 =
    (Some "version v1 already exists for resource TestResource",
     sample.registered "main") /\
  AddResourceVersion (sample.registered "main") "Device" sample.v1 =
    (Some "resource Device not found", sample.registered "main").
Proof.
  split.
  - apply (AddResourceVersion_errors (sample.registered "main") "TestResource"
             sample.v1 (registered_reachable "main")).
    exists (scenario.first_resource (sample.registered "main")).
    vm_compute. auto.
  - apply (AddResourceVersion_errors (sample.registered "main") "Device"
             sample.v1 (registered_reachable "main")).
    intros r Hin. vm_compute in Hin. destruct Hin as [<-|[]].
    vm_compute. discriminate.
Defined.

(** C5: when the name is registered and the label is new to the resource it
    denotes, [AddResourceVersion] succeeds; the resource then has the version
    appended, and its [DefaultVersion] is the new label if the version has the
    default flag and is what it was otherwise. *)
Theorem AddResourceVersion_default g resourceName version i r :
  GetResourceByName g resourceName = Some (i, r) ->
  ~ In (SchemaVersion.Version version) (labels r) ->
  exists r',
    AddResourceVersion g resourceName version =
      (None, Generator.with_Resources g (<[i := r']> (Generator.Resources g))) /\
    GetResourceByName (snd (AddResourceVersion g resourceName version))
                      resourceName = Some (i, r') /\
    ResourceMetadata.Versions r' = ResourceMetadata.Versions r ++ [version] /\
    ResourceMetadata.DefaultVersion r' =
      (if SchemaVersion.IsDefault version then SchemaVersion.Version version
       else ResourceMetadata.DefaultVersion r).
Proof.
  unfold GetResourceByName, AddResourceVersion. intros Hf Hfresh.
  rewrite Hf.
  destruct (existsb _ _) eqn:Hex.
  { apply version_exists_iff in Hex. contradiction. }
  destruct (added_version_record r version) as (Hn & Hvs & Hdv).
  eexists. split; [reflexivity|]. split; [|split; eassumption].
  cbn [snd Generator.Resources Generator.with_Resources].
  eapply list_find_insert_same; [exact Hf|].
  apply list_find_In in Hf as (_ & Hname & _). unfold named in *. congruence.
Qed.

Lemma AddResourceVersion_default_witness :
  exists r',
    AddResourceVersion (sample.registered "main") "TestResource" (sample.v2 true) =
      (None,
       Generator.with_Resources (sample.registered "main")
         (<[0 := r']> (Generator.Resources (sample.registered "main")))) /\
    GetResourceByName
      (snd (AddResourceVersion (sample.registered "main") "TestResource"
                               (sample.v2 true)))
      "TestResource" = Some (0, r') /\
    ResourceMetadata.Versions r' =
      ResourceMetadata.Versions
        (scenario.first_resource (sample.registered "main"))
      ++ [sample.v2 true] /\
    ResourceMetadata.DefaultVersion r' =
      (if SchemaVersion.IsDefault (sample.v2 true)
       then SchemaVersion.Version (sample.v2 true)
       else ResourceMetadata.DefaultVersion
              (scenario.first_resource (sample.registered "main"))).
Proof.
  apply (AddResourceVersion_default (sample.registered "main") "TestResource"
           (sample.v2 true) 0
           (scenario.first_resource (sample.registered "main"))).
  - vm_compute. reflexivity.
  - vm_compute. intros [H|[]]. discriminate H.
Defined.

Lemma registry_ok_versions_ok rs r :
  registry_ok rs -> In r rs -> versions_ok r.
Proof.
  intros Hok Hin. destruct (Hok r Hin) as (Hnd & _ & Hdef & _).
  split; [exact Hnd|]. split; [exact Hdef|].
  destruct Hdef as (v & Hv & _ & Hflag). unfold defaultCount.
  assert (Hv' : In v (List.filter SchemaVersion.IsDefault
                                  (ResourceMetadata.Versions r))).
  { apply filter_In. now split. }
  destruct (List.filter _ _); [contradiction | simpl; lia].
Qed.

(** C2, as amended: on a generator built by the public operations, the labels
    of the versions of every resource are pairwise different, and the version
    whose label is the resource's [DefaultVersion] is among them and has the
    default flag, so at least one version has the flag.  Adding, with
    [AddResourceVersion], a version of a new label that has the default flag
    succeeds; the version is appended behind the versions that were there,
    which stay as they were, flags included, so one more version carries the
    flag than before; [DefaultVersion] moves to the new label; and every
    record of the registry that results satisfies the invariant again. *)
Theorem default_version_listed g :
  reachable g ->
  (forall r, In r (Generator.Resources g) -> versions_ok r) /\
  (forall resourceName version i r,
     GetResourceByName g resourceName = Some (i, r) ->
     ~ In (SchemaVersion.Version version) (labels r) ->
     SchemaVersion.IsDefault version = true ->
     exists r',
       AddResourceVersion g resourceName version =
         (None,
          Generator.with_Resources g (<[i := r']> (Generator.Resources g))) /\
       ResourceMetadata.Versions r' = ResourceMetadata.Versions r ++ [version] /\
       ResourceMetadata.DefaultVersion r' = SchemaVersion.Version version /\
       defaultCount r' = S (defaultCount r) /\
       (forall r'', In r'' (<[i := r']> (Generator.Resources g)) ->
                    versions_ok r'')).
Proof.
  intros Hreach. split.
  { intros r Hin.
    exact (registry_ok_versions_ok _ r (reachable_registry_ok g Hreach) Hin). }
  intros resourceName version i r Hf Hfresh Hflag.
  pose proof (reachable_registry_ok _
                (reach_version g resourceName version Hreach)) as Hok'.
  revert Hf Hok'. unfold GetResourceByName, AddResourceVersion. intros Hf.
  rewrite Hf.
  destruct (existsb _ _) eqn:Hex.
  { apply version_exists_iff in Hex. contradiction. }
  cbn [snd Generator.Resources Generator.with_Resources]. intros Hok'.
  rewrite Hflag in Hok' |- *.
  eexists. split; [reflexivity|]. split; [reflexivity|].
  split; [reflexivity|]. split.
  - unfold defaultCount.
    cbn [ResourceMetadata.Versions ResourceMetadata.with_Versions
         ResourceMetadata.with_DefaultVersion].
    rewrite List.filter_app, length_app.
    cbn [List.filter]. rewrite Hflag. simpl. lia.
  - intros r'' Hin. exact (registry_ok_versions_ok _ r'' Hok' Hin).
Qed.

Lemma default_version_listed_witness :
  versions_ok (scenario.first_resource scenario.upgraded) /\
  exists r',
    AddResourceVersion (sample.registered "main") "TestResource"
                       (sample.v2 true) =
      (None,
       Generator.with_Resources (sample.registered "main")
         (<[0 := r']> (Generator.Resources (sample.registered "main")))) /\
    ResourceMetadata.Versions r' =
      ResourceMetadata.Versions
        (scenario.first_resource (sample.registered "main"))
      ++ [sample.v2 true] /\
    ResourceMetadata.DefaultVersion r' = SchemaVersion.Version (sample.v2 true) /\
    defaultCount r' =
      S (defaultCount (scenario.first_resource (sample.registered "main"))) /\
    (forall r'',
       In r'' (<[0 := r']> (Generator.Resources (sample.registered "main"))) ->
       versions_ok r'').
Proof.
  split.
  - apply (default_version_listed scenario.upgraded upgraded_reachable).
    vm_compute. left. reflexivity.
  - apply (proj2 (default_version_listed (sample.registered "main")
                    (registered_reachable "main"))
             "TestResource" (sample.v2 true) 0
             (scenario.first_resource (sample.registered "main"))).
    + vm_compute. reflexivity.
    + vm_compute. intros [H|[]]. discriminate H.
    + vm_compute. reflexivity.
Defined.

(** C2, as the specification words it, fails: after registering a resource
    and adding v2 with the default flag, both v1 and v2 carry the flag. *)
Lemma two_default_versions : ~ at_most_one_default.
Proof.
  intros H.
  pose proof (H scenario.upgraded upgraded_reachable
                (scenario.first_resource scenario.upgraded)) as Hle.
  assert (Hin : In (scenario.first_resource scenario.upgraded)
                   (Generator.Resources scenario.upgraded)).
  { vm_compute. left. reflexivity. }
  specialize (Hle Hin). vm_compute in Hle. lia.
Qed.

(** ** The pipeline *)

(** C8: when the package name is none of main, client and reconcile,
    [GenerateAll] returns an error and the trace is what it was: no template
    is executed, nothing is formatted, no directory is made and no file is
    written; and when the embedded templates load, the error is the
    unsupported-package-type one. *)
Theorem GenerateAll_unsupported g w h :
  Generator.PackageName g <> "main" ->
  Generator.PackageName g <> "client" ->
  Generator.PackageName g <> "reconcile" ->
  (exists msg, fst (GenerateAll g w h) = Err msg) /\
  snd (GenerateAll g w h) = h /\
  (loadError w = None ->
   fst (GenerateAll g w h) =
     Err ("unsupported package type: " +:+ Generator.PackageName g)).
Proof.
  intros Hmain Hclient Hreconcile.
  unfold GenerateAll, bind, LoadTemplates.
  destruct (loadError w) as [msg|].
  - split; [eauto|]. split; [reflexivity | discriminate].
  - cbn [Generator.PackageName Generator.with_Templates].
    apply String.eqb_neq in Hmain, Hclient, Hreconcile.
    rewrite Hmain, Hclient, Hreconcile. unfold fail.
    split; [eauto|]. split; reflexivity.
Qed.

Lemma GenerateAll_unsupported_witness :
  (exists msg, fst (GenerateAll worker quiet []) = Err msg) /\
  snd (GenerateAll worker quiet []) = [] /\
  (loadError quiet = None ->
   fst (GenerateAll worker quiet []) =
     Err ("unsupported package type: " +:+ Generator.PackageName worker)).
Proof.
  apply (GenerateAll_unsupported worker quiet []);
    vm_compute; discriminate.
Defined.

(** With templates that do not load, the error is the one of the load; the
    trace is empty all the same. *)
Example GenerateAll_unsupported_load_failure :
  GenerateAll worker broken [] = (Err "failed to parse template", []).
Proof. reflexivity. Qed.

(** *** Counting the executions of a template *)

Lemma executed_app name tr1 tr2 :
  executed name (tr1 ++ tr2) = executed name tr1 ++ executed name tr2.
Proof.
  induction tr1 as [|ev tr1 IH]; [reflexivity|].
  destruct ev; simpl; try exact IH.
  destruct (String.eqb template name); simpl; now rewrite IH.
Qed.

Lemma adds_ret {A} name (a : A) : adds name (ret a) [].
Proof. intros w h a' h' H. injection H as _ <-. now rewrite app_nil_r. Qed.

Lemma adds_fail {A} name msg ds : adds name (@fail A msg) ds.
Proof. intros w h a h' H. discriminate H. Qed.

Lemma adds_panic {A} name ds : adds name (@panic A) ds.
Proof. intros w h a h' H. discriminate H. Qed.

Lemma adds_bind {A B} name (c : Gen A) (k : A -> Gen B) d1 d2 :
  adds name c d1 -> (forall a, adds name (k a) d2) ->
  adds name (bind c k) (d1 ++ d2).
Proof.
  intros Hc Hk w h b h' H. unfold bind in H.
  destruct (c w h) as [[a|msg|] h1] eqn:Hch; try discriminate.
  rewrite (Hk a _ _ _ _ H), (Hc _ _ _ _ Hch). now rewrite app_assoc.
Qed.

Lemma adds_call name ev prefix : adds name (call ev prefix) (executed name [ev]).
Proof.
  intros w h a h' H. unfold call in H.
  destruct (callError w h ev); [discriminate|].
  injection H as _ <-. apply executed_app.
Qed.

Lemma adds_Execute name g n data prefix :
  adds name (Execute g n data prefix) (executed name [EvExecute n data]).
Proof.
  unfold Execute. destruct (Generator.Templates g !! n).
  - apply adds_call.
  - apply adds_panic.
Qed.

Lemma adds_statNotExist name path : adds name (statNotExist path) [].
Proof.
  intros w h a h' H. injection H as _ <-.
  rewrite executed_app. reflexivity.
Qed.

Lemma adds_forEach {A} name (xs : list A) (body : A -> Gen unit) f :
  (forall x, adds name (body x) (f x)) ->
  adds name (forEach xs body) (List.concat (map f xs)).
Proof.
  intros Hbody. induction xs as [|x xs IH]; simpl.
  - apply adds_ret.
  - apply adds_bind; [apply Hbody | intros _; exact IH].
Qed.

Lemma adds_wrapping {A} name (c : Gen A) prefix ds :
  adds name c ds -> adds name (wrapping c prefix) ds.
Proof.
  intros Hc w h a h' H. unfold wrapping in H.
  destruct (c w h) as [[a'|msg|] h1] eqn:Hch; try discriminate.
  injection H as <- <-. eapply Hc, Hch.
Qed.

Lemma adds_eq {A} name (c : Gen A) ds ds' :
  adds name c ds -> ds = ds' -> adds name c ds'.
Proof. now intros H <-. Qed.

Lemma concat_map_nil {A B} (xs : list A) :
  List.concat (map (fun _ => @nil B) xs) = [].
Proof. induction xs; simpl; auto. Qed.

Lemma concat_map_singleton {A B} (f : A -> B) (xs : list A) :
  List.concat (map (fun x => [f x]) xs) = map f xs.
Proof. induction xs; simpl; congruence. Qed.

(** The steps that a stage is made of, one rule each. *)
Ltac adds_steps :=
  repeat first
    [ apply adds_ret | apply adds_fail | apply adds_panic
    | apply adds_call | apply adds_Execute | apply adds_statNotExist
    | eapply adds_wrapping
    | eapply adds_forEach; intros ?
    | eapply adds_bind; [|intros ?] ].

Ltac adds_stage := eapply adds_eq; [adds_steps | try reflexivity].

Lemma adds_executeTemplate name g templateName outputPath :
  adds name (executeTemplate g templateName outputPath None)
       (executed name
          [EvExecute templateName (VersionData (Generator.Version g) templateName)]).
Proof.
  unfold executeTemplate.
  destruct (Generator.Templates g !! templateName); [|apply adds_fail].
  destruct (String.eqb (names.Ext outputPath) ".go"); adds_stage;
    simpl; destruct (String.eqb templateName name); reflexivity.
Qed.

(** *** How often each stage of the server pipeline runs the flat-handlers
    template *)

Section FlatHandlers.

Variable g : Generator.t.

Lemma GenerateEntSchemas_flat : adds "flatHandlers" (GenerateEntSchemas g) [].
Proof.
  unfold GenerateEntSchemas.
  destruct (negb (String.eqb (Generator.StorageType g) "ent"));
    [apply adds_ret|].
  eapply adds_eq.
  - eapply adds_bind; [apply adds_call | intros _].
    eapply adds_bind; [apply adds_executeTemplate | intros _].
    eapply adds_bind; [apply adds_executeTemplate | intros _].
    apply adds_executeTemplate.
  - reflexivity.
Qed.

Lemma GenerateEntAdapter_flat : adds "flatHandlers" (GenerateEntAdapter g) [].
Proof.
  unfold GenerateEntAdapter.
  destruct (negb (String.eqb (Generator.StorageType g) "ent"));
    [apply adds_ret|].
  eapply adds_eq.
  - eapply adds_bind; [apply adds_Execute | intros _].
    eapply adds_bind; [apply adds_call | intros _].
    eapply adds_bind; [apply adds_call | intros _].
    apply adds_wrapping, adds_executeTemplate.
  - reflexivity.
Qed.

Lemma GenerateModels_flat : adds "flatHandlers" (GenerateModels g) [].
Proof. unfold GenerateModels. adds_stage. Qed.

Lemma GenerateFlatHandlers_flat :
  adds "flatHandlers" (GenerateFlatHandlers g) (flatHandlersData g).
Proof.
  unfold GenerateFlatHandlers. adds_stage.
  cbn. apply concat_map_singleton.
Qed.

Lemma GenerateHandlers_flat :
  adds "flatHandlers" (GenerateHandlers g) (flatHandlersData g).
Proof.
  unfold GenerateHandlers.
  eapply adds_eq.
  - eapply adds_bind; [|intros _; apply GenerateFlatHandlers_flat].
    adds_steps.
  - cbn. now rewrite concat_map_nil.
Qed.

Lemma generateMiddlewareFile_flat templateName filename dir data :
  String.eqb templateName "flatHandlers" = false ->
  adds "flatHandlers" (generateMiddlewareFile g templateName filename dir data) [].
Proof.
  intros Hne. unfold generateMiddlewareFile. adds_stage.
  simpl. now rewrite Hne.
Qed.

Lemma GenerateMiddleware_flat : adds "flatHandlers" (GenerateMiddleware g) [].
Proof.
  unfold GenerateMiddleware.
  destruct (GeneratorConfig.ValidationEnabled _),
           (GeneratorConfig.ConditionalEnabled _),
           (GeneratorConfig.VersioningEnabled _),
           (GeneratorConfig.EventsEnabled _);
    (eapply adds_eq;
     [ repeat first [ apply adds_ret | apply adds_call
                    | apply generateMiddlewareFile_flat; reflexivity
                    | eapply adds_bind; [|intros _] ]
     | reflexivity ]).
Qed.

Lemma GenerateRoutes_flat : adds "flatHandlers" (GenerateRoutes g) [].
Proof. unfold GenerateRoutes. adds_stage. Qed.

Lemma GenerateStorage_flat : adds "flatHandlers" (GenerateStorage g) [].
Proof.
  unfold GenerateStorage.
  destruct (String.eqb (Generator.StorageType g) "ent"); adds_stage.
Qed.

Lemma GenerateOpenAPI_flat : adds "flatHandlers" (GenerateOpenAPI g) [].
Proof. unfold GenerateOpenAPI. adds_stage. Qed.

End FlatHandlers.

(** C3, as the code has it: a successful [GenerateAll] of a generator whose
    package name is main runs the flat-handlers template twice on every
    registered resource, once at the end of [GenerateHandlers] and once in the
    stage of its own. *)
Theorem GenerateAll_flat_handlers_twice g w tr :
  Generator.PackageName g = "main" ->
  GenerateAll g w [] = (Ok tt, tr) ->
  executed "flatHandlers" tr = flatHandlersData g ++ flatHandlersData g /\
  length (executed "flatHandlers" tr) = 2 * length (Generator.Resources g).
Proof.
  intros Hmain Hrun.
  assert (Hx : executed "flatHandlers" tr
               = flatHandlersData g ++ flatHandlersData g).
  { unfold GenerateAll, bind at 1, LoadTemplates in Hrun.
    destruct (loadError w); [discriminate|].
    cbn [Generator.PackageName Generator.with_Templates
         Generator.StorageType] in Hrun.
    rewrite Hmain in Hrun. cbn [String.eqb Ascii.eqb Bool.eqb] in Hrun.
    set (g' := Generator.with_Templates g templateFiles) in Hrun.
    assert (Hadds : adds "flatHandlers"
              ((if String.eqb (Generator.StorageType g) "ent"
                then GenerateEntSchemas g';;; GenerateEntAdapter g'
                else ret tt);;;
               GenerateModels g';;; GenerateHandlers g';;;
               GenerateFlatHandlers g';;; GenerateMiddleware g';;;
               GenerateRoutes g';;; GenerateStorage g';;; GenerateOpenAPI g')
              (flatHandlersData g ++ flatHandlersData g)).
    { eapply adds_eq.
      - eapply adds_bind; [|intros _].
        { instantiate (1 := []).
          destruct (String.eqb (Generator.StorageType g) "ent");
            [|apply adds_ret].
          eapply adds_eq;
            [ eapply adds_bind;
              [apply GenerateEntSchemas_flat
              |intros _; apply GenerateEntAdapter_flat]
            | reflexivity ]. }
        eapply adds_bind; [apply GenerateModels_flat | intros _].
        eapply adds_bind; [apply GenerateHandlers_flat | intros _].
        eapply adds_bind; [apply GenerateFlatHandlers_flat | intros _].
        eapply adds_bind; [apply GenerateMiddleware_flat | intros _].
        eapply adds_bind; [apply GenerateRoutes_flat | intros _].
        eapply adds_bind; [apply GenerateStorage_flat | intros _].
        apply GenerateOpenAPI_flat.
      - change (flatHandlersData g') with (flatHandlersData g).
        cbn [app]. now rewrite !app_nil_r. }
    exact (Hadds w [] tt tr Hrun). }
  split; [exact Hx|].
  rewrite Hx, length_app. unfold flatHandlersData. rewrite length_map. lia.
Qed.

Lemma GenerateAll_flat_handlers_twice_witness :
  executed "flatHandlers" (snd (GenerateAll (sample.registered "main") quiet []))
    = flatHandlersData (sample.registered "main")
      ++ flatHandlersData (sample.registered "main") /\
  length (executed "flatHandlers"
            (snd (GenerateAll (sample.registered "main") quiet [])))
    = 2 * length (Generator.Resources (sample.registered "main")).
Proof.
  apply (GenerateAll_flat_handlers_twice (sample.registered "main") quiet).
  - vm_compute. reflexivity.
  - vm_compute. reflexivity.
Defined.

(** * Further properties *)

(** ** Strings, continued *)

Lemma sapp_cons x (a b : string) : String x a +:+ b = String x (a +:+ b).
Proof. reflexivity. Qed.

Lemma sapp_nil_l (a : string) : EmptyString +:+ a = a.
Proof. reflexivity. Qed.

Lemma sapp_assoc (a b c : string) : (a +:+ b) +:+ c = a +:+ b +:+ c.
Proof.
  induction a as [|x a IH]; [reflexivity|].
  now rewrite !sapp_cons, IH.
Qed.

Lemma sapp_nil_r (a : string) : a +:+ EmptyString = a.
Proof.
  induction a as [|x a IH]; [reflexivity|]. now rewrite sapp_cons, IH.
Qed.

Lemma prefix_iff p : forall s,
  String.prefix p s = true <-> exists post, s = p +:+ post.
Proof.
  induction p as [|a p IH]; intros s.
  - split; [intros _; exists s; reflexivity | intros _; destruct s; reflexivity].
  - destruct s as [|b s]; simpl.
    + split; [discriminate | intros [post H]; discriminate H].
    + destruct (ascii_dec a b) as [->|Hne].
      * rewrite IH. split; intros [post H]; exists post.
        -- now rewrite sapp_cons, H.
        -- rewrite sapp_cons in H. congruence.
      * split; [discriminate|]. intros [post H].
        rewrite sapp_cons in H. congruence.
Qed.

Lemma Contains_iff sub : forall s,
  strings.Contains s sub = true <-> exists pre post, s = pre +:+ sub +:+ post.
Proof.
  induction s as [|b s IH].
  - cbn [strings.Contains]. destruct (String.prefix sub EmptyString) eqn:Hp.
    + apply prefix_iff in Hp as [post Hp]. split; [|reflexivity].
      intros _. exists EmptyString, post. exact Hp.
    + split; [discriminate|]. intros (pre & post & H).
      destruct pre; [|discriminate].
      assert (Hp' : String.prefix sub EmptyString = true)
        by (apply prefix_iff; eauto).
      congruence.
  - cbn [strings.Contains]. destruct (String.prefix sub (String b s)) eqn:Hp.
    + apply prefix_iff in Hp as [post Hp]. split; [|reflexivity].
      intros _. exists EmptyString, post. exact Hp.
    + rewrite IH. split.
      * intros (pre & post & ->). exists (String b pre), post. reflexivity.
      * intros (pre & post & H). destruct pre as [|c pre].
        -- assert (Hp' : String.prefix sub (String b s) = true)
             by (apply prefix_iff; eauto).
           congruence.
        -- rewrite sapp_cons in H. injection H as _ ->. eauto.
Qed.

Lemma has_byte_app c a b :
  text.has_byte c (a +:+ b) = text.has_byte c a || text.has_byte c b.
Proof.
  induction a as [|x a IH]; [reflexivity|].
  rewrite sapp_cons. simpl. now rewrite IH, orb_assoc.
Qed.

(** The pieces of a split contain no separator, and joining them with the
    separator gives the string back. *)
Lemma Split_pieces s sep :
  Forall (fun p => text.has_byte sep p = false) (strings.Split s sep).
Proof.
  induction s as [|c s IH]; simpl; [repeat constructor|].
  destruct (Ascii.eqb c sep) eqn:Hc.
  - constructor; [reflexivity | exact IH].
  - destruct (strings.Split s sep) as [|p ps];
      [repeat constructor; simpl; now rewrite Hc|].
    inversion IH as [|? ? Hp Hps]; subst. constructor; [|exact Hps].
    simpl. now rewrite Hc, Hp.
Qed.

Lemma Split_Join s sep :
  text.Join (strings.Split s sep) (String sep EmptyString) = s.
Proof.
  induction s as [|c s IH]; [reflexivity|]. simpl.
  pose proof (Split_not_nil s sep) as Hnn.
  destruct (Ascii.eqb_spec c sep) as [->|Hne].
  - destruct (strings.Split s sep) as [|p ps]; [congruence|].
    rewrite <- IH. reflexivity.
  - destruct (strings.Split s sep) as [|p ps]; [congruence|].
    destruct ps as [|q qs]; rewrite <- IH; reflexivity.
Qed.

Lemma Split_head seg rest sep :
  text.has_byte sep seg = false ->
  List.hd EmptyString (strings.Split seg sep) = seg /\
  List.hd EmptyString (strings.Split (seg +:+ String sep rest) sep) = seg.
Proof.
  induction seg as [|c seg IH]; intros Hno.
  - rewrite sapp_nil_l. simpl. rewrite Ascii.eqb_refl. split; reflexivity.
  - simpl in Hno. apply orb_false_iff in Hno as [Hc Hno].
    rewrite sapp_cons. simpl. rewrite Hc.
    destruct (IH Hno) as [H1 H2]. split.
    + destruct (strings.Split seg sep); simpl in *; congruence.
    + destruct (strings.Split (seg +:+ String sep rest) sep);
        simpl in *; congruence.
Qed.

(** What comes before the last piece: nothing, or something that ends with
    the separator. *)
Lemma Join_last (l : list string) sep :
  l <> [] ->
  exists pre,
    text.Join l sep = pre +:+ List.last l EmptyString /\
    (pre = EmptyString \/ exists pre', pre = pre' +:+ sep).
Proof.
  induction l as [|p l IH]; [congruence|]. intros _.
  destruct l as [|q l].
  - exists EmptyString. split; [reflexivity | now left].
  - destruct IH as (pre & Hj & Hpre); [discriminate|].
    exists (p +:+ sep +:+ pre). split.
    + change (text.Join (p :: q :: l) sep)
        with (p +:+ sep +:+ text.Join (q :: l) sep).
      rewrite Hj. change (List.last (p :: q :: l) EmptyString)
        with (List.last (q :: l) EmptyString).
      now rewrite !sapp_assoc.
    + right. destruct Hpre as [->|[pre' ->]].
      * exists p. now rewrite sapp_nil_r.
      * exists (p +:+ sep +:+ pre'). now rewrite !sapp_assoc.
Qed.

Lemma Split_last s sep :
  text.has_byte sep (List.last (strings.Split s sep) EmptyString) = false /\
  exists pre,
    s = pre +:+ List.last (strings.Split s sep) EmptyString /\
    (pre = EmptyString \/ exists pre', pre = pre' +:+ String sep EmptyString).
Proof.
  split.
  - pose proof (Split_pieces s sep) as Hall.
    pose proof (Split_not_nil s sep) as Hnn.
    rewrite Forall_forall in Hall. apply Hall.
    destruct (strings.Split s sep) as [|p ps]; [congruence|].
    apply list_elem_of_In.
    destruct (exists_last (l := p :: ps)) as (l' & a & Heq); [discriminate|].
    rewrite Heq, last_last. apply in_or_app. right. now left.
  - destruct (Join_last (strings.Split s sep) (String sep EmptyString)
                (Split_not_nil s sep)) as (pre & Hj & Hpre).
    rewrite Split_Join in Hj. eauto.
Qed.

(** ** The type introspector, continued *)

(** X1: The serialization name of a field is the part of its json tag before the
    first comma, unless that part is empty or a dash, when it is the name of
    the field; and the field is required exactly when its validate tag has
    the text required somewhere in it. *)
Theorem specFieldOf_tags f seg :
  text.has_byte "," seg = false ->
  (reflect.Get (reflect.Field_Tag f) "json" = seg \/
   exists rest, reflect.Get (reflect.Field_Tag f) "json" = seg +:+ "," +:+ rest) ->
  SpecField.JSONName (specFieldOf f) =
    (if String.eqb seg EmptyString || String.eqb seg "-"
     then reflect.Field_Name f else seg) /\
  (SpecField.Required (specFieldOf f) = true <->
   exists pre post,
     reflect.Get (reflect.Field_Tag f) "validate" = pre +:+ "required" +:+ post).
Proof.
  intros Hno Htag. split; [|apply Contains_iff].
  unfold specFieldOf. cbn [SpecField.JSONName].
  assert (Hhd : List.hd EmptyString
                  (strings.Split (reflect.Get (reflect.Field_Tag f) "json") ",")
                = seg).
  { destruct (Split_head seg EmptyString "," Hno) as [H1 _].
    destruct Htag as [->|[rest ->]]; [exact H1|].
    now destruct (Split_head seg rest "," Hno) as [_ H2]. }
  rewrite Hhd.
  destruct (String.eqb_spec (reflect.Get (reflect.Field_Tag f) "json") EmptyString)
    as [Hempty|Hnonempty]; cbn [negb].
  - assert (seg = EmptyString) as ->.
    { rewrite Hempty in Hhd. now cbn in Hhd. }
    reflexivity.
  - destruct (String.eqb seg EmptyString), (String.eqb seg "-"); reflexivity.
Qed.

Lemma specFieldOf_tags_witness :
  SpecField.JSONName
    (specFieldOf (reflect.mkStructField "LocationID" EmptyString sample.string_
                    [("json", "locationId,omitempty");
                     ("validate", "omitempty,required_with=Parent")])) =
    (if String.eqb "locationId" EmptyString || String.eqb "locationId" "-"
     then "LocationID" else "locationId") /\
  (SpecField.Required
     (specFieldOf (reflect.mkStructField "LocationID" EmptyString sample.string_
                     [("json", "locationId,omitempty");
                      ("validate", "omitempty,required_with=Parent")])) = true <->
   exists pre post,
     "omitempty,required_with=Parent" = pre +:+ "required" +:+ post).
Proof.
  apply (specFieldOf_tags
           (reflect.mkStructField "LocationID" EmptyString sample.string_
              [("json", "locationId,omitempty");
               ("validate", "omitempty,required_with=Parent")])
           "locationId").
  - reflexivity.
  - right. exists "omitempty". reflexivity.
Defined.

Lemma find_target_outer outer target :
  extractFields_outer outer target =
  match List.find (fun f => String.eqb (reflect.Field_Name f) target) outer with
  | None => Some []
  | Some f =>
      match reflect.Field_Type f with
      | reflect.StructOf _ sub => Some (extractFields_inner sub)
      | reflect.PtrTo _ (reflect.StructOf _ sub) => Some (extractFields_inner sub)
      | _ => None
      end
  end.
Proof.
  induction outer as [|field rest IH]; [reflexivity|]. simpl.
  destruct (String.eqb (reflect.Field_Name field) target); [|exact IH].
  destruct (reflect.Field_Type field) as [h k|h e|h e|h n e|h e|h k e|h fs];
    try reflexivity.
  - destruct k; reflexivity.
  - destruct e; reflexivity.
Qed.

Lemma extractFields_None_iff resourceType targetField :
  extractFields resourceType targetField = None <->
  match resourceType with
  | reflect.StructOf _ outer => target_ok outer targetField = false
  | _ => True
  end.
Proof.
  unfold extractFields, target_ok.
  destruct resourceType as [h k|h e|h e|h n e|h e|h k e|h outer];
    cbn [reflect.Fields]; try tauto.
  rewrite find_target_outer.
  destruct (List.find _ outer) as [f|]; [|split; discriminate].
  destruct (reflect.Field_Type f) as [h1 k|h1 e|h1 e|h1 n e|h1 e|h1 k e|h1 fs];
    cbn [structural]; try tauto; try (split; discriminate).
  destruct e; tauto || (split; discriminate).
Qed.

(** X2: [extractFields] panics exactly on a type that is not a struct and on one
    whose first field of the targeted name is neither a struct nor a pointer
    to one; a struct without a field of that name gives the empty list. *)
Theorem extractFields_edges resourceType targetField :
  (extractFields resourceType targetField = None <->
   match resourceType with
   | reflect.StructOf _ outer => target_ok outer targetField = false
   | _ => True
   end) /\
  (forall h outer,
     resourceType = reflect.StructOf h outer ->
     (forall f, In f outer -> reflect.Field_Name f <> targetField) ->
     extractFields resourceType targetField = Some []).
Proof.
  split; [apply extractFields_None_iff|].
  intros h outer -> Hnone. unfold extractFields. cbn [reflect.Fields].
  rewrite find_target_outer.
  destruct (List.find _ outer) as [f|] eqn:Hfind; [|reflexivity].
  apply find_some in Hfind as [Hin Heq]. apply String.eqb_eq in Heq.
  now destruct (Hnone f Hin).
Qed.

Lemma extractFields_edges_witness :
  extractFields sample.Vault "Status" = Some [].
Proof.
  destruct (extractFields_edges sample.Vault "Status") as [_ Hmissing].
  eapply Hmissing; [reflexivity|].
  intros f [<-|[]]. discriminate.
Defined.

(** X3: The example value is never the empty string, and only for fields of
    string kind does it depend on the name of the field. *)
Theorem generateExampleValue_shape t fieldName :
  generateExampleValue t fieldName <> EmptyString /\
  (reflect.kind t <> reflect.String ->
   forall otherName,
     generateExampleValue t fieldName = generateExampleValue t otherName).
Proof.
  split.
  - unfold generateExampleValue.
    destruct (reflect.kind t); try discriminate.
    + destruct (reflect.Elem t) as [e|]; [|discriminate].
      destruct (reflect.Kind_eqb _ _); discriminate.
    + repeat match goal with
             | |- context [strings.Contains ?s ?kw] =>
                 destruct (strings.Contains s kw)
             end; discriminate.
  - intros Hk otherName. unfold generateExampleValue.
    destruct (reflect.kind t); try reflexivity. congruence.
Qed.

Lemma generateExampleValue_shape_witness :
  generateExampleValue sample.int_ "Count" <> EmptyString /\
  forall otherName,
    generateExampleValue sample.int_ "Count"
    = generateExampleValue sample.int_ otherName.
Proof.
  destruct (generateExampleValue_shape sample.int_ "Count") as [Hne Hsame].
  split; [exact Hne|]. apply Hsame. discriminate.
Defined.

(** ** The registry, continued *)

Lemma registeredType_not_pointer resourceType :
  (forall h e, resourceType <> reflect.PtrTo h e) ->
  registeredType resourceType = resourceType.
Proof. destruct resourceType; intros H; try reflexivity. now destruct (H h resourceType). Qed.

(** X4: Registration panics exactly on the descriptors that are not
    [registrable]: those that, behind at most one pointer, are not a struct,
    or whose Spec or Status field is neither a struct nor a pointer to one. *)
Theorem RegisterResource_panics_iff g resourceType :
  RegisterResource g resourceType = None <-> registrable resourceType = false.
Proof.
  unfold RegisterResource, registrable. rewrite RegisterResource_deref.
  rewrite Split_length_pos.
  pose proof (extractFields_None_iff (registeredType resourceType) "Spec")
    as Hspec.
  pose proof (extractFields_None_iff (registeredType resourceType) "Status")
    as Hstatus.
  assert (Hnone : match extractFields (registeredType resourceType) "Spec",
                        extractFields (registeredType resourceType) "Status"
                  with
                  | Some _, Some _ => False
                  | _, _ => True
                  end <->
                  (extractFields (registeredType resourceType) "Spec" = None \/
                   extractFields (registeredType resourceType) "Status" = None)).
  { destruct (extractFields _ "Spec"), (extractFields _ "Status");
      intuition discriminate. }
  transitivity (extractFields (registeredType resourceType) "Spec" = None \/
                extractFields (registeredType resourceType) "Status" = None).
  { rewrite <- Hnone.
    destruct (extractFields _ "Spec"), (extractFields _ "Status");
      intuition discriminate. }
  rewrite Hspec, Hstatus.
  destruct (registeredType resourceType); try tauto.
  now rewrite andb_false_iff.
Qed.

(** X5: Registering a pointer to a type is registering the type; a pointer to a
    pointer makes registration panic. *)
Theorem RegisterResource_pointer g h resourceType :
  ((forall h' e, resourceType <> reflect.PtrTo h' e) ->
   RegisterResource g (reflect.PtrTo h resourceType)
   = RegisterResource g resourceType) /\
  ((exists h' e, resourceType = reflect.PtrTo h' e) ->
   RegisterResource g (reflect.PtrTo h resourceType) = None).
Proof.
  split.
  - intros Hnp. unfold RegisterResource. rewrite !RegisterResource_deref.
    now rewrite (registeredType_not_pointer _ Hnp).
  - intros (h' & e & ->). unfold RegisterResource.
    rewrite RegisterResource_deref, Split_length_pos. reflexivity.
Qed.

Lemma RegisterResource_pointer_witness :
  RegisterResource (NewGenerator "./out" "main" "github.com/test/app")
                   (sample.pointer_to sample.TestResource)
  = RegisterResource (NewGenerator "./out" "main" "github.com/test/app")
                     sample.TestResource /\
  RegisterResource (NewGenerator "./out" "main" "github.com/test/app")
                   (sample.pointer_to (sample.pointer_to sample.TestResource))
  = None.
Proof.
  split.
  - apply (RegisterResource_pointer
             (NewGenerator "./out" "main" "github.com/test/app")
             (reflect.mkHeader EmptyString EmptyString "*codegen.TestResource")
             sample.TestResource).
    intros h' e. discriminate.
  - apply (RegisterResource_pointer
             (NewGenerator "./out" "main" "github.com/test/app")
             (reflect.mkHeader EmptyString EmptyString "**codegen.TestResource")
             (sample.pointer_to sample.TestResource)).
    eexists _, _. reflexivity.
Defined.

(** What a successful registration leaves: the registry with the new record
    at its end, and the rest of the generator as it was. *)
Lemma RegisterResource_newest g resourceType g' :
  RegisterResource g resourceType = Some g' ->
  g' = Generator.with_Resources g (Generator.Resources g') /\
  Generator.Resources g' = Generator.Resources g ++ [newest g'] /\
  ResourceMetadata.Name (newest g') = reflect.Name (registeredType resourceType) /\
  ResourceMetadata.Package (newest g')
    = reflect.PkgPath (registeredType resourceType) /\
  ResourceMetadata.Tags (newest g') = Some ∅ /\
  ResourceMetadata.DefaultVersion (newest g') = "v1" /\
  ResourceMetadata.APIGroupVersion (newest g') = "v1" /\
  labels (newest g') = ["v1"] /\
  derived_ok (newest g').
Proof.
  unfold RegisterResource. rewrite RegisterResource_deref.
  rewrite Split_length_pos.
  destruct (extractFields _ "Spec") as [specFields|]; [|discriminate].
  destruct (extractFields _ "Status") as [statusFields|]; [|discriminate].
  intros H. injection H as <-. unfold newest.
  cbn [Generator.Resources Generator.with_Resources]. rewrite last_last.
  repeat split. cbn. discriminate.
Qed.

(** X6: The alias that registration derives has no slash in it and ends the
    package path, after nothing or after a slash. *)
Theorem RegisterResource_alias g resourceType g' :
  RegisterResource g resourceType = Some g' ->
  text.has_byte "/" (ResourceMetadata.PackageAlias (newest g')) = false /\
  exists pre,
    reflect.PkgPath (registeredType resourceType)
    = pre +:+ ResourceMetadata.PackageAlias (newest g') /\
    (pre = EmptyString \/ exists pre', pre = pre' +:+ "/").
Proof.
  intros Hreg.
  apply RegisterResource_newest in Hreg
    as (_ & _ & _ & Hpkg & _ & _ & _ & _ & Hder).
  destruct Hder as (_ & _ & _ & Halias & _). rewrite Halias, Hpkg.
  apply Split_last.
Qed.

Lemma RegisterResource_alias_witness :
  text.has_byte "/" (ResourceMetadata.PackageAlias (newest (sample.registered "main")))
    = false /\
  exists pre,
    reflect.PkgPath (registeredType (sample.pointer_to sample.TestResource))
    = pre +:+ ResourceMetadata.PackageAlias (newest (sample.registered "main")) /\
    (pre = EmptyString \/ exists pre', pre = pre' +:+ "/").
Proof.
  apply (RegisterResource_alias
           (NewGenerator "./out" "main" "github.com/test/app")
           (sample.pointer_to sample.TestResource)
           (sample.registered "main")).
  vm_compute. reflexivity.
Defined.

(** X7: Looking a name up after a registration: a record that was found before
    is still the one found (an earlier registration of the name shadows the
    new one); a name found for the first time is found at the end of the
    registry; any other name is still not found. *)
Theorem GetResourceByName_after_register g resourceType g' name :
  RegisterResource g resourceType = Some g' ->
  match GetResourceByName g name with
  | Some found => GetResourceByName g' name = Some found
  | None =>
      if String.eqb (reflect.Name (registeredType resourceType)) name
      then GetResourceByName g' name
           = Some (length (Generator.Resources g), newest g')
      else GetResourceByName g' name = None
  end.
Proof.
  intros Hreg.
  apply RegisterResource_newest in Hreg as (_ & Hres & Hname & _).
  unfold GetResourceByName. rewrite Hres.
  set (m := newest g') in *.
  destruct (list_find (named name) (Generator.Resources g)) as [[i r]|] eqn:Hf.
  - now apply list_find_app_l.
  - rewrite (list_find_app_r _ _ _ Hf). csimpl. rewrite <- Hname.
    destruct (String.eqb_spec (ResourceMetadata.Name m) name) as [Heq|Hne].
    + rewrite decide_True by exact Heq. reflexivity.
    + rewrite decide_False by exact Hne. reflexivity.
Qed.

Lemma registered_main :
  RegisterResource (NewGenerator "./out" "main" "github.com/test/app")
                   (sample.pointer_to sample.TestResource)
  = Some (sample.registered "main").
Proof. vm_compute. reflexivity. Qed.

Lemma GetResourceByName_after_register_witness :
  GetResourceByName (sample.registered "main") "TestResource"
  = Some (length (Generator.Resources
                    (NewGenerator "./out" "main" "github.com/test/app")),
          newest (sample.registered "main")).
Proof.
  exact (GetResourceByName_after_register
           (NewGenerator "./out" "main" "github.com/test/app")
           (sample.pointer_to sample.TestResource)
           (sample.registered "main") "TestResource" registered_main).
Defined.

(** X8: Writing a tag and reading it back: the record the name denotes has the
    value under the key, its other tags and all its other fields are as
    before, and so is every other record of the registry. *)
Theorem SetResourceTag_lookup g name key value i r :
  GetResourceByName g name = Some (i, r) ->
  exists r',
    GetResourceByName (SetResourceTag g name key value) name = Some (i, r') /\
    tagsOf r' !! key = Some value /\
    (forall k, k <> key -> tagsOf r' !! k = tagsOf r !! k) /\
    r' = ResourceMetadata.with_Tags r (Some (tagsOf r')) /\
    (forall j, j <> i ->
       Generator.Resources (SetResourceTag g name key value) !! j
       = Generator.Resources g !! j) /\
    length (Generator.Resources (SetResourceTag g name key value))
    = length (Generator.Resources g).
Proof.
  unfold GetResourceByName, SetResourceTag. intros Hf. rewrite Hf.
  pose proof (list_find_In _ _ _ _ Hf) as (_ & Hname & _).
  cbn [Generator.Resources Generator.with_Resources].
  eexists. split; [|split; [|split; [|split; [|split]]]].
  - eapply list_find_insert_same; [exact Hf | exact Hname].
  - unfold tagsOf. cbn [ResourceMetadata.Tags ResourceMetadata.with_Tags].
    apply lookup_insert_eq.
  - intros k Hk. unfold tagsOf.
    cbn [ResourceMetadata.Tags ResourceMetadata.with_Tags].
    now rewrite lookup_insert_ne.
  - reflexivity.
  - intros j Hj. now apply list_lookup_insert_ne.
  - apply length_insert.
Qed.

Lemma SetResourceTag_lookup_witness :
  exists r',
    GetResourceByName
      (SetResourceTag (sample.registered "main") "TestResource" "owner" "ops")
      "TestResource" = Some (0, r') /\
    tagsOf r' !! "owner" = Some "ops" /\
    (forall k, k <> "owner" ->
       tagsOf r' !! k = tagsOf (newest (sample.registered "main")) !! k) /\
    r' = ResourceMetadata.with_Tags (newest (sample.registered "main"))
                                    (Some (tagsOf r')) /\
    (forall j, j <> 0 ->
       Generator.Resources
         (SetResourceTag (sample.registered "main") "TestResource" "owner" "ops")
         !! j
       = Generator.Resources (sample.registered "main") !! j) /\
    length (Generator.Resources
              (SetResourceTag (sample.registered "main") "TestResource"
                              "owner" "ops"))
    = length (Generator.Resources (sample.registered "main")).
Proof.
  apply (SetResourceTag_lookup (sample.registered "main") "TestResource"
           "owner" "ops" 0 (newest (sample.registered "main"))).
  vm_compute. reflexivity.
Defined.

(** X9: The per-resource versioning flag of the data of a resource is on exactly
    when the tag versioning has been set to enabled, true or 1: after
    [SetResourceTag] with that key the flag follows the value, and the data of
    a record fresh from registration has it off. *)
Theorem SetResourceTag_versioning g name value i r :
  GetResourceByName g name = Some (i, r) ->
  (exists r',
     GetResourceByName (SetResourceTag g name "versioning" value) name
     = Some (i, r') /\
     forall g2 templateName,
       perResourceVersioning (templateData g2 r' templateName) =
       (String.eqb value "enabled" || String.eqb value "true"
        || String.eqb value "1")) /\
  (forall g0 resourceType g2 templateName,
     RegisterResource g0 resourceType = Some g ->
     perResourceVersioning (templateData g2 (newest g) templateName) = false).
Proof.
  intros Hf. split.
  - unfold GetResourceByName, SetResourceTag in *. rewrite Hf.
    pose proof (list_find_In _ _ _ _ Hf) as (_ & Hname & _).
    cbn [Generator.Resources Generator.with_Resources].
    eexists. split.
    + eapply list_find_insert_same; [exact Hf | exact Hname].
    + intros g2 templateName. unfold templateData.
      cbn [perResourceVersioning ResourceMetadata.Tags ResourceMetadata.with_Tags].
      now rewrite lookup_insert_eq.
  - intros g0 resourceType g2 templateName Hreg.
    apply RegisterResource_newest in Hreg as (_ & _ & _ & _ & Htags & _).
    unfold templateData. cbn [perResourceVersioning]. now rewrite Htags.
Qed.

Lemma SetResourceTag_versioning_witness :
  (exists r',
     GetResourceByName
       (SetResourceTag (sample.registered "main") "TestResource"
                       "versioning" "enabled")
       "TestResource" = Some (0, r') /\
     forall g2 templateName,
       perResourceVersioning (templateData g2 r' templateName) =
       (String.eqb "enabled" "enabled" || String.eqb "enabled" "true"
        || String.eqb "enabled" "1")) /\
  perResourceVersioning
    (templateData (sample.registered "main") (newest (sample.registered "main"))
                  "server/handlers.go.tmpl") = false.
Proof.
  destruct (SetResourceTag_versioning (sample.registered "main") "TestResource"
              "enabled" 0 (newest (sample.registered "main")))
    as [Hset Hfresh].
  - vm_compute. reflexivity.
  - split; [exact Hset|].
    exact (Hfresh _ _ _ _ registered_main).
Defined.



(** X11: After a version has been added, adding one of the same label again is
    refused with the already-exists error and changes nothing; and the first
    addition touched the record the name denotes only. *)
Theorem AddResourceVersion_twice g name version version' i r :
  GetResourceByName g name = Some (i, r) ->
  ~ In (SchemaVersion.Version version) (labels r) ->
  SchemaVersion.Version version' = SchemaVersion.Version version ->
  AddResourceVersion (snd (AddResourceVersion g name version)) name version'
  = (Some ("version " +:+ SchemaVersion.Version version +:+
           " already exists for resource " +:+ name),
     snd (AddResourceVersion g name version)) /\
  (forall j, j <> i ->
     Generator.Resources (snd (AddResourceVersion g name version)) !! j
     = Generator.Resources g !! j) /\
  length (Generator.Resources (snd (AddResourceVersion g name version)))
  = length (Generator.Resources g).
Proof.
  unfold GetResourceByName. intros Hf Hfresh Hlabel.
  pose proof (list_find_In _ _ _ _ Hf) as (_ & Hname & _).
  destruct (added_version_record r version) as (Hn & Hvs & _).
  assert (Hstep : AddResourceVersion g name version =
    (None,
     Generator.with_Resources g
       (<[i := if SchemaVersion.IsDefault version
               then ResourceMetadata.with_DefaultVersion
                      (ResourceMetadata.with_Versions r
                         (ResourceMetadata.Versions r ++ [version]))
                      (SchemaVersion.Version version)
               else ResourceMetadata.with_Versions r
                      (ResourceMetadata.Versions r ++ [version])]>
          (Generator.Resources g)))).
  { unfold AddResourceVersion. rewrite Hf.
    destruct (existsb _ _) eqn:Hex; [|reflexivity].
    apply version_exists_iff in Hex. contradiction. }
  rewrite Hstep. cbn [snd]. split; [|split].
  - unfold AddResourceVersion at 1.
    cbn [Generator.Resources Generator.with_Resources].
    erewrite list_find_insert_same;
      [|exact Hf|unfold named in *; congruence].
    rewrite Hlabel.
    assert (Hex : existsb
              (fun existingVersion =>
                 String.eqb (SchemaVersion.Version existingVersion)
                            (SchemaVersion.Version version))
              (ResourceMetadata.Versions
                 (if SchemaVersion.IsDefault version
                  then ResourceMetadata.with_DefaultVersion
                         (ResourceMetadata.with_Versions r
                            (ResourceMetadata.Versions r ++ [version]))
                         (SchemaVersion.Version version)
                  else ResourceMetadata.with_Versions r
                         (ResourceMetadata.Versions r ++ [version]))) = true).
    { rewrite Hvs, existsb_app. cbn [existsb].
      now rewrite String.eqb_refl, orb_true_r. }
    now rewrite Hex.
  - intros j Hj. cbn [Generator.Resources Generator.with_Resources].
    now apply list_lookup_insert_ne.
  - cbn [Generator.Resources Generator.with_Resources]. apply length_insert.
Qed.

Lemma AddResourceVersion_twice_witness :
  AddResourceVersion
    (snd (AddResourceVersion (sample.registered "main") "TestResource"
                             (sample.v2 true)))
    "TestResource" (sample.v2 false)
  = (Some ("version " +:+ SchemaVersion.Version (sample.v2 true) +:+
           " already exists for resource " +:+ "TestResource"),
     snd (AddResourceVersion (sample.registered "main") "TestResource"
                             (sample.v2 true))) /\
  (forall j, j <> 0 ->
     Generator.Resources
       (snd (AddResourceVersion (sample.registered "main") "TestResource"
                                (sample.v2 true))) !! j
     = Generator.Resources (sample.registered "main") !! j) /\
  length (Generator.Resources
            (snd (AddResourceVersion (sample.registered "main") "TestResource"
                                     (sample.v2 true))))
  = length (Generator.Resources (sample.registered "main")).
Proof.
  apply (AddResourceVersion_twice (sample.registered "main") "TestResource"
           (sample.v2 true) (sample.v2 false) 0
           (newest (sample.registered "main"))).
  - vm_compute. reflexivity.
  - vm_compute. intros [H|[]]. discriminate H.
  - reflexivity.
Defined.

(** *** The derived fields are kept *)

Lemma derived_ok_with_Tags r m :
  derived_ok r -> derived_ok (ResourceMetadata.with_Tags r (Some m)).
Proof.
  unfold derived_ok. cbn. intros (H1 & H2 & H3 & H4 & H5 & H6 & H7 & _ & H9).
  repeat split; try assumption. discriminate.
Qed.

Lemma derived_ok_with_APIGroupVersion r v :
  derived_ok r -> derived_ok (ResourceMetadata.with_APIGroupVersion r v).
Proof. unfold derived_ok. cbn. tauto. Qed.

Lemma derived_ok_added r version :
  derived_ok r ->
  derived_ok
    (if SchemaVersion.IsDefault version
     then ResourceMetadata.with_DefaultVersion
            (ResourceMetadata.with_Versions r
               (ResourceMetadata.Versions r ++ [version]))
            (SchemaVersion.Version version)
     else ResourceMetadata.with_Versions r
            (ResourceMetadata.Versions r ++ [version])).
Proof.
  unfold derived_ok, labels.
  intros (H1 & H2 & H3 & H4 & H5 & H6 & H7 & H8 & H9).
  assert (H9' : hd_error
                  (map SchemaVersion.Version
                       (ResourceMetadata.Versions r ++ [version])) = Some "v1").
  { destruct (ResourceMetadata.Versions r); [discriminate H9 | exact H9]. }
  destruct (SchemaVersion.IsDefault version); cbn; repeat split; assumption.
Qed.

(** X12: On a generator built by the public operations, the plural name, the URL
    path, the storage name, the alias and the three qualified type names of
    every record are still the functions of its name and package path that
    registration computed; its tag map is not nil; its first version is v1;
    and the template expression that takes the last piece of the package
    path split at the slashes gives the alias. *)
Theorem reachable_derived g r :
  reachable g -> In r (Generator.Resources g) ->
  derived_ok r /\
  templateFuncs.last (templateFuncs.split "/" (ResourceMetadata.Package r))
  = ResourceMetadata.PackageAlias r.
Proof.
  intros Hreach Hin.
  assert (Hder : derived_ok r).
  { revert r Hin.
    induction Hreach as [o p m | g t g' _ IH Hreg | g n k v _ IH | g n v _ IH
                        | g v _ IH | g s _ IH | g d _ IH]; intros r Hin.
    - destruct Hin.
    - apply RegisterResource_newest in Hreg
        as (_ & Hres & _ & _ & _ & _ & _ & _ & Hnew).
      rewrite Hres in Hin. apply in_app_or in Hin as [Hin|[<-|[]]]; auto.
    - unfold SetResourceTag in Hin.
      destruct (list_find _ _) as [[i r0]|] eqn:Hf; [|auto].
      cbn [Generator.Resources Generator.with_Resources] in Hin.
      apply In_insert in Hin as [->|Hin]; [|auto].
      apply derived_ok_with_Tags, IH.
      now apply list_find_In in Hf as (Hin0 & _).
    - unfold AddResourceVersion in Hin.
      destruct (list_find _ _) as [[i r0]|] eqn:Hf; [|auto].
      destruct (existsb _ _); [auto|].
      cbn [snd Generator.Resources Generator.with_Resources] in Hin.
      apply In_insert in Hin as [->|Hin]; [|auto].
      apply derived_ok_added, IH.
      now apply list_find_In in Hf as (Hin0 & _).
    - unfold SetAPIGroupVersion in Hin.
      cbn [Generator.Resources Generator.with_Resources] in Hin.
      apply in_map_iff in Hin as (r0 & <- & Hin0).
      apply derived_ok_with_APIGroupVersion, IH, Hin0.
    - auto.
    - auto. }
  split; [exact Hder|].
  destruct Hder as (_ & _ & _ & Halias & _). rewrite Halias.
  unfold templateFuncs.last, templateFuncs.split.
  pose proof (Split_length_pos (ResourceMetadata.Package r) "/") as Hpos.
  destruct (strings.Split (ResourceMetadata.Package r) "/");
    [discriminate Hpos | reflexivity].
Qed.

Lemma reachable_derived_witness :
  derived_ok (scenario.first_resource scenario.upgraded) /\
  templateFuncs.last
    (templateFuncs.split "/"
       (ResourceMetadata.Package (scenario.first_resource scenario.upgraded)))
  = ResourceMetadata.PackageAlias (scenario.first_resource scenario.upgraded).
Proof.
  apply (reachable_derived scenario.upgraded
           (scenario.first_resource scenario.upgraded) upgraded_reachable).
  vm_compute. left. reflexivity.
Defined.

(** ** The pipeline, continued *)

Section Yields.

Context {B : Type} (Q : World -> Prop) (proj : Event -> list B).

Lemma yields_ret {A} (a : A) : yields Q proj (ret a) [].
Proof. intros w h a' h' _ H. injection H as _ <-. now rewrite app_nil_r. Qed.

Lemma yields_fail {A} msg bs : yields Q proj (@fail A msg) bs.
Proof. intros w h a h' _ H. discriminate H. Qed.

Lemma yields_panic {A} bs : yields Q proj (@panic A) bs.
Proof. intros w h a h' _ H. discriminate H. Qed.

Lemma yields_bind {A C} (c : Gen A) (k : A -> Gen C) b1 b2 :
  yields Q proj c b1 -> (forall a, yields Q proj (k a) b2) ->
  yields Q proj (bind c k) (b1 ++ b2).
Proof.
  intros Hc Hk w h b h' HQ H. unfold bind in H.
  destruct (c w h) as [[a|msg|] h1] eqn:Hch; try discriminate.
  rewrite (Hk a _ _ _ _ HQ H), (Hc _ _ _ _ HQ Hch). now rewrite app_assoc.
Qed.

Lemma yields_call ev prefix : yields Q proj (call ev prefix) (proj ev).
Proof.
  intros w h a h' _ H. unfold call in H.
  destruct (callError w h ev); [discriminate|].
  injection H as _ <-. rewrite flat_map_app. simpl. now rewrite app_nil_r.
Qed.

Lemma yields_Execute g n data prefix :
  yields Q proj (Execute g n data prefix) (proj (EvExecute n data)).
Proof.
  unfold Execute. destruct (Generator.Templates g !! n).
  - apply yields_call.
  - apply yields_panic.
Qed.

Lemma yields_forEach {A} (xs : list A) (body : A -> Gen unit) f :
  (forall x, yields Q proj (body x) (f x)) ->
  yields Q proj (forEach xs body) (List.concat (map f xs)).
Proof.
  intros Hbody. induction xs as [|x xs IH]; simpl.
  - apply yields_ret.
  - apply yields_bind; [apply Hbody | intros _; exact IH].
Qed.

Lemma yields_wrapping {A} (c : Gen A) prefix bs :
  yields Q proj c bs -> yields Q proj (wrapping c prefix) bs.
Proof.
  intros Hc w h a h' HQ H. unfold wrapping in H.
  destruct (c w h) as [[a'|msg|] h1] eqn:Hch; try discriminate.
  injection H as <- <-. eapply Hc; eassumption.
Qed.

Lemma yields_if {A} (b : bool) (c1 c2 : Gen A) b1 b2 :
  yields Q proj c1 b1 -> yields Q proj c2 b2 ->
  yields Q proj (if b then c1 else c2) (if b then b1 else b2).
Proof. now destruct b. Qed.

Lemma yields_eq {A} (c : Gen A) bs bs' :
  yields Q proj c bs -> bs = bs' -> yields Q proj c bs'.
Proof. now intros H <-. Qed.

Lemma yields_executeTemplate g templateName outputPath :
  yields Q proj (executeTemplate g templateName outputPath None)
    (proj (EvExecute templateName
             (VersionData (Generator.Version g) templateName)) ++
     (if String.eqb (names.Ext outputPath) ".go"
      then proj (EvFormat templateName
                   (VersionData (Generator.Version g) templateName))
      else []) ++
     proj (EvWriteFile outputPath)).
Proof.
  unfold executeTemplate.
  destruct (Generator.Templates g !! templateName); [|apply yields_fail].
  apply yields_bind; [apply yields_call | intros _].
  apply yields_bind; [|intros _; apply yields_call].
  destruct (String.eqb (names.Ext outputPath) ".go");
    [apply yields_call | apply yields_ret].
Qed.

End Yields.

Ltac yields_steps :=
  repeat first
    [ apply yields_ret | apply yields_fail | apply yields_panic
    | apply yields_call | apply yields_Execute | apply yields_executeTemplate
    | eapply yields_wrapping
    | eapply yields_if
    | eapply yields_forEach; intros ?
    | eapply yields_bind; [|intros ?] ].

Lemma if_same {A} (b : bool) (x : A) : (if b then x else x) = x.
Proof. now destruct b. Qed.

(** The projections of the events of a loop. *)
Ltac tidy_projection :=
  cbn;
  repeat match goal with
         | |- context [String.eqb (names.Ext ?p) ".go"] =>
             let b := eval vm_compute in (String.eqb (names.Ext p) ".go") in
             change (String.eqb (names.Ext p) ".go") with b
         end;
  cbn;
  repeat rewrite ?concat_map_nil, ?concat_map_singleton, ?app_nil_r;
  repeat rewrite <- app_assoc;
  repeat rewrite if_same;
  cbn [app];
  try reflexivity.

Lemma flat_map_nil_start {A B} (f : A -> list B) (l : list A) (bs : list B) :
  flat_map f l = flat_map f [] ++ bs -> flat_map f l = bs.
Proof. intros H. exact H. Qed.

(** The server pipeline once the templates are loaded. *)
Ltac server_pipeline g :=
  unfold GenerateEntSchemas, GenerateEntAdapter, GenerateModels,
    GenerateHandlers, GenerateFlatHandlers, GenerateMiddleware,
    generateMiddlewareFile, GenerateRoutes, GenerateStorage, GenerateOpenAPI,
    serverFiles, serverTemplates, serverDirs, middlewareFiles,
    middlewareTemplates, perResource, outFile, usesEnt;
  destruct (String.eqb (Generator.StorageType g) "ent");
  cbn [negb]; (eapply yields_eq; [yields_steps | tidy_projection]).

Lemma server_pipeline_written g :
  yields anyWorld writeOf
    ((if String.eqb (Generator.StorageType g) "ent"
      then GenerateEntSchemas g;;; GenerateEntAdapter g
      else ret tt);;;
     GenerateModels g;;; GenerateHandlers g;;;
     GenerateFlatHandlers g;;; GenerateMiddleware g;;;
     GenerateRoutes g;;; GenerateStorage g;;; GenerateOpenAPI g)
    (serverFiles g).
Proof. server_pipeline g.
Qed.

Lemma server_pipeline_ran g :
  yields anyWorld runOf
    ((if String.eqb (Generator.StorageType g) "ent"
      then GenerateEntSchemas g;;; GenerateEntAdapter g
      else ret tt);;;
     GenerateModels g;;; GenerateHandlers g;;;
     GenerateFlatHandlers g;;; GenerateMiddleware g;;;
     GenerateRoutes g;;; GenerateStorage g;;; GenerateOpenAPI g)
    (serverTemplates g).
Proof. server_pipeline g. Qed.

Lemma server_pipeline_made g :
  yields anyWorld dirOf
    ((if String.eqb (Generator.StorageType g) "ent"
      then GenerateEntSchemas g;;; GenerateEntAdapter g
      else ret tt);;;
     GenerateModels g;;; GenerateHandlers g;;;
     GenerateFlatHandlers g;;; GenerateMiddleware g;;;
     GenerateRoutes g;;; GenerateStorage g;;; GenerateOpenAPI g)
    (serverDirs g).
Proof. server_pipeline g.
Qed.

(** What [GenerateAll] runs once the templates are loaded, by package name. *)
Lemma GenerateAll_loaded g w h r h' :
  GenerateAll g w h = (r, h') ->
  (exists msg, loadError w = Some msg /\ r = Err msg /\ h' = h) \/
  (loadError w = None /\
   let g' := Generator.with_Templates g templateFiles in
   (if String.eqb (Generator.PackageName g) "main" then
      (if String.eqb (Generator.StorageType g) "ent"
       then GenerateEntSchemas g';;; GenerateEntAdapter g'
       else ret tt);;;
      GenerateModels g';;; GenerateHandlers g';;;
      GenerateFlatHandlers g';;; GenerateMiddleware g';;;
      GenerateRoutes g';;; GenerateStorage g';;; GenerateOpenAPI g'
    else if String.eqb (Generator.PackageName g) "client" then
      GenerateClient g';;; GenerateClientModels g'
    else if String.eqb (Generator.PackageName g) "reconcile" then
      GenerateReconcilers g';;; GenerateReconcilerRegistration g';;;
      GenerateEventHandlers g'
    else fail ("unsupported package type: " +:+ Generator.PackageName g))
     w h = (r, h')).
Proof.
  unfold GenerateAll, bind at 1, LoadTemplates.
  destruct (loadError w) as [msg|].
  - intros H. injection H as <- <-. left. eauto.
  - intros H. right. split; [reflexivity | exact H].
Qed.

(** X16: A successful run of the server pipeline, in any world: the files it
    wrote, the templates it executed and the directories it made, in order.
    The storage file goes to internal/storage and the middleware to
    internal/middleware whatever the output directory is; the middleware
    files are those of the enabled features; the flat handlers of every
    resource are written twice; with storage type ent the Ent schema, the
    adapter and the generation driver come first and the storage template is
    the Ent one. *)
Theorem GenerateAll_server_outcome g w tr :
  Generator.PackageName g = "main" ->
  GenerateAll g w [] = (Ok tt, tr) ->
  written tr = serverFiles g /\
  ran tr = serverTemplates g /\
  made tr = serverDirs g.
Proof.
  intros Hmain Hrun.
  apply GenerateAll_loaded in Hrun as [(msg & _ & Herr & _)|[_ Hrun]];
    [discriminate Herr|].
  cbv zeta in Hrun. rewrite Hmain in Hrun.
  change (String.eqb "main" "main") with true in Hrun. cbv iota in Hrun.
  set (g' := Generator.with_Templates g templateFiles) in Hrun.
  change (Generator.StorageType g) with (Generator.StorageType g') in Hrun.
  split; [|split].
  - exact (server_pipeline_written g' w [] tt tr I Hrun).
  - exact (server_pipeline_ran g' w [] tt tr I Hrun).
  - exact (server_pipeline_made g' w [] tt tr I Hrun).
Qed.

Lemma GenerateAll_server_outcome_witness :
  written (snd (GenerateAll (sample.registered "main") quiet []))
    = serverFiles (sample.registered "main") /\
  ran (snd (GenerateAll (sample.registered "main") quiet []))
    = serverTemplates (sample.registered "main") /\
  made (snd (GenerateAll (sample.registered "main") quiet []))
    = serverDirs (sample.registered "main").
Proof.
  apply (GenerateAll_server_outcome (sample.registered "main") quiet).
  - vm_compute. reflexivity.
  - vm_compute. reflexivity.
Defined.

(** X17: A successful run of the client pipeline, in any world: it makes the
    output directory and writes the client and its models there, from the
    templates client and clientModels; the template of the command-line
    client is not executed. *)
Theorem GenerateAll_client_outcome g w tr :
  Generator.PackageName g = "client" ->
  GenerateAll g w [] = (Ok tt, tr) ->
  written tr = [outFile g "client_generated.go"; outFile g "models_generated.go"] /\
  ran tr = ["client"; "clientModels"] /\
  made tr = [[Generator.OutputDir g]].
Proof.
  intros Hclient Hrun.
  apply GenerateAll_loaded in Hrun as [(msg & _ & Herr & _)|[_ Hrun]];
    [discriminate Herr|].
  cbv zeta in Hrun. rewrite Hclient in Hrun.
  change (String.eqb "client" "main") with false in Hrun.
  change (String.eqb "client" "client") with true in Hrun. cbv iota in Hrun.
  set (g' := Generator.with_Templates g templateFiles) in Hrun.
  assert (Hy : forall B (proj : Event -> list B),
             yields anyWorld proj (GenerateClient g';;; GenerateClientModels g')
               (proj (EvMkdirAll [Generator.OutputDir g]) ++
                proj (EvExecute "client"
                        (globalTemplateData g' "client/client.go.tmpl")) ++
                proj (EvFormat "client"
                        (globalTemplateData g' "client/client.go.tmpl")) ++
                proj (EvWriteFile (outFile g "client_generated.go")) ++
                proj (EvExecute "clientModels"
                        (globalTemplateData g' "client/models.go.tmpl")) ++
                proj (EvFormat "clientModels"
                        (globalTemplateData g' "client/models.go.tmpl")) ++
                proj (EvWriteFile (outFile g "models_generated.go")))).
  { intros B proj. unfold GenerateClient, GenerateClientModels.
    eapply yields_eq; [yields_steps|].
    rewrite <- !app_assoc. reflexivity. }
  split; [|split].
  - exact (Hy _ writeOf w [] tt tr I Hrun).
  - exact (Hy _ runOf w [] tt tr I Hrun).
  - exact (Hy _ dirOf w [] tt tr I Hrun).
Qed.

Lemma GenerateAll_client_outcome_witness :
  written (snd (GenerateAll (sample.registered "client") quiet []))
    = [outFile (sample.registered "client") "client_generated.go";
       outFile (sample.registered "client") "models_generated.go"] /\
  ran (snd (GenerateAll (sample.registered "client") quiet []))
    = ["client"; "clientModels"] /\
  made (snd (GenerateAll (sample.registered "client") quiet []))
    = [[Generator.OutputDir (sample.registered "client")]].
Proof.
  apply (GenerateAll_client_outcome (sample.registered "client") quiet).
  - vm_compute. reflexivity.
  - vm_compute. reflexivity.
Defined.

(** From a successful run to the statement about the computation. *)
Ltac by_yields Q proj w tr HQ Hrun :=
  match type of Hrun with
  | ?c w [] = _ =>
      match goal with
      | |- _ = ?bs =>
          let Hy := fresh "Hy" in
          assert (Hy : yields Q proj c bs);
          [|exact (Hy w [] tt tr HQ Hrun)]
      end
  end.

(** *** Reconcilers in a directory *)

Lemma bind_Ok {A B} (c : Gen A) (k : A -> Gen B) w h b h' :
  bind c k w h = (Ok b, h') ->
  exists a h1, c w h = (Ok a, h1) /\ k a w h1 = (Ok b, h').
Proof.
  unfold bind. destruct (c w h) as [[a|msg|] h1]; intros H;
    try discriminate H.
  eauto.
Qed.

Lemma call_Ok ev prefix w h u h' :
  call ev prefix w h = (Ok u, h') -> h' = h ++ [ev].
Proof.
  unfold call. destruct (callError w h ev); intros H; [discriminate H|].
  congruence.
Qed.

Lemma Execute_Ok g n d prefix w h u h' :
  Execute g n d prefix w h = (Ok u, h') -> h' = h ++ [EvExecute n d].
Proof.
  unfold Execute. destruct (_ !! _); [apply call_Ok|].
  intros H. discriminate H.
Qed.

Lemma statNotExist_Ok path w h b h' :
  statNotExist path w h = (Ok b, h') ->
  b = notExist w h path /\ h' = h ++ [EvStat path].
Proof. unfold statNotExist. intros H. split; congruence. Qed.

Ltac run_inv H :=
  cbv beta zeta in H;
  first
    [ apply call_Ok in H
    | apply Execute_Ok in H
    | let a := fresh "a" in
      let h := fresh "h" in
      let H1 := fresh "Hc" in
      apply bind_Ok in H as (a & h & H1 & H); run_inv H1; run_inv H ].

(** A loop that keeps, at each successful turn, what relates the elements
    done to the trace. *)
Lemma forEach_invariant {A} (body : A -> Gen unit) (w : World)
    (Inv : list A -> list Event -> Prop) :
  (forall done x h h',
     Inv done h -> body x w h = (Ok tt, h') -> Inv (done ++ [x]) h') ->
  forall xs done h h',
    Inv done h -> forEach xs body w h = (Ok tt, h') -> Inv (done ++ xs) h'.
Proof.
  intros Hstep xs. induction xs as [|x xs IH]; intros done h h' HI Hrun.
  - cbn in Hrun. unfold ret in Hrun. rewrite app_nil_r. congruence.
  - cbn [forEach] in Hrun. apply bind_Ok in Hrun as ([] & h1 & Hx & Hrest).
    replace (done ++ x :: xs) with ((done ++ [x]) ++ xs)
      by (rewrite <- app_assoc; reflexivity).
    eapply IH; [|exact Hrest]. eapply Hstep; eauto.
Qed.

Lemma sapp_length (a b : string) :
  String.length (a +:+ b) = String.length a + String.length b.
Proof.
  induction a as [|x a IH]; [now rewrite sapp_nil_l|].
  rewrite sapp_cons. simpl. now rewrite IH.
Qed.

Lemma sapp_inj_l (a x y : string) : a +:+ x = a +:+ y -> x = y.
Proof.
  induction a as [|c a IH]; [now rewrite !sapp_nil_l|].
  rewrite !sapp_cons. intros H. injection H as H. auto.
Qed.

Lemma sapp_suffix (a b u v : string) :
  String.length u = String.length v -> a +:+ u = b +:+ v -> u = v.
Proof.
  revert b. induction a as [|x a IH]; intros [|y b] Hlen H.
  - now rewrite !sapp_nil_l in H.
  - apply (f_equal String.length) in H. rewrite !sapp_length in H.
    simpl in H. lia.
  - apply (f_equal String.length) in H. rewrite !sapp_length in H.
    simpl in H. lia.
  - rewrite !sapp_cons in H. injection H as _ H. eauto.
Qed.

(** The generated file of one resource is never the stub of another: the two
    paths end differently. *)
Lemma companion_not_stub g r1 r2 :
  String.eqb (stubText g r2) (names.text (companionFile g r1)) = false.
Proof.
  apply String.eqb_neq. unfold stubText, stubFile, companionFile, outFile.
  cbn [names.text]. intros H.
  apply sapp_inj_l in H. apply sapp_inj_l in H.
  change "_reconciler.go" with ("_reconci" +:+ "ler.go") in H.
  change "_reconciler_generated.go"
    with ("_reconciler_genera" +:+ "ted.go") in H.
  rewrite <- !sapp_assoc in H. apply sapp_suffix in H; [|reflexivity].
  discriminate H.
Qed.

Lemma found_true present added t :
  found present added t = true <-> present t = true \/ In t added.
Proof.
  unfold found. rewrite orb_true_iff, existsb_exists.
  split; intros [H|H]; auto.
  - destruct H as (x & Hin & Heq). apply String.eqb_eq in Heq. subst. auto.
  - right. exists t. split; [exact H | apply String.eqb_refl].
Qed.

Lemma found_skip present added c t :
  String.eqb t c = false ->
  found present (added ++ [c]) t = found present added t.
Proof.
  intros Hc. unfold found. rewrite existsb_app. simpl. rewrite Hc.
  now rewrite !orb_false_r.
Qed.

Lemma answered_prefix present w h evs :
  answered present w (h ++ evs) -> answered present w h.
Proof.
  intros H pre p post E. apply (H pre p (post ++ evs)).
  rewrite E, <- app_assoc. reflexivity.
Qed.

Lemma stubsDue_app g present rs x : forall earlier,
  stubsDue g present earlier (rs ++ [x]) =
  stubsDue g present earlier rs ++
  [(x, negb (found present (map (stubText g) (earlier ++ rs)) (stubText g x)))].
Proof.
  induction rs as [|r rs IH]; intros earlier.
  - simpl. now rewrite app_nil_r.
  - cbn [stubsDue app]. rewrite IH, <- app_assoc. reflexivity.
Qed.

(** What the files written for the resources done say about a stub: it is
    there exactly when it was at first or is the stub of one of them. *)
Lemma found_plan g present r rs : forall earlier,
  found present
    (map (stubText g) earlier ++
     map names.text (reconcilerFiles g (stubsDue g present earlier rs)))
    (stubText g r)
  = found present (map (stubText g) (earlier ++ rs)) (stubText g r).
Proof.
  induction rs as [|x rest IH]; intros earlier.
  - simpl. now rewrite !app_nil_r.
  - specialize (IH (earlier ++ [x])). rewrite <- app_assoc in IH.
    cbn [app] in IH. rewrite <- IH. clear IH.
    cbn [stubsDue reconcilerFiles flat_map fst snd].
    change (flat_map _ (stubsDue g present (earlier ++ [x]) rest))
      with (reconcilerFiles g (stubsDue g present (earlier ++ [x]) rest)).
    set (R := map names.text
                (reconcilerFiles g (stubsDue g present (earlier ++ [x]) rest))).
    pose proof (companion_not_stub g x r) as Hc.
    apply String.eqb_neq in Hc.
    apply Bool.eq_iff_eq_true. rewrite !found_true.
    destruct (found present (map (stubText g) earlier) (stubText g x)) eqn:Hx.
    + apply found_true in Hx.
      cbn [negb app map]. rewrite !map_app, !in_app_iff. cbn [map In].
      fold R.
      split.
      * intros [H|[H|[H|H]]]; try congruence; auto.
      * intros [H|[[H|[H|[]]]|H]]; auto.
        rewrite <- H. destruct Hx as [Hx|Hx]; auto.
    + cbn [negb app map]. rewrite !map_app, !in_app_iff. cbn [map In app].
      fold R. fold (stubText g x).
      split.
      * intros [H|[H|[H|[H|H]]]]; try congruence; auto.
      * intros [H|[[H|[H|[]]]|H]]; auto.
Qed.

Lemma stubsDue_present g present rs : forall earlier,
  (forall r, In r rs -> present (stubText g r) = true) ->
  stubsDue g present earlier rs = map (fun r => (r, false)) rs.
Proof.
  induction rs as [|x rs IH]; intros earlier Hp; [reflexivity|].
  cbn [stubsDue map]. unfold found at 1. rewrite (Hp x) by now left.
  cbn [orb negb]. f_equal. apply IH. intros r Hr. apply Hp. now right.
Qed.

Lemma stubsDue_fresh g present rs : forall earlier,
  (forall r, In r rs -> present (stubText g r) = false) ->
  List.NoDup (map (stubText g) (earlier ++ rs)) ->
  stubsDue g present earlier rs = map (fun r => (r, true)) rs.
Proof.
  induction rs as [|x rs IH]; intros earlier Hp Hnd; [reflexivity|].
  cbn [stubsDue map].
  assert (Hx : found present (map (stubText g) earlier) (stubText g x) = false).
  { destruct (found _ _ _) eqn:Hf; [|reflexivity].
    apply found_true in Hf as [Hf|Hf].
    - rewrite (Hp x) in Hf by now left. discriminate Hf.
    - rewrite map_app in Hnd. cbn [map] in Hnd.
      apply List.NoDup_remove_2 in Hnd. exfalso. apply Hnd.
      apply in_or_app. now left. }
  rewrite Hx. cbn [negb]. f_equal. apply IH.
  - intros r Hr. apply Hp. now right.
  - rewrite <- app_assoc. exact Hnd.
Qed.

Lemma reconcilerFiles_none g rs :
  reconcilerFiles g (map (fun r => (r, false)) rs) = map (companionFile g) rs.
Proof.
  induction rs as [|x rs IH]; [reflexivity|].
  cbn [map reconcilerFiles flat_map fst snd app]. f_equal. exact IH.
Qed.

Lemma reconcilerFiles_all g rs :
  reconcilerFiles g (map (fun r => (r, true)) rs) =
  List.concat (map (fun r => [companionFile g r; stubFile g r]) rs).
Proof.
  induction rs as [|x rs IH]; [reflexivity|].
  cbn [map reconcilerFiles flat_map fst snd app List.concat].
  do 2 f_equal. exact IH.
Qed.

Lemma reconcilerTemplates_none rs :
  reconcilerTemplates (map (fun r => (r, false)) rs) =
  map (fun _ => "reconciler") rs.
Proof.
  induction rs as [|x rs IH]; [reflexivity|].
  cbn [map reconcilerTemplates flat_map fst snd app]. f_equal. exact IH.
Qed.

Lemma reconcilerTemplates_all rs :
  reconcilerTemplates (map (fun r => (r, true)) rs) =
  List.concat (map (fun _ => ["reconciler"; "reconcilerStub"]) rs).
Proof.
  induction rs as [|x rs IH]; [reflexivity|].
  cbn [map reconcilerTemplates flat_map fst snd app List.concat].
  do 2 f_equal. exact IH.
Qed.

(** The loop of [GenerateReconcilers] in a directory. *)
Lemma GenerateReconcilers_in_directory g0 g present w h1 :
  Generator.OutputDir g0 = Generator.OutputDir g ->
  Generator.Resources g0 = Generator.Resources g ->
  GenerateReconcilers g0 w [] = (Ok tt, h1) ->
  answered present w h1 ->
  written h1 =
    reconcilerFiles g (stubsDue g present [] (Generator.Resources g)) /\
  ran h1 = reconcilerTemplates (stubsDue g present [] (Generator.Resources g)) /\
  made h1 = [].
Proof.
  intros Hdir Hres Hloop. unfold GenerateReconcilers in Hloop.
  rewrite Hres, Hdir in Hloop.
  match type of Hloop with
  | forEach _ ?body _ _ = _ =>
      refine (forEach_invariant body w
                (fun done h =>
                   answered present w h ->
                   written h = reconcilerFiles g (stubsDue g present [] done) /\
                   ran h = reconcilerTemplates (stubsDue g present [] done) /\
                   made h = [])
                _ (Generator.Resources g) [] [] h1 _ Hloop)
  end.
  - intros done x h h' HI Hbody Hans. cbv beta zeta in Hbody.
    apply bind_Ok in Hbody as (a1 & h2 & H1 & Hbody).
    apply Execute_Ok in H1.
    apply bind_Ok in Hbody as (a2 & h3 & H2 & Hbody). apply call_Ok in H2.
    apply bind_Ok in Hbody as (a3 & h4 & H3 & Hbody). apply call_Ok in H3.
    apply bind_Ok in Hbody as (missing & h5 & H4 & Hbody).
    apply statNotExist_Ok in H4 as [Hmiss H4].
    change (names.Join [Generator.OutputDir g]
              [strings.ToLower (ResourceMetadata.Name x)
               +:+ "_reconciler_generated.go"])
      with (companionFile g x) in *.
    change (names.Join [Generator.OutputDir g]
              [strings.ToLower (ResourceMetadata.Name x) +:+ "_reconciler.go"])
      with (stubFile g x) in *.
    assert (Hpre : exists tail, h' = h4 ++ EvStat (stubFile g x) :: tail /\
                     written tail = (if missing then [stubFile g x] else []) /\
                     ran tail = (if missing then ["reconcilerStub"] else []) /\
                     made tail = []).
    { destruct missing.
      - run_inv Hbody. subst. eexists. split.
        + rewrite <- !app_assoc. reflexivity.
        + repeat split.
      - unfold ret in Hbody. exists []. split; [congruence|]. repeat split. }
    destruct Hpre as (tail & Hh' & Hwt & Hrt & Hmt).
    pose proof (Hans h4 (stubFile g x) tail Hh') as Hstat.
    rewrite <- Hmiss in Hstat.
    assert (Hh : answered present w h).
    { subst h2 h3 h4. rewrite Hh', <- !app_assoc in Hans.
      exact (answered_prefix _ _ _ _ Hans). }
    destruct (HI Hh) as (Hw & Hr & Hm).
    assert (Hw4 : written h4 = written h ++ [companionFile g x]).
    { subst h2 h3 h4. unfold written. rewrite !flat_map_app. simpl.
      now rewrite !app_nil_r. }
    assert (Hr4 : ran h4 = ran h ++ ["reconciler"]).
    { subst h2 h3 h4. unfold ran. rewrite !flat_map_app. simpl.
      now rewrite !app_nil_r. }
    assert (Hm4 : made h4 = made h).
    { subst h2 h3 h4. unfold made. rewrite !flat_map_app. simpl.
      now rewrite !app_nil_r. }
    rewrite Hw4, Hw, map_app in Hstat. cbn [map] in Hstat.
    change (names.text (stubFile g x)) with (stubText g x) in Hstat.
    rewrite (found_skip _ _ _ _ (companion_not_stub g x x)) in Hstat.
    pose proof (found_plan g present x done []) as Hplan.
    cbn [map app] in Hplan. rewrite Hplan in Hstat. clear Hplan.
    rewrite stubsDue_app. cbn [app]. rewrite <- Hstat.
    unfold reconcilerFiles, reconcilerTemplates. rewrite !flat_map_app.
    fold (reconcilerFiles g (stubsDue g present [] done)).
    fold (reconcilerTemplates (stubsDue g present [] done)).
    cbn [flat_map fst snd]. rewrite !app_nil_r.
    rewrite Hh'.
    change (h4 ++ EvStat (stubFile g x) :: tail)
      with (h4 ++ [EvStat (stubFile g x)] ++ tail).
    unfold written, ran, made in *. rewrite !flat_map_app.
    rewrite Hw4, Hr4, Hm4, Hw, Hr, Hm, Hwt, Hrt, Hmt. simpl.
    rewrite <- !app_assoc. repeat split.
  - intros _. repeat split.
Qed.

(** X18: A successful run of the reconcile pipeline in which every [os.Stat]
    was answered as by a directory: a path is found when it was there before
    the run or the run has written to it.  The generated companion of every
    resource is written; its stub is written right after it exactly when the
    stub was not there before the run and no earlier resource has the same
    stub path, so that of resources of one name only the first gets a stub.
    The registration and the event handlers come last, and [MkdirAll] is
    not called.  In particular, where the stubs of all resources were there,
    only the companions are written and the stub template is not executed;
    where none was there and the stub paths differ from one another, every
    companion is followed by its stub. *)
Theorem GenerateAll_reconcile_outcome g w present tr :
  Generator.PackageName g = "reconcile" ->
  GenerateAll g w [] = (Ok tt, tr) ->
  answered present w tr ->
  (written tr =
     reconcilerFiles g (stubsDue g present [] (Generator.Resources g)) ++
     [outFile g "registration_generated.go";
      outFile g "event_handlers_generated.go"] /\
   ran tr =
     reconcilerTemplates (stubsDue g present [] (Generator.Resources g)) ++
     ["reconcilerRegistration"; "eventHandlers"] /\
   made tr = []) /\
  ((forall r, In r (Generator.Resources g) -> present (stubText g r) = true) ->
   written tr =
     perResource g "_reconciler_generated.go" ++
     [outFile g "registration_generated.go";
      outFile g "event_handlers_generated.go"] /\
   ran tr =
     map (fun _ => "reconciler") (Generator.Resources g) ++
     ["reconcilerRegistration"; "eventHandlers"]) /\
  ((forall r, In r (Generator.Resources g) -> present (stubText g r) = false) ->
   List.NoDup (map (stubText g) (Generator.Resources g)) ->
   written tr =
     List.concat
       (map (fun r => [companionFile g r; stubFile g r])
            (Generator.Resources g)) ++
     [outFile g "registration_generated.go";
      outFile g "event_handlers_generated.go"] /\
   ran tr =
     List.concat (map (fun _ => ["reconciler"; "reconcilerStub"])
                      (Generator.Resources g)) ++
     ["reconcilerRegistration"; "eventHandlers"]).
Proof.
  intros Hrec Hrun Hans.
  apply GenerateAll_loaded in Hrun as [(msg & _ & Herr & _)|[_ Hrun]];
    [discriminate Herr|].
  cbv zeta in Hrun. rewrite Hrec in Hrun.
  change (String.eqb "reconcile" "main") with false in Hrun.
  change (String.eqb "reconcile" "client") with false in Hrun.
  change (String.eqb "reconcile" "reconcile") with true in Hrun.
  cbv iota in Hrun.
  set (g' := Generator.with_Templates g templateFiles) in Hrun.
  apply bind_Ok in Hrun as ([] & h1 & Hloop & Hrest).
  unfold GenerateReconcilerRegistration, GenerateEventHandlers in Hrest.
  run_inv Hrest. subst.
  rewrite <- !app_assoc in Hans |- *. cbn [app] in Hans |- *.
  pose proof (GenerateReconcilers_in_directory g' g present w h1
                eq_refl eq_refl Hloop (answered_prefix _ _ _ _ Hans))
    as (Hw & Hr & Hm).
  match goal with |- (written ?t = _ /\ _) /\ _ => set (tr := t) end.
  assert (Hmain :
    written tr =
      reconcilerFiles g (stubsDue g present [] (Generator.Resources g)) ++
      [outFile g "registration_generated.go";
       outFile g "event_handlers_generated.go"] /\
    ran tr =
      reconcilerTemplates (stubsDue g present [] (Generator.Resources g)) ++
      ["reconcilerRegistration"; "eventHandlers"] /\
    made tr = []).
  { subst tr. unfold written, ran, made in *.
    rewrite !flat_map_app, Hw, Hr, Hm. repeat split. }
  split; [exact Hmain|]. destruct Hmain as (Hwt & Hrt & _).
  split.
  - intros Hp. rewrite Hwt, Hrt, (stubsDue_present g present _ [] Hp).
    rewrite reconcilerFiles_none, reconcilerTemplates_none. split; reflexivity.
  - intros Hp Hnd. rewrite Hwt, Hrt, (stubsDue_fresh g present _ [] Hp Hnd).
    rewrite reconcilerFiles_all, reconcilerTemplates_all. split; reflexivity.
Qed.

Lemma GenerateAll_reconcile_outcome_witness :
  (written (snd (GenerateAll registeredTwice (directory (fun _ => false)) []))
   = [ ["./out"; "testresource_reconciler_generated.go"];
       ["./out"; "testresource_reconciler.go"];
       ["./out"; "testresource_reconciler_generated.go"];
       ["./out"; "registration_generated.go"];
       ["./out"; "event_handlers_generated.go"] ] /\
   ran (snd (GenerateAll registeredTwice (directory (fun _ => false)) []))
   = ["reconciler"; "reconcilerStub"; "reconciler";
      "reconcilerRegistration"; "eventHandlers"]) /\
  ran (snd (GenerateAll (sample.registered "reconcile")
                        (directory (fun _ => true)) []))
  = ["reconciler"; "reconcilerRegistration"; "eventHandlers"] /\
  ran (snd (GenerateAll (sample.registered "reconcile")
                        (directory (fun _ => false)) []))
  = ["reconciler"; "reconcilerStub"; "reconcilerRegistration"; "eventHandlers"].
Proof.
  split; [|split].
  - destruct (GenerateAll_reconcile_outcome registeredTwice
                (directory (fun _ => false)) (fun _ => false)
                (snd (GenerateAll registeredTwice
                        (directory (fun _ => false)) [])))
      as [(Hw & Hr & _) _].
    + vm_compute. reflexivity.
    + vm_compute. reflexivity.
    + intros pre path post _. reflexivity.
    + rewrite Hw, Hr. split; vm_compute; reflexivity.
  - destruct (GenerateAll_reconcile_outcome (sample.registered "reconcile")
                (directory (fun _ => true)) (fun _ => true)
                (snd (GenerateAll (sample.registered "reconcile")
                        (directory (fun _ => true)) [])))
      as (_ & Hthere & _).
    + vm_compute. reflexivity.
    + vm_compute. reflexivity.
    + intros pre path post _. reflexivity.
    + destruct Hthere as [_ Hr]; [intros r _; reflexivity|].
      rewrite Hr. vm_compute. reflexivity.
  - destruct (GenerateAll_reconcile_outcome (sample.registered "reconcile")
                (directory (fun _ => false)) (fun _ => false)
                (snd (GenerateAll (sample.registered "reconcile")
                        (directory (fun _ => false)) [])))
      as (_ & _ & Hfresh).
    + vm_compute. reflexivity.
    + vm_compute. reflexivity.
    + intros pre path post _. reflexivity.
    + destruct Hfresh as [_ Hr].
      * intros r _. reflexivity.
      * vm_compute. repeat constructor. intros [].
      * rewrite Hr. vm_compute. reflexivity.
Defined.

(** X19: The command-line client, which [GenerateAll] does not run: its template
    is executed on the global data with the package name set to main,
    whatever the package name of the generator, and its one file goes to
    the fixed path cmd/client/main.go, which is not built from the output
    directory. *)
Theorem GenerateClientCmd_outcome g w tr :
  GenerateClientCmd g w [] = (Ok tt, tr) ->
  executed "clientCmd" tr =
    [GlobalData "main" (Generator.ModulePath g) (Generator.Resources g)
                (extractProjectName g) (Generator.StorageType g)
                (Generator.DBDriver g) (Generator.Config g)
                (Generator.Version g) "client/cmd.go.tmpl"] /\
  written tr = [["cmd"; "client"; "main.go"]] /\
  made tr = [["cmd"; "client"]] /\
  ran tr = ["clientCmd"].
Proof.
  intros Hrun. split; [|split; [|split]].
  - assert (Ha : adds "clientCmd" (GenerateClientCmd g)
                   [GlobalData "main" (Generator.ModulePath g)
                      (Generator.Resources g) (extractProjectName g)
                      (Generator.StorageType g) (Generator.DBDriver g)
                      (Generator.Config g) (Generator.Version g)
                      "client/cmd.go.tmpl"]).
    { unfold GenerateClientCmd, globalTemplateData. adds_stage. }
    exact (Ha w [] tt tr Hrun).
  - by_yields anyWorld (@writeOf) w tr I Hrun.
    unfold GenerateClientCmd. eapply yields_eq; [yields_steps | reflexivity].
  - by_yields anyWorld (@dirOf) w tr I Hrun.
    unfold GenerateClientCmd. eapply yields_eq; [yields_steps | reflexivity].
  - by_yields anyWorld (@runOf) w tr I Hrun.
    unfold GenerateClientCmd. eapply yields_eq; [yields_steps | reflexivity].
Qed.

Lemma GenerateClientCmd_outcome_witness :
  executed "clientCmd" (snd (GenerateClientCmd loadedClient quiet [])) =
    [GlobalData "main" (Generator.ModulePath loadedClient)
                (Generator.Resources loadedClient)
                (extractProjectName loadedClient)
                (Generator.StorageType loadedClient)
                (Generator.DBDriver loadedClient) (Generator.Config loadedClient)
                (Generator.Version loadedClient) "client/cmd.go.tmpl"] /\
  written (snd (GenerateClientCmd loadedClient quiet []))
    = [["cmd"; "client"; "main.go"]] /\
  made (snd (GenerateClientCmd loadedClient quiet [])) = [["cmd"; "client"]] /\
  ran (snd (GenerateClientCmd loadedClient quiet [])) = ["clientCmd"].
Proof.
  apply (GenerateClientCmd_outcome loadedClient quiet).
  vm_compute. reflexivity.
Defined.

(** *** No call is made after one that failed *)

Lemma all_succeeded_app w h e1 e2 :
  all_succeeded w h (e1 ++ e2) <->
  all_succeeded w h e1 /\ all_succeeded w (h ++ e1) e2.
Proof.
  revert h. induction e1 as [|ev e1 IH]; intros h; simpl.
  - rewrite app_nil_r. tauto.
  - rewrite IH, <- app_assoc. simpl. tauto.
Qed.

Lemma failed_last_after w h e1 e2 msg :
  all_succeeded w h e1 -> failed_last w (h ++ e1) e2 msg ->
  failed_last w h (e1 ++ e2) msg.
Proof.
  intros H1 (pre & ev & cause & prefix & -> & Hpre & Hfail & ->).
  exists (e1 ++ pre), ev, cause, prefix. repeat split.
  - now rewrite app_assoc.
  - apply all_succeeded_app. split; assumption.
  - now rewrite app_assoc.
Qed.

Lemma orderly_ret {A} (a : A) : orderly (ret a).
Proof.
  intros w h r h' H. injection H as <- <-. exists [].
  split; [now rewrite app_nil_r | exact I].
Qed.

Lemma orderly_call ev prefix :
  (forall p, ev <> EvStat p) -> orderly (call ev prefix).
Proof.
  intros Hns w h r h' H. unfold call in H.
  destruct (callError w h ev) as [cause|] eqn:Hc; injection H as <- <-;
    exists [ev]; (split; [reflexivity|]).
  - exists [], ev, cause, prefix. rewrite app_nil_r. repeat split. exact Hc.
  - split; [|exact I]. destruct ev; try exact Hc. now destruct (Hns path).
Qed.

Lemma orderly_Execute g n data prefix :
  is_Some (Generator.Templates g !! n) -> orderly (Execute g n data prefix).
Proof.
  intros [t Ht]. unfold Execute. rewrite Ht. apply orderly_call. discriminate.
Qed.

Lemma orderly_statNotExist path : orderly (statNotExist path).
Proof.
  intros w h r h' H. injection H as <- <-. exists [EvStat path].
  split; [reflexivity | repeat split].
Qed.

Lemma orderly_bind {A C} (c : Gen A) (k : A -> Gen C) :
  orderly c -> (forall a, orderly (k a)) -> orderly (bind c k).
Proof.
  intros Hc Hk w h r h' H. unfold bind in H.
  destruct (c w h) as [[a|msg|] h1] eqn:Hch.
  - destruct (Hc _ _ _ _ Hch) as (e1 & -> & H1).
    destruct (Hk a _ _ _ _ H) as (e2 & -> & H2).
    exists (e1 ++ e2). split; [now rewrite app_assoc|].
    destruct r as [b|msg|].
    + apply all_succeeded_app. now split.
    + now apply failed_last_after.
    + exact H2.
  - injection H as <- <-. exact (Hc _ _ _ _ Hch).
  - injection H as <- <-. exact (Hc _ _ _ _ Hch).
Qed.

Lemma orderly_if {A} (b : bool) (c1 c2 : Gen A) :
  orderly c1 -> orderly c2 -> orderly (if b then c1 else c2).
Proof. now destruct b. Qed.

Lemma orderly_forEach {A} (xs : list A) (body : A -> Gen unit) :
  (forall x, orderly (body x)) -> orderly (forEach xs body).
Proof.
  intros Hbody. induction xs as [|x xs IH]; simpl.
  - apply orderly_ret.
  - apply orderly_bind; [apply Hbody | intros _; exact IH].
Qed.

Lemma orderly_wrapping {A} (c : Gen A) prefix :
  orderly c -> orderly (wrapping c prefix).
Proof.
  intros Hc w h r h' H. unfold wrapping in H.
  destruct (c w h) as [[a|msg|] h1] eqn:Hch; injection H as <- <-;
    destruct (Hc _ _ _ _ Hch) as (evs & -> & Hevs);
    exists evs; (split; [reflexivity|]); try exact Hevs.
  destruct Hevs as (pre & ev & cause & p & -> & Hpre & Hfail & ->).
  exists pre, ev, cause, (prefix +:+ ": " +:+ p).
  repeat split; try assumption. now rewrite !sapp_assoc.
Qed.

Lemma orderly_executeTemplate g templateName outputPath data :
  is_Some (Generator.Templates g !! templateName) ->
  orderly (executeTemplate g templateName outputPath data).
Proof.
  intros [t Ht]. unfold executeTemplate. rewrite Ht.
  apply orderly_bind; [apply orderly_call; discriminate | intros _].
  apply orderly_bind; [|intros _; apply orderly_call; discriminate].
  apply orderly_if; [apply orderly_call; discriminate | apply orderly_ret].
Qed.

(** Every template that the pipelines name is in the catalogue. *)
Ltac in_catalogue :=
  cbn [Generator.Templates Generator.with_Templates]; vm_compute; eauto.

Ltac orderly_steps :=
  repeat first
    [ apply orderly_ret
    | apply orderly_statNotExist
    | apply orderly_call; discriminate
    | apply orderly_Execute; in_catalogue
    | apply orderly_executeTemplate; in_catalogue
    | apply orderly_wrapping
    | apply orderly_if
    | apply orderly_forEach; intros ?
    | apply orderly_bind; [|intros ?] ].

Lemma pipelines_orderly g :
  let g' := Generator.with_Templates g templateFiles in
  orderly
    ((if String.eqb (Generator.StorageType g) "ent"
      then GenerateEntSchemas g';;; GenerateEntAdapter g'
      else ret tt);;;
     GenerateModels g';;; GenerateHandlers g';;;
     GenerateFlatHandlers g';;; GenerateMiddleware g';;;
     GenerateRoutes g';;; GenerateStorage g';;; GenerateOpenAPI g') /\
  orderly (GenerateClient g';;; GenerateClientModels g') /\
  orderly (GenerateReconcilers g';;; GenerateReconcilerRegistration g';;;
           GenerateEventHandlers g').
Proof.
  cbv zeta.
  unfold GenerateEntSchemas, GenerateEntAdapter, GenerateModels,
    GenerateHandlers, GenerateFlatHandlers, GenerateMiddleware,
    generateMiddlewareFile, GenerateRoutes, GenerateStorage, GenerateOpenAPI,
    GenerateClient, GenerateClientModels, GenerateReconcilers,
    GenerateReconcilerRegistration, GenerateEventHandlers.
  cbn [Generator.StorageType Generator.with_Templates].
  split; [|split].
  - destruct (String.eqb (Generator.StorageType g) "ent"); cbn [negb];
      orderly_steps.
  - orderly_steps.
  - orderly_steps.
Qed.

(** X20: [GenerateAll] never panics.  When it succeeds, every call it made went
    well.  When it returns an error, either nothing was done at all (the
    templates did not load, or the package name is unsupported), or the last
    call it made failed, every call before that one went well, and the error
    message ends with the cause of that failure behind a prefix that names
    the stage: the pipeline stops at the first failure and undoes nothing. *)
Theorem GenerateAll_stops_at_failure g w r tr :
  GenerateAll g w [] = (r, tr) ->
  match r with
  | Ok _ => all_succeeded w [] tr
  | Err msg =>
      (tr = [] /\
       (loadError w = Some msg \/
        msg = "unsupported package type: " +:+ Generator.PackageName g)) \/
      failed_last w [] tr msg
  | Panic => False
  end.
Proof.
  intros Hrun.
  apply GenerateAll_loaded in Hrun as [(msg & Hload & -> & ->)|[_ Hrun]].
  { left. split; [reflexivity | now left]. }
  cbv zeta in Hrun.
  destruct (pipelines_orderly g) as (Hserver & Hclient & Hreconcile).
  assert (Hgo : forall c : Gen unit, orderly c -> c w [] = (r, tr) ->
                match r with
                | Ok _ => all_succeeded w [] tr
                | Err msg =>
                    (tr = [] /\
                     (loadError w = Some msg \/
                      msg = "unsupported package type: "
                            +:+ Generator.PackageName g)) \/
                    failed_last w [] tr msg
                | Panic => False
                end).
  { intros c Hc Hcr. destruct (Hc _ _ _ _ Hcr) as (evs & -> & Hevs).
    destruct r; [exact Hevs | right; exact Hevs | exact Hevs]. }
  destruct (String.eqb (Generator.PackageName g) "main");
    [exact (Hgo _ Hserver Hrun)|].
  destruct (String.eqb (Generator.PackageName g) "client");
    [exact (Hgo _ Hclient Hrun)|].
  destruct (String.eqb (Generator.PackageName g) "reconcile");
    [exact (Hgo _ Hreconcile Hrun)|].
  injection Hrun as <- <-. left. split; [reflexivity | now right].
Qed.

Lemma GenerateAll_stops_at_failure_witness :
  match fst (GenerateAll (sample.registered "main") diskFull []) with
  | Ok _ =>
      all_succeeded diskFull []
        (snd (GenerateAll (sample.registered "main") diskFull []))
  | Err msg =>
      (snd (GenerateAll (sample.registered "main") diskFull []) = [] /\
       (loadError diskFull = Some msg \/
        msg = "unsupported package type: "
              +:+ Generator.PackageName (sample.registered "main"))) \/
      failed_last diskFull []
        (snd (GenerateAll (sample.registered "main") diskFull [])) msg
  | Panic => False
  end.
Proof.
  apply (GenerateAll_stops_at_failure (sample.registered "main") diskFull).
  apply surjective_pairing.
Defined.

(** In the world where writes fail, the server pipeline stops at its first
    write, with the error of that stage. *)
Example GenerateAll_disk_full :
  fst (GenerateAll (sample.registered "main") diskFull []) =
    Err "failed to write models file: no space left on device" /\
  written (snd (GenerateAll (sample.registered "main") diskFull [])) =
    [outFile (sample.registered "main") "models_generated.go"].
Proof. vm_compute. split; reflexivity. Qed.

(** ** The data of the templates *)

Lemma has_byte_ReplaceAll_old s old new :
  old <> new -> text.has_byte old (names.ReplaceAll s old new) = false.
Proof.
  intros Hne. induction s as [|c s IH]; [reflexivity|]. simpl.
  rewrite IH, orb_false_r.
  destruct (Ascii.eqb_spec c old) as [->|Hc].
  - apply Ascii.eqb_neq. congruence.
  - now apply Ascii.eqb_neq.
Qed.

Lemma has_byte_ReplaceAll_other s old new c :
  text.has_byte c s = false -> new <> c ->
  text.has_byte c (names.ReplaceAll s old new) = false.
Proof.
  intros Hs Hne. induction s as [|b s IH]; [reflexivity|]. simpl in *.
  apply orb_false_iff in Hs as [Hb Hs]. rewrite (IH Hs), orb_false_r.
  destruct (Ascii.eqb b old); [now apply Ascii.eqb_neq | exact Hb].
Qed.

Lemma Split_after_sep a b sep :
  exists p ps,
    strings.Split (a +:+ String sep b) sep = p :: ps /\ ps <> [] /\
    List.last ps EmptyString = List.last (strings.Split b sep) EmptyString.
Proof.
  induction a as [|c a IH].
  - rewrite sapp_nil_l. simpl. rewrite Ascii.eqb_refl.
    exists EmptyString, (strings.Split b sep).
    split; [reflexivity | split; [apply Split_not_nil | reflexivity]].
  - destruct IH as (p & ps & Heq & Hps & Hlast).
    rewrite sapp_cons. simpl. rewrite Heq.
    destruct (Ascii.eqb c sep).
    + exists EmptyString, (p :: ps). split; [reflexivity|].
      split; [discriminate|]. destruct ps; [congruence | exact Hlast].
    + exists (String c p), ps. auto.
Qed.

(** X14: The project name is the last piece of the module path with dashes and
    dots turned into underscores: it has no dash, dot or slash in it, and it
    is empty for an empty module path (and for one that ends with a slash);
    the fallback app is never used. *)
Theorem extractProjectName_shape g :
  extractProjectName g =
    names.ReplaceAll
      (names.ReplaceAll
         (List.last (strings.Split (Generator.ModulePath g) "/") EmptyString)
         "-" "_") "." "_" /\
  text.has_byte "-" (extractProjectName g) = false /\
  text.has_byte "." (extractProjectName g) = false /\
  text.has_byte "/" (extractProjectName g) = false /\
  (forall prefix,
     extractProjectName
       (Generator.mk (Generator.OutputDir g) (Generator.PackageName g)
          (prefix +:+ "/") (Generator.Resources g) (Generator.Templates g)
          (Generator.StorageType g) (Generator.DBDriver g)
          (Generator.Verbose g) (Generator.Config g) (Generator.Version g))
     = EmptyString) /\
  extractProjectName
    (Generator.mk (Generator.OutputDir g) (Generator.PackageName g)
       EmptyString (Generator.Resources g) (Generator.Templates g)
       (Generator.StorageType g) (Generator.DBDriver g)
       (Generator.Verbose g) (Generator.Config g) (Generator.Version g))
  = EmptyString.
Proof.
  assert (Heq : forall g0, extractProjectName g0 =
    names.ReplaceAll
      (names.ReplaceAll
         (List.last (strings.Split (Generator.ModulePath g0) "/") EmptyString)
         "-" "_") "." "_").
  { intros g0. unfold extractProjectName. now rewrite Split_length_pos. }
  destruct (Split_last (Generator.ModulePath g) "/") as [Hslash _].
  split; [apply Heq|]. rewrite Heq. split; [|split; [|split; [|split]]].
  - apply has_byte_ReplaceAll_other; [|discriminate].
    apply has_byte_ReplaceAll_old. discriminate.
  - apply has_byte_ReplaceAll_old. discriminate.
  - apply has_byte_ReplaceAll_other; [|discriminate].
    apply has_byte_ReplaceAll_other; [exact Hslash | discriminate].
  - intros prefix. rewrite Heq. cbn [Generator.ModulePath].
    assert (Hlast : List.last (strings.Split (prefix +:+ "/") "/") EmptyString
                    = EmptyString).
    { destruct (Split_after_sep prefix EmptyString "/")
        as (p & ps & -> & Hps & Hl).
      destruct ps as [|q ps]; [congruence | exact Hl]. }
    rewrite Hlast. reflexivity.
  - reflexivity.
Qed.

(** X15: The object that the helper specToJSON renders for a single field taken
    from a type descriptor: a field whose type prints as string has its
    example in double quotes; an int field has the bare 42; a field of type
    []string has the example list, itself already in brackets, put once more
    between a bracket and a quote on each side; and without fields the object
    is the placeholder with the one key name. *)
Theorem specToJSON_single_field f :
  (reflect.String_ (reflect.Field_Type f) = "string" ->
   templateFuncs.specToJSON [specFieldOf f] =
     "{" +:+ (dq +:+ SpecField.JSONName (specFieldOf f) +:+ dq +:+ ": " +:+
              dq +:+ SpecField.ExampleValue (specFieldOf f) +:+ dq) +:+ "}") /\
  (reflect.String_ (reflect.Field_Type f) = "int" ->
   reflect.kind (reflect.Field_Type f) = reflect.Int ->
   templateFuncs.specToJSON [specFieldOf f] =
     "{" +:+ (dq +:+ SpecField.JSONName (specFieldOf f) +:+ dq +:+ ": " +:+
              "42") +:+ "}") /\
  (reflect.String_ (reflect.Field_Type f) = "[]string" ->
   (exists h e, reflect.Field_Type f = reflect.SliceOf h e /\
                reflect.kind e = reflect.String) ->
   templateFuncs.specToJSON [specFieldOf f] =
     "{" +:+ (dq +:+ SpecField.JSONName (specFieldOf f) +:+ dq +:+ ": " +:+
              "[" +:+ dq +:+
              ("[" +:+ dq +:+ "item1" +:+ dq +:+ "," +:+ dq +:+ "item2"
               +:+ dq +:+ "]")
              +:+ dq +:+ "]") +:+ "}") /\
  templateFuncs.specToJSON [] =
    "{" +:+ dq +:+ "name" +:+ dq +:+ ": " +:+ dq +:+ "example" +:+ dq +:+ "}".
Proof.
  unfold templateFuncs.specToJSON, templateFuncs.jsonEntry.
  cbn [length Nat.eqb map text.Join].
  split; [|split; [|split; [|reflexivity]]].
  - intros Hs. unfold specFieldOf at 2.
    cbn [SpecField.Type_]. rewrite Hs. reflexivity.
  - intros Hs Hk. unfold specFieldOf at 2 3.
    cbn [SpecField.Type_ SpecField.ExampleValue]. rewrite Hs.
    unfold generateExampleValue. rewrite Hk. reflexivity.
  - intros Hs (h & e & Hty & Hk). unfold specFieldOf at 2 3.
    cbn [SpecField.Type_ SpecField.ExampleValue]. rewrite Hs.
    unfold generateExampleValue. rewrite Hty. cbn [reflect.kind reflect.Elem].
    rewrite Hk. reflexivity.
Qed.

Lemma specToJSON_single_field_witness :
  templateFuncs.specToJSON
    [specFieldOf (reflect.mkStructField "ChildrenDeviceIDs" EmptyString
                    (reflect.SliceOf
                       (reflect.mkHeader EmptyString EmptyString "[]string")
                       sample.string_)
                    [("json", "childrenDeviceIds,omitempty")])] =
  "{" +:+ (dq +:+ "childrenDeviceIds" +:+ dq +:+ ": " +:+
           "[" +:+ dq +:+
           ("[" +:+ dq +:+ "item1" +:+ dq +:+ "," +:+ dq +:+ "item2"
            +:+ dq +:+ "]")
           +:+ dq +:+ "]") +:+ "}".
Proof.
  destruct (specToJSON_single_field
              (reflect.mkStructField "ChildrenDeviceIDs" EmptyString
                 (reflect.SliceOf
                    (reflect.mkHeader EmptyString EmptyString "[]string")
                    sample.string_)
                 [("json", "childrenDeviceIds,omitempty")]))
    as (_ & _ & Hslice & _).
  apply Hslice; [reflexivity|].
  eexists _, _. split; reflexivity.
Defined.

(** *** The stub is written only where it is missing *)

Lemma guarded_nil g w h : guarded g w h [].
Proof. intros pre d post H. now destruct pre. Qed.

Lemma guarded_single g w h ev :
  (forall d, ev <> EvExecute "reconcilerStub" d) -> guarded g w h [ev].
Proof.
  intros Hne pre d post H. destruct pre as [|x pre].
  - injection H as H _. now destruct (Hne d).
  - injection H as _ H. now destruct pre.
Qed.

Lemma guarded_app g w h e1 e2 :
  guarded g w h e1 -> guarded g w (h ++ e1) e2 -> guarded g w h (e1 ++ e2).
Proof.
  intros H1 H2 pre d post Heq.
  apply app_eq_app in Heq as [mid [[Hpre Hpost]|[He1 He2]]].
  - destruct mid as [|x mid].
    + rewrite app_nil_r in Hpre. subst e1. simpl in Hpost.
      destruct (H2 [] d post (eq_sym Hpost)) as (pre' & r & _ & Hnil & _).
      now destruct pre'.
    + simpl in Hpost. injection Hpost as Hx _. subst x.
      destruct (H1 pre d mid Hpre) as (pre' & r & Hd & Hp & Hn). eauto.
  - destruct (H2 mid d post He2) as (pre' & r & Hd & Hp & Hn).
    exists (e1 ++ pre'), r. split; [exact Hd|]. split.
    + now rewrite He1, Hp, app_assoc.
    + now rewrite app_assoc.
Qed.

Section StubGuard.

Variable g : Generator.t.

Lemma sg_ret {A} (a : A) : stub_guarded g (ret a).
Proof.
  intros w h r h' H. injection H as <- <-. exists [].
  split; [now rewrite app_nil_r | apply guarded_nil].
Qed.

Lemma sg_fail {A} msg : stub_guarded g (@fail A msg).
Proof.
  intros w h r h' H. injection H as <- <-. exists [].
  split; [now rewrite app_nil_r | apply guarded_nil].
Qed.

Lemma sg_call ev prefix :
  (forall d, ev <> EvExecute "reconcilerStub" d) ->
  stub_guarded g (call ev prefix).
Proof.
  intros Hne w h r h' H. unfold call in H.
  destruct (callError w h ev); injection H as <- <-; exists [ev];
    (split; [reflexivity | now apply guarded_single]).
Qed.

Lemma sg_Execute g0 n data prefix :
  String.eqb n "reconcilerStub" = false ->
  stub_guarded g (Execute g0 n data prefix).
Proof.
  intros Hn. unfold Execute. destruct (Generator.Templates g0 !! n).
  - apply sg_call. intros d Heq. injection Heq as -> _. discriminate Hn.
  - intros w h r h' H. injection H as <- <-. exists [].
    split; [now rewrite app_nil_r | apply guarded_nil].
Qed.

Lemma sg_bind {A C} (c : Gen A) (k : A -> Gen C) :
  stub_guarded g c -> (forall a, stub_guarded g (k a)) ->
  stub_guarded g (bind c k).
Proof.
  intros Hc Hk w h r h' H. unfold bind in H.
  destruct (c w h) as [[a|msg|] h1] eqn:Hch.
  - destruct (Hc _ _ _ _ Hch) as (e1 & -> & H1).
    destruct (Hk a _ _ _ _ H) as (e2 & -> & H2).
    exists (e1 ++ e2). split; [now rewrite app_assoc | now apply guarded_app].
  - injection H as <- <-. exact (Hc _ _ _ _ Hch).
  - injection H as <- <-. exact (Hc _ _ _ _ Hch).
Qed.

Lemma sg_if {A} (b : bool) (c1 c2 : Gen A) :
  stub_guarded g c1 -> stub_guarded g c2 ->
  stub_guarded g (if b then c1 else c2).
Proof. now destruct b. Qed.

Lemma sg_forEach {A} (xs : list A) (body : A -> Gen unit) :
  (forall x, stub_guarded g (body x)) -> stub_guarded g (forEach xs body).
Proof.
  intros Hbody. induction xs as [|x xs IH]; simpl.
  - apply sg_ret.
  - apply sg_bind; [apply Hbody | intros _; exact IH].
Qed.

Lemma sg_wrapping {A} (c : Gen A) prefix :
  stub_guarded g c -> stub_guarded g (wrapping c prefix).
Proof.
  intros Hc w h r h' H. unfold wrapping in H.
  destruct (c w h) as [[a|msg|] h1] eqn:Hch; injection H as <- <-;
    exact (Hc _ _ _ _ Hch).
Qed.

Lemma sg_executeTemplate g0 templateName outputPath data :
  String.eqb templateName "reconcilerStub" = false ->
  stub_guarded g (executeTemplate g0 templateName outputPath data).
Proof.
  intros Hn. unfold executeTemplate.
  destruct (Generator.Templates g0 !! templateName); [|apply sg_fail].
  apply sg_bind; [|intros _].
  { apply sg_call. intros d Heq. injection Heq as -> _. discriminate Hn. }
  apply sg_bind; [|intros _; apply sg_call; discriminate].
  apply sg_if; [apply sg_call; discriminate | apply sg_ret].
Qed.

(** The end of the body of the loop of [GenerateReconcilers]. *)
Lemma sg_stub_block g0 r p1 p2 p3 :
  stub_guarded g
    (bind (statNotExist (stubFile g r))
       (fun missing =>
          if (missing : bool) then
            Execute g0 "reconcilerStub"
              (templateData g r "reconciliation/stub.go.tmpl") p1 ;;;
            call (EvFormat "reconcilerStub"
                    (templateData g r "reconciliation/stub.go.tmpl")) p2 ;;;
            call (EvWriteFile (stubFile g r)) p3
          else ret tt)).
Proof.
  intros w h res h' H. unfold bind at 1, statNotExist in H.
  destruct (notExist w h (stubFile g r)) eqn:Hmissing.
  - assert (Hrest : stub_guarded g
              (call (EvFormat "reconcilerStub"
                       (templateData g r "reconciliation/stub.go.tmpl")) p2 ;;;
               call (EvWriteFile (stubFile g r)) p3)).
    { apply sg_bind; [|intros _]; apply sg_call; discriminate. }
    unfold Execute in H.
    destruct (Generator.Templates g0 !! "reconcilerStub").
    + unfold bind at 1, call at 1 in H.
      destruct (callError w _ _) as [cause|].
      * injection H as <- <-.
        exists [EvStat (stubFile g r);
                EvExecute "reconcilerStub"
                  (templateData g r "reconciliation/stub.go.tmpl")].
        split; [now rewrite <- app_assoc|].
        intros pre d post Heq. destruct pre as [|x pre]; [discriminate|].
        injection Heq as <- Heq. destruct pre as [|y pre].
        -- injection Heq as <- _. exists [], r. rewrite app_nil_r. auto.
        -- injection Heq as _ Heq. now destruct pre.
      * destruct (Hrest _ _ _ _ H) as (evs & -> & Hevs).
        exists ([EvStat (stubFile g r);
                 EvExecute "reconcilerStub"
                   (templateData g r "reconciliation/stub.go.tmpl")] ++ evs).
        split; [now rewrite <- !app_assoc|].
        apply guarded_app; [|rewrite <- app_assoc in Hevs; exact Hevs].
        intros pre d post Heq. destruct pre as [|x pre]; [discriminate|].
        injection Heq as <- Heq. destruct pre as [|y pre].
        -- injection Heq as <- _. exists [], r. rewrite app_nil_r. auto.
        -- injection Heq as _ Heq. now destruct pre.
    + injection H as <- <-. exists [EvStat (stubFile g r)].
      split; [reflexivity | apply guarded_single; discriminate].
  - injection H as <- <-. exists [EvStat (stubFile g r)].
    split; [reflexivity | apply guarded_single; discriminate].
Qed.

End StubGuard.

Ltac sg_steps g :=
  repeat first
    [ apply sg_ret | apply sg_fail
    | apply (sg_stub_block g)
    | apply sg_call; discriminate
    | apply sg_Execute; reflexivity
    | apply sg_executeTemplate; reflexivity
    | apply sg_wrapping
    | apply sg_if
    | apply sg_forEach; intros ?
    | apply sg_bind; [|intros ?] ].

Lemma pipelines_stub_guarded g :
  let g' := Generator.with_Templates g templateFiles in
  stub_guarded g'
    ((if String.eqb (Generator.StorageType g) "ent"
      then GenerateEntSchemas g';;; GenerateEntAdapter g'
      else ret tt);;;
     GenerateModels g';;; GenerateHandlers g';;;
     GenerateFlatHandlers g';;; GenerateMiddleware g';;;
     GenerateRoutes g';;; GenerateStorage g';;; GenerateOpenAPI g') /\
  stub_guarded g' (GenerateClient g';;; GenerateClientModels g') /\
  stub_guarded g'
    (GenerateReconcilers g';;; GenerateReconcilerRegistration g';;;
     GenerateEventHandlers g').
Proof.
  intros g'.
  unfold GenerateEntSchemas, GenerateEntAdapter, GenerateModels,
    GenerateHandlers, GenerateFlatHandlers, GenerateMiddleware,
    generateMiddlewareFile, GenerateRoutes, GenerateStorage, GenerateOpenAPI,
    GenerateClient, GenerateClientModels, GenerateReconcilers,
    GenerateReconcilerRegistration, GenerateEventHandlers.
  split; [|split].
  - destruct (String.eqb (Generator.StorageType g) "ent");
      destruct (String.eqb (Generator.StorageType g') "ent");
      cbn [negb]; sg_steps g'.
  - sg_steps g'.
  - sg_steps g'.
Qed.

Lemma executed_In name d tr :
  In d (executed name tr) -> exists pre post, tr = pre ++ EvExecute name d :: post.
Proof.
  induction tr as [|ev tr IH]; [contradiction|]. simpl.
  destruct ev as [p|n d'|n d'|p|p];
    try (intros H; destruct (IH H) as (pre & post & ->);
         eexists (_ :: pre), post; reflexivity).
  destruct (String.eqb_spec n name) as [->|Hne].
  - intros [->|H].
    + exists [], tr. reflexivity.
    + destruct (IH H) as (pre & post & ->).
      eexists (_ :: pre), post. reflexivity.
  - intros H. destruct (IH H) as (pre & post & ->).
    eexists (_ :: pre), post. reflexivity.
Qed.

(** X21: The stub of a reconciler is generated only where it is missing: in
    every run of [GenerateAll], successful or not, each execution of the stub
    template is on the data of a resource and comes right after the
    [os.Stat] of the stub file of that resource, which did not find it.  So
    the stub template is never executed on a resource whose stub file is
    there. *)
Theorem GenerateAll_stub_once g w r tr :
  GenerateAll g w [] = (r, tr) ->
  guarded g w [] tr /\
  (forall resource,
     (forall h, notExist w h (stubFile g resource) = false) ->
     ~ In (templateData g resource "reconciliation/stub.go.tmpl")
          (executed "reconcilerStub" tr)).
Proof.
  intros Hrun.
  assert (Hg : guarded g w [] tr).
  { apply GenerateAll_loaded in Hrun as [(msg & _ & _ & ->)|[_ Hrun]];
      [apply guarded_nil|].
    cbv zeta in Hrun.
    destruct (pipelines_stub_guarded g) as (Hserver & Hclient & Hreconcile).
    assert (Hgo : forall c : Gen unit,
               stub_guarded (Generator.with_Templates g templateFiles) c ->
               c w [] = (r, tr) -> guarded g w [] tr).
    { intros c Hc Hcr. destruct (Hc _ _ _ _ Hcr) as (evs & -> & Hevs).
      exact Hevs. }
    destruct (String.eqb (Generator.PackageName g) "main");
      [exact (Hgo _ Hserver Hrun)|].
    destruct (String.eqb (Generator.PackageName g) "client");
      [exact (Hgo _ Hclient Hrun)|].
    destruct (String.eqb (Generator.PackageName g) "reconcile");
      [exact (Hgo _ Hreconcile Hrun)|].
    injection Hrun as _ <-. apply guarded_nil. }
  split; [exact Hg|].
  intros resource Hthere Hin.
  apply executed_In in Hin as (pre & post & Htr).
  destruct (Hg _ _ _ Htr) as (pre' & r' & Hd & _ & Hmissing).
  unfold templateData in Hd. injection Hd as <- _.
  rewrite Hthere in Hmissing. discriminate.
Qed.

Lemma GenerateAll_stub_once_witness :
  guarded (sample.registered "reconcile") stubbed []
    (snd (GenerateAll (sample.registered "reconcile") stubbed [])) /\
  ~ In (templateData (sample.registered "reconcile")
          (newest (sample.registered "reconcile"))
          "reconciliation/stub.go.tmpl")
       (executed "reconcilerStub"
          (snd (GenerateAll (sample.registered "reconcile") stubbed []))).
Proof.
  destruct (GenerateAll_stub_once (sample.registered "reconcile") stubbed
              (fst (GenerateAll (sample.registered "reconcile") stubbed []))
              (snd (GenerateAll (sample.registered "reconcile") stubbed [])))
    as [Hguard Hnever].
  - apply surjective_pairing.
  - split; [exact Hguard|]. apply Hnever. intros h. vm_compute. reflexivity.
Defined.

(** ** The configuration *)

(** X13: No operation of the package changes the configuration record: on a
    generator built by the public operations it is still the one of
    [NewGenerator].  In particular [SetStorageType] changes the storage type
    of the generator only, so after it the global template data carries the
    new storage type beside a configuration whose storage type is still
    file. *)
Theorem reachable_config g :
  reachable g ->
  Generator.Config g = defaultConfig /\
  forall storageType templateName,
    dataStorage (globalTemplateData (SetStorageType g storageType) templateName)
    = Some (storageType, defaultConfig) /\
    GeneratorConfig.StorageType defaultConfig = "file".
Proof.
  intros Hreach.
  assert (Hc : Generator.Config g = defaultConfig).
  { induction Hreach as [o p m | g t g' _ IH Hreg | g n k v _ IH | g n v _ IH
                        | g v _ IH | g s _ IH | g d _ IH];
      try exact IH; try reflexivity.
    - apply RegisterResource_newest in Hreg as (-> & _). exact IH.
    - unfold SetResourceTag. now destruct (list_find _ _) as [[i r]|].
    - unfold AddResourceVersion. destruct (list_find _ _) as [[i r]|]; [|exact IH].
      now destruct (existsb _ _). }
  split; [exact Hc|]. intros storageType templateName.
  split; [|reflexivity].
  unfold globalTemplateData, SetStorageType. cbn. now rewrite Hc.
Qed.

Lemma reachable_config_witness :
  Generator.Config scenario.upgraded = defaultConfig /\
  forall storageType templateName,
    dataStorage
      (globalTemplateData (SetStorageType scenario.upgraded storageType)
                          templateName)
    = Some (storageType, defaultConfig) /\
    GeneratorConfig.StorageType defaultConfig = "file".
Proof. exact (reachable_config scenario.upgraded upgraded_reachable). Defined.

(** [GenerateAll] loads the catalogue anew each time: what the template map
    held before has no influence on the run. *)
Theorem GenerateAll_reloads g templates w h :
  GenerateAll (Generator.with_Templates g templates) w h = GenerateAll g w h.
Proof.
  unfold GenerateAll, bind, LoadTemplates.
  destruct (loadError w); reflexivity.
Qed.

Lemma RegisterResource_panics_iff_witness :
  RegisterResource (NewGenerator "./out" "main" "github.com/test/app")
                   sample.int_ = None.
Proof.
  apply (RegisterResource_panics_iff
           (NewGenerator "./out" "main" "github.com/test/app") sample.int_).
  reflexivity.
Defined.
